(** * Pune School Dashboard: normalisation, roll-up and composite index

    A shallow embedding of the data-import parser
    ([backend/data_import/parser.py]), of the ETL pipeline
    ([backend/etl/etl_pipeline.py]) and of the composite-index code of
    [backend/routers/executive.py] and [backend/server.py], with the
    properties of the specification stated and settled on it, followed by
    the helpers around them, the drill-down scope of
    [backend/utils/scope.py] and further properties of the code.

    Python values are embedded as follows.
    - [int] is [Z].
    - [float] is [pyfloat]: a finite binary64 value is carried as the
      rational number it denotes, and every arithmetic operation rounds its
      exact result to the nearest binary64 value, ties to even ([b64]).
      The sign of zero is not tracked.
    - [str] is [string] (bytes; the cells used here are ASCII).
    - a [dict] whose iteration order is observed is an association list in
      insertion order.
    - an exception is a value of [exn] carried by [result]. *)

From Stdlib Require Import ZArith QArith Qround Qpower Qreduction.
From Stdlib Require Import Lia Lqa Bool List String Ascii DecimalString.
From Stdlib Require Import Permutation DecimalPos.
Import ListNotations.

Local Open Scope Z_scope.

(** ** Exceptions *)

Inductive exn : Type :=
| ValueError
| TypeError
| OverflowError
| ZeroDivisionError.

Inductive result (A : Type) : Type :=
| Ok (a : A)
| Raise (e : exn).

Arguments Ok {A} a.
Arguments Raise {A} e.

Definition bind {A B : Type} (m : result A) (k : A -> result B) : result B :=
  match m with
  | Ok a => k a
  | Raise e => Raise e
  end.

Notation "x <- m ;; k" := (bind m (fun x => k))
  (at level 61, m at next level, right associativity).

Fixpoint mapM {A B : Type} (f : A -> result B) (l : list A) : result (list B) :=
  match l with
  | [] => Ok []
  | a :: l' => b <- f a ;; bs <- mapM f l' ;; Ok (b :: bs)
  end.

(** ** Binary64 floating point *)

Module Float.

Inductive pyfloat : Type :=
| Fin (q : Q)
| PInf
| NInf
| NaN.

(** Nearest integer, ties to the even one. *)
Definition rne (q : Q) : Z :=
  let f := Qfloor q in
  match (q - inject_Z f ?= 1 # 2)%Q with
  | Lt => f
  | Gt => f + 1
  | Eq => if Z.even f then f else f + 1
  end.

(** [ilog2 q] is the integer part of the binary logarithm of [q > 0]. *)
Definition ilog2 (q : Q) : Z :=
  let k := Z.log2 (Qnum q) - Z.log2 (Zpos (Qden q)) in
  if Qle_bool (2 ^ k) q then k else k - 1.

(** Exponent of the unit in the last place: 53 significant bits, and the
    subnormal floor of binary64. *)
Definition b64_exp (q : Q) : Z := Z.max (ilog2 q - 52) (-1074).

(** Rounding of a positive rational to the binary64 grid. *)
Definition b64_pos (q : Q) : Q :=
  (inject_Z (rne (q / 2 ^ b64_exp q)) * 2 ^ b64_exp q)%Q.

Definition b64_huge : Q := (2 ^ 1024)%Q.

(** A positive binary64 value: it is its own rounding. *)
Definition b64_fix (h : Q) : Prop := (b64_pos h == h)%Q /\ (h < b64_huge)%Q.

(** Rounding to nearest, ties to even, overflowing to an infinity. *)
Definition b64 (q : Q) : pyfloat :=
  match (q ?= 0)%Q with
  | Eq => Fin 0
  | Gt => let r := b64_pos q in
          if Qle_bool b64_huge r then PInf else Fin (Qred r)
  | Lt => let r := b64_pos (- q) in
          if Qle_bool b64_huge r then NInf else Fin (Qred (- r))
  end.

Definition fopp (x : pyfloat) : pyfloat :=
  match x with
  | Fin q => Fin (Qred (- q))
  | PInf => NInf
  | NInf => PInf
  | NaN => NaN
  end.

Definition fadd (x y : pyfloat) : pyfloat :=
  match x, y with
  | NaN, _ | _, NaN => NaN
  | Fin a, Fin b => b64 (a + b)
  | PInf, NInf | NInf, PInf => NaN
  | PInf, _ | _, PInf => PInf
  | NInf, _ | _, NInf => NInf
  end.

Definition fsub (x y : pyfloat) : pyfloat := fadd x (fopp y).

(** Sign of a float: [Lt], [Eq] or [Gt] against zero; [None] for NaN. *)
Definition fsign (x : pyfloat) : option comparison :=
  match x with
  | Fin q => Some (q ?= 0)%Q
  | PInf => Some Gt
  | NInf => Some Lt
  | NaN => None
  end.

Definition inf_of_sign (c : comparison) : pyfloat :=
  match c with
  | Gt => PInf
  | Lt => NInf
  | Eq => NaN
  end.

Definition sign_mul (a b : comparison) : comparison :=
  match a, b with
  | Eq, _ | _, Eq => Eq
  | Gt, c | c, Gt => c
  | Lt, Lt => Gt
  end.

Definition fmul (x y : pyfloat) : pyfloat :=
  match x, y with
  | Fin a, Fin b => b64 (a * b)
  | _, _ =>
      match fsign x, fsign y with
      | Some a, Some b => inf_of_sign (sign_mul a b)
      | _, _ => NaN
      end
  end.

(** Python raises on a zero divisor, whatever the dividend, where IEEE
    would give an infinity or a NaN. *)
Definition fdiv (x y : pyfloat) : result pyfloat :=
  match y with
  | Fin b =>
      if Qeq_bool b 0 then Raise ZeroDivisionError
      else match x with
           | Fin a => Ok (b64 (a / b))
           | NaN => Ok NaN
           | _ =>
               match fsign x with
               | Some a => Ok (inf_of_sign (sign_mul a (b ?= 0)%Q))
               | None => Ok NaN
               end
           end
  | NaN => Ok NaN
  | PInf | NInf =>
      match x with
      | Fin _ => Ok (Fin 0)
      | _ => Ok NaN
      end
  end.

(** Comparisons: every comparison with NaN is false. *)
Definition fcmp (x y : pyfloat) : option comparison :=
  match x, y with
  | NaN, _ | _, NaN => None
  | Fin a, Fin b => Some (a ?= b)%Q
  | PInf, PInf | NInf, NInf => Some Eq
  | PInf, _ | _, NInf => Some Gt
  | NInf, _ | _, PInf => Some Lt
  end.

(** [float(n)] for an [int n]. *)
Definition of_int (n : Z) : result pyfloat :=
  match b64 (inject_Z n) with
  | Fin q => Ok (Fin q)
  | _ => Raise OverflowError
  end.

(** [a / b] for two [int]s: the correctly rounded quotient. *)
Definition int_truediv (a b : Z) : result pyfloat :=
  if b =? 0 then Raise ZeroDivisionError
  else match b64 (inject_Z a / inject_Z b) with
       | Fin q => Ok (Fin q)
       | _ => Raise OverflowError
       end.

(** [round(x, nd)] for a float [x] and a few decimals [nd >= 0]: the decimal
    nearest to the exact value of [x], ties to even, converted back to
    binary64. *)
Definition fround (x : pyfloat) (nd : Z) : pyfloat :=
  match x with
  | Fin q => b64 (inject_Z (rne (q * 10 ^ nd)) / 10 ^ nd)
  | _ => x
  end.

(** [int(x)]: truncation towards zero. *)
Definition to_int (x : pyfloat) : result Z :=
  match x with
  | Fin q => Ok (Z.quot (Qnum q) (Zpos (Qden q)))
  | PInf | NInf => Raise OverflowError
  | NaN => Raise ValueError
  end.

End Float.

Import Float.

(** ** Python numbers: [int] or [float] *)

Inductive num : Type :=
| NInt (n : Z)
| NFloat (x : pyfloat).

Definition num_to_float (v : num) : result pyfloat :=
  match v with
  | NInt n => of_int n
  | NFloat x => Ok x
  end.

Definition py_add (a b : num) : result num :=
  match a, b with
  | NInt m, NInt n => Ok (NInt (m + n))
  | _, _ => x <- num_to_float a ;; y <- num_to_float b ;; Ok (NFloat (fadd x y))
  end.

Definition py_sub (a b : num) : result num :=
  match a, b with
  | NInt m, NInt n => Ok (NInt (m - n))
  | _, _ => x <- num_to_float a ;; y <- num_to_float b ;; Ok (NFloat (fsub x y))
  end.

Definition py_mul (a b : num) : result num :=
  match a, b with
  | NInt m, NInt n => Ok (NInt (m * n))
  | _, _ => x <- num_to_float a ;; y <- num_to_float b ;; Ok (NFloat (fmul x y))
  end.

Definition py_truediv (a b : num) : result num :=
  match a, b with
  | NInt m, NInt n => q <- int_truediv m n ;; Ok (NFloat q)
  | _, _ =>
      x <- num_to_float a ;; y <- num_to_float b ;;
      q <- fdiv x y ;; Ok (NFloat q)
  end.

(** [round(v, nd)] with [nd >= 0]: an [int] is returned unchanged. *)
Definition py_round (v : num) (nd : Z) : num :=
  match v with
  | NInt n => NInt n
  | NFloat x => NFloat (fround x nd)
  end.

(** Mixed comparisons are exact: the [int] is not rounded first. *)
Definition num_exact (v : num) : pyfloat :=
  match v with
  | NInt n => Fin (inject_Z n)
  | NFloat x => x
  end.

Definition py_cmp (a b : num) : option comparison :=
  fcmp (num_exact a) (num_exact b).

Definition py_ge (a b : num) : bool :=
  match py_cmp a b with
  | Some Gt | Some Eq => true
  | _ => false
  end.

Definition py_gt (a b : num) : bool :=
  match py_cmp a b with
  | Some Gt => true
  | _ => false
  end.

Definition py_lt (a b : num) : bool :=
  match py_cmp a b with
  | Some Lt => true
  | _ => false
  end.

Definition py_le (a b : num) : bool :=
  match py_cmp a b with
  | Some Lt | Some Eq => true
  | _ => false
  end.

(** Truth value of a number: zero is false, NaN is true. *)
Definition num_truthy (v : num) : bool :=
  match py_cmp v (NInt 0) with
  | Some Eq => false
  | _ => true
  end.

(** The float literal [d], as the compiler reads it. *)
Definition lit (d : Q) : pyfloat := b64 d.

(** ** Strings *)

Module Str.

Local Open Scope string_scope.

(** [s.startswith(p)] *)
Definition startswith (s p : string) : bool := String.prefix p s.

Fixpoint rev_string (acc s : string) : string :=
  match s with
  | EmptyString => acc
  | String c t => rev_string (String c acc) t
  end.

(** [s.endswith(p)] *)
Definition endswith (s p : string) : bool :=
  String.prefix (rev_string "" p) (rev_string "" s).

(** [needle in hay]. *)
Fixpoint contains (needle hay : string) : bool :=
  String.prefix needle hay ||
  match hay with
  | EmptyString => false
  | String _ t => contains needle t
  end.

Definition is_upper (c : ascii) : bool :=
  (65 <=? nat_of_ascii c)%nat && (nat_of_ascii c <=? 90)%nat.

Definition lower_char (c : ascii) : ascii :=
  if is_upper c then ascii_of_nat (nat_of_ascii c + 32) else c.

(** [s.lower()] *)
Fixpoint lower (s : string) : string :=
  match s with
  | EmptyString => EmptyString
  | String c t => String (lower_char c) (lower t)
  end.

(** ASCII characters for which [str.isspace] holds. *)
Definition is_space (c : ascii) : bool :=
  let n := nat_of_ascii c in
  ((9 <=? n)%nat && (n <=? 13)%nat) || ((28 <=? n)%nat && (n <=? 32)%nat).

Fixpoint lstrip (s : string) : string :=
  match s with
  | EmptyString => EmptyString
  | String c t => if is_space c then lstrip t else s
  end.

(** [s.strip()] *)
Definition strip (s : string) : string :=
  rev_string "" (lstrip (rev_string "" (lstrip s))).

Definition is_digit (c : ascii) : bool :=
  (48 <=? nat_of_ascii c)%nat && (nat_of_ascii c <=? 57)%nat.

Definition digit_val (c : ascii) : Z := Z.of_nat (nat_of_ascii c) - 48.

(** Longest prefix of decimal digits, and what follows it. *)
Fixpoint span_digits (s : string) : string * string :=
  match s with
  | EmptyString => (EmptyString, EmptyString)
  | String c t =>
      if is_digit c
      then let (d, r) := span_digits t in (String c d, r)
      else (EmptyString, s)
  end.

Fixpoint digits_value (acc : Z) (s : string) : Z :=
  match s with
  | EmptyString => acc
  | String c t => digits_value (10 * acc + digit_val c) t
  end.

(** The text between an opening and a closing parenthesis is one or more
    digits: the pattern [(<digits>)]. *)
Definition paren_digits (s : string) : bool :=
  match s with
  | String "(" t =>
      let (d, r) := span_digits t in
      negb (String.eqb d "") && String.eqb r ")"
  | _ => false
  end.

(** Underscores in a numeric literal must sit between two digits; when they
    do, they are dropped. *)
Fixpoint drop_underscores (prev : ascii) (s : string) : option string :=
  match s with
  | EmptyString => if Ascii.eqb prev "_" then None else Some EmptyString
  | String c t =>
      if Ascii.eqb c "_"
      then if is_digit prev then drop_underscores c t else None
      else if Ascii.eqb prev "_" && negb (is_digit c) then None
           else option_map (String c) (drop_underscores c t)
  end.

Definition split_sign (s : string) : bool * string :=
  match s with
  | String "-" t => (true, t)
  | String "+" t => (false, t)
  | _ => (false, s)
  end.

(** Unsigned decimal literal with optional fraction and exponent. *)
Definition parse_decimal (s : string) : option Q :=
  let (ip, r1) := span_digits s in
  let (fp, r2) :=
    match r1 with
    | String "." t => span_digits t
    | _ => (EmptyString, r1)
    end in
  if String.eqb ip "" && String.eqb fp "" then None
  else
    let mant := inject_Z (digits_value 0 (ip ++ fp)) in
    let scale := - Z.of_nat (String.length fp) in
    match r2 with
    | EmptyString => Some (mant * 10 ^ scale)%Q
    | String c t =>
        if Ascii.eqb c "e" || Ascii.eqb c "E" then
          let (neg, t') := split_sign t in
          let (ed, r3) := span_digits t' in
          if String.eqb ed "" || negb (String.eqb r3 "") then None
          else
            let e := digits_value 0 ed in
            Some (mant * 10 ^ (scale + (if neg then - e else e)))%Q
        else None
    end.

(** The blanks [float] skips at both ends of an ASCII string: those of C's
    [isspace], which leave out the four separators 28 to 31 that
    [str.strip] removes. *)
Definition is_cspace (c : ascii) : bool :=
  let n := nat_of_ascii c in
  ((9 <=? n)%nat && (n <=? 13)%nat) || (n =? 32)%nat.

Fixpoint lstrip_c (s : string) : string :=
  match s with
  | EmptyString => EmptyString
  | String c t => if is_cspace c then lstrip_c t else s
  end.

Definition strip_c (s : string) : string :=
  rev_string "" (lstrip_c (rev_string "" (lstrip_c s))).

(** [float(s)] for a string of ASCII text; the blanks and decimal digits
    of other scripts, which [float] also accepts, are outside the model. *)
Definition float_of_string (s : string) : result pyfloat :=
  match drop_underscores " " (strip_c s) with
  | None => Raise ValueError
  | Some t =>
      let (neg, body) := split_sign t in
      let b := lower body in
      if String.eqb b "inf" || String.eqb b "infinity"
      then Ok (if neg then NInf else PInf)
      else if String.eqb b "nan" then Ok NaN
      else match parse_decimal body with
           | Some q => Ok (b64 (if neg then - q else q))
           | None => Raise ValueError
           end
  end.

(** [str(n)] for an [int]. *)
Definition string_of_Z (n : Z) : string :=
  match n with
  | Z0 => "0"
  | Zpos p => NilEmpty.string_of_uint (Pos.to_uint p)
  | Zneg p => String "-" (NilEmpty.string_of_uint (Pos.to_uint p))
  end.

End Str.

(** ** Cell values and the coercion layer *)

(** A spreadsheet cell as pandas hands it over: [VNone] is [None], the
    default of [row.get] for an absent column; an empty cell is the float
    NaN, [VFloat NaN]. *)
Inductive pyval : Type :=
| VNone
| VBool (b : bool)
| VInt (n : Z)
| VFloat (x : pyfloat)
| VStr (s : string).

(** [pd.isna(val)] *)
Definition isna (v : pyval) : bool :=
  match v with
  | VNone | VFloat NaN => true
  | _ => false
  end.

(** [str(val)] and the [safe_str] of both modules,
    [str(val).strip()] unless the cell is missing.  The decimal rendering
    of a float is the parameter [float_repr]. *)
Section Stringify.

Variable float_repr : pyfloat -> string.

Definition py_str (v : pyval) : string :=
  match v with
  | VNone => "None"
  | VBool b => if b then "True" else "False"
  | VInt n => Str.string_of_Z n
  | VFloat x => float_repr x
  | VStr s => s
  end.

Definition safe_str (val : pyval) : string :=
  if isna val then EmptyString else Str.strip (py_str val).

End Stringify.

(** [float(val)] *)
Definition py_float (v : pyval) : result pyfloat :=
  match v with
  | VNone => Raise TypeError
  | VBool b => Ok (Fin (if b then 1 else 0))
  | VInt n => of_int n
  | VFloat x => Ok x
  | VStr s => Str.float_of_string s
  end.

(** [int(float(val))] *)
Definition int_of_float_of (v : pyval) : result Z :=
  x <- py_float v ;; to_int x.

(** [try: ... except (ValueError, TypeError): return d] *)
Definition except_value_type {A : Type} (body : result A) (d : A) : result A :=
  match body with
  | Raise ValueError | Raise TypeError => Ok d
  | r => r
  end.

(** [try: ... except: return d] *)
Definition except_all {A : Type} (body : result A) (d : A) : A :=
  match body with
  | Ok a => a
  | Raise _ => d
  end.

(** [backend/data_import/parser.py] *)
Module Parser.

Definition safe_int (val : pyval) : result Z :=
  except_value_type
    (if isna val then Ok 0 else int_of_float_of val)
    0.

Definition safe_float (val : pyval) : result pyfloat :=
  except_value_type
    (if isna val then Ok (Fin 0) else py_float val)
    (Fin 0).

End Parser.

(** [backend/etl/etl_pipeline.py] *)
Module Etl.

(** The body of the [try] of [safe_int].  [re.match(r'^(\d+)', val)] is the
    longest prefix of digits; the cap [int] puts on the number of digits of
    a string is not modelled. *)
Definition safe_int_body (val : pyval) : result Z :=
  if isna val then Ok 0
  else
    match val with
    | VStr s =>
        if Str.startswith s "1-" || String.eqb (Str.lower s) "yes" then Ok 1
        else if Str.startswith s "2-" || String.eqb (Str.lower s) "no" then Ok 0
        else if Str.startswith s "(" && Str.endswith s ")" then Ok 0
        else
          match Str.span_digits s with
          | (EmptyString, _) => int_of_float_of val
          | (d, _) => Ok (Str.digits_value 0 d)
          end
    | _ => int_of_float_of val
    end.

Definition safe_int (val : pyval) : Z := except_all (safe_int_body val) 0.

Definition safe_float (val : pyval) : pyfloat :=
  except_all (if isna val then Ok (Fin 0) else py_float val) (Fin 0).

(** A data-frame row: the cells by column name, in column order. *)
Definition row : Type := list (string * pyval).

Definition columns (r : row) : list string := map fst r.

(** [row.get(col)]: the cell, or [None] when there is no such column.  The
    labels of a frame as [read_excel] returns it are distinct, a repeated
    header being renamed, so that a label has one cell. *)
Fixpoint row_get (r : row) (col : string) : pyval :=
  match r with
  | [] => VNone
  | (c, v) :: r' => if String.eqb c col then v else row_get r' col
  end.

(** [row.values] *)
Definition row_values (r : row) : list pyval := map snd r.

Definition is_placeholder_cell (val : pyval) : bool :=
  match val with
  | VStr s => Str.startswith s "(" && Str.endswith s ")"
  | _ => false
  end.

Definition is_placeholder_row (r : row) : bool :=
  existsb is_placeholder_cell (firstn 5 (row_values r)).

(** [df[~df.apply(is_placeholder_row, axis=1)]] *)
Definition read_excel_skip_placeholders (df : list row) : list row :=
  filter (fun r => negb (is_placeholder_row r)) df.

(** *** Rates of the ETL normalizers *)

(** [round((n / d * 100) if d > 0 else 0, 2)] *)
Definition rate2 (n d : Z) : result num :=
  v <- (if d >? 0
        then q <- int_truediv n d ;; Ok (NFloat (fmul q (Fin 100)))
        else Ok (NInt 0)) ;;
  Ok (py_round v 2).

(** [etl_aadhaar]: the [exception_rate] field. *)
Definition exception_rate (aadhaar_not_provided total_enrolment : Z) : result num :=
  rate2 aadhaar_not_provided total_enrolment.

(** [etl_apaar]: the [generation_rate] field. *)
Definition generation_rate (total_generated total_students : Z) : result num :=
  rate2 total_generated total_students.

(** [etl_data_entry]: the [completion_rate] field. *)
Definition completion_rate (completed total : Z) : result num :=
  rate2 completed total.

(** *** Enrolment *)

Record enrolment_totals : Type := mkTotals {
  boys_total : Z;
  girls_total : Z;
  trans_total : Z
}.

(** One turn of the loop over [df.columns] in [etl_enrolment]. *)
Definition enrolment_step (r : row) (acc : enrolment_totals) (col : string)
  : enrolment_totals :=
  if Str.contains "(Boys)" col then
    mkTotals (boys_total acc + safe_int (row_get r col))
             (girls_total acc) (trans_total acc)
  else if Str.contains "(Girls)" col then
    mkTotals (boys_total acc)
             (girls_total acc + safe_int (row_get r col)) (trans_total acc)
  else if Str.contains "(Trans)" col then
    mkTotals (boys_total acc) (girls_total acc)
             (trans_total acc + safe_int (row_get r col))
  else acc.

Definition enrolment_loop (r : row) : enrolment_totals :=
  fold_left (enrolment_step r) (columns r) (mkTotals 0 0 0).

(** The enrolment fields of the record [etl_enrolment] appends. *)
Record enrolment_record : Type := mkEnrolment {
  boys_enrolment : Z;
  girls_enrolment : Z;
  trans_enrolment : Z;
  total_enrolment : Z
}.

Definition etl_enrolment_row (r : row) : enrolment_record :=
  let t := enrolment_loop r in
  let total := boys_total t + girls_total t + trans_total t in
  mkEnrolment (boys_total t) (girls_total t) (trans_total t) total.

Definition etl_enrolment (df : list row) : list enrolment_record :=
  map etl_enrolment_row (read_excel_skip_placeholders df).

End Etl.

(** ** Insertion-ordered dictionaries with string keys *)

Module Dict.

Definition dict (V : Type) : Type := list (string * V).

Fixpoint get {V : Type} (k : string) (d : dict V) : option V :=
  match d with
  | [] => None
  | (k', v) :: d' => if String.eqb k' k then Some v else get k d'
  end.

Definition mem {V : Type} (k : string) (d : dict V) : bool :=
  match get k d with
  | Some _ => true
  | None => false
  end.

(** [if k not in d: d[k] = v] *)
Definition setdefault {V : Type} (k : string) (v : V) (d : dict V) : dict V :=
  if mem k d then d else d ++ [(k, v)].

(** [d[k] = v]: an existing key keeps its place. *)
Fixpoint set {V : Type} (k : string) (v : V) (d : dict V) : dict V :=
  match d with
  | [] => [(k, v)]
  | (k', v') :: d' =>
      if String.eqb k' k then (k', v) :: d' else (k', v') :: set k v d'
  end.

(** In-place update of the entry under [k] by a computation that may raise. *)
Fixpoint modify {V : Type} (k : string) (f : V -> result V) (d : dict V)
  : result (dict V) :=
  match d with
  | [] => Ok []
  | (k', v) :: d' =>
      if String.eqb k' k
      then v' <- f v ;; Ok ((k', v') :: d')
      else d'' <- modify k f d' ;; Ok ((k', v) :: d'')
  end.

(** [list(d.values())] *)
Definition values {V : Type} (d : dict V) : list V := map snd d.

End Dict.

(** ** The data-import parser: school store and roll-up *)

Module DataImport.

Import Dict.
Local Open Scope string_scope.

(** One entry of [DatasetParser.schools_data]; [None] is an absent key. *)
Record School : Type := mkSchool {
  udise_code : option string;
  school_name : option string;
  district_name : option string;
  block_name : option string;
  total_students : option Z;
  total_teachers : option Z;
  aadhaar_percentage : option pyfloat;
  apaar_percentage : option pyfloat;
  water_available : option bool;
  toilets_available : option bool;
  certified : option bool;
  total_students_aadhaar : option Z;
  total_students_apaar : option Z
}.

Definition empty_school : School :=
  mkSchool None None None None None None None None None None None None None.

(** The rate of [parse_aadhaar] and [parse_apaar]:
    [round((n / d) * 100, 1) if d > 0 else 0.0] *)
Definition percentage (n d : Z) : result pyfloat :=
  if d >? 0
  then q <- int_truediv n d ;; Ok (fround (fmul q (Fin 100)) 1)
  else Ok (Fin 0).

(** The coerced fields of one row of the Aadhaar sheet. *)
Record aadhaar_row : Type := mkAadhaarRow {
  ar_udise : string;
  ar_school_name : string;
  ar_district_name : string;
  ar_block_name : string;
  ar_total_students : Z;
  ar_aadhaar_authenticated : Z
}.

(** [self.schools_data[udise].update({...})] of [parse_aadhaar]. *)
Definition aadhaar_update (r : aadhaar_row) (pct : pyfloat) (s : School) : School :=
  mkSchool (Some (ar_udise r)) (Some (ar_school_name r))
           (Some (ar_district_name r)) (Some (ar_block_name r))
           (total_students s) (total_teachers s)
           (Some pct) (apaar_percentage s)
           (water_available s) (toilets_available s) (certified s)
           (Some (ar_total_students r)) (total_students_apaar s).

(** The body of the row loop of [parse_aadhaar], after coercion; a row
    without identifier is skipped. *)
Definition parse_aadhaar_row (store : dict School) (r : aadhaar_row)
  : result (dict School) :=
  if String.eqb (ar_udise r) "" then Ok store
  else
    pct <- percentage (ar_aadhaar_authenticated r) (ar_total_students r) ;;
    modify (ar_udise r) (fun s => Ok (aadhaar_update r pct s))
           (setdefault (ar_udise r) empty_school store).

Fixpoint parse_aadhaar (store : dict School) (rows : list aadhaar_row)
  : result (dict School) :=
  match rows with
  | [] => Ok store
  | r :: rows' => st <- parse_aadhaar_row store r ;; parse_aadhaar st rows'
  end.

(** [self.schools_data[udise].update({"total_students": ...})] of
    [parse_enrolment]. *)
Definition enrolment_update (total : Z) (s : School) : School :=
  mkSchool (udise_code s) (school_name s) (district_name s) (block_name s)
           (Some total) (total_teachers s)
           (aadhaar_percentage s) (apaar_percentage s)
           (water_available s) (toilets_available s) (certified s)
           (total_students_aadhaar s) (total_students_apaar s).

Definition parse_enrolment_row (store : dict School) (udise : string) (total : Z)
  : result (dict School) :=
  if String.eqb udise "" then Ok store
  else modify udise (fun s => Ok (enrolment_update total s))
              (setdefault udise empty_school store).

(** *** [get_aggregated_data] *)

Record District : Type := mkDistrict {
  d_district_name : string;
  d_total_schools : Z;
  d_total_students : Z;
  d_total_teachers : Z;
  d_aadhaar_sum : num;
  d_apaar_sum : num;
  d_water_count : Z;
  d_toilet_count : Z;
  d_certified_count : Z;
  d_schools_with_data : Z
}.

Record Block : Type := mkBlock {
  b_district_name : string;
  b_block_name : string;
  b_total_schools : Z;
  b_total_students : Z;
  b_aadhaar_sum : num;
  b_apaar_sum : num;
  b_schools_with_data : Z
}.

Definition new_district (name : string) : District :=
  mkDistrict name 0 0 0 (NInt 0) (NInt 0) 0 0 0 0.

Definition new_block (district block : string) : Block :=
  mkBlock district block 0 0 (NInt 0) (NInt 0) 0.

(** [school.get("district_name", "Unknown")] *)
Definition district_of (s : School) : string :=
  match district_name s with
  | Some n => n
  | None => "Unknown"
  end.

(** [school.get("block_name", "Unknown")] *)
Definition block_of (s : School) : string :=
  match block_name s with
  | Some n => n
  | None => "Unknown"
  end.

(** The negation of [not district_name or district_name == "Unknown"]. *)
Definition has_district (s : School) : bool :=
  negb (String.eqb (district_of s) "") &&
  negb (String.eqb (district_of s) "Unknown").

(** [f"{district_name}|{block_name}"] *)
Definition block_key (s : School) : string :=
  district_of s ++ "|" ++ block_of s.

Definition get_int (field : option Z) : Z :=
  match field with
  | Some n => n
  | None => 0
  end.

(** [if school.get(key):] for a float field. *)
Definition float_set (field : option pyfloat) : option pyfloat :=
  match field with
  | Some p => if num_truthy (NFloat p) then Some p else None
  | None => None
  end.

(** [if school.get(key):] for a boolean field. *)
Definition flag_set (field : option bool) : bool :=
  match field with
  | Some b => b
  | None => false
  end.

Definition bump (c : bool) (n : Z) : Z := if c then n + 1 else n.

(** The district half of the loop body. *)
Definition add_to_district (s : School) (d : District) : result District :=
  let total_schools := d_total_schools d + 1 in
  let total_students := d_total_students d + get_int (total_students s) in
  let total_teachers := d_total_teachers d + get_int (total_teachers s) in
  a <- match float_set (aadhaar_percentage s) with
       | Some p =>
           sum <- py_add (d_aadhaar_sum d) (NFloat p) ;;
           Ok (sum, d_schools_with_data d + 1)
       | None => Ok (d_aadhaar_sum d, d_schools_with_data d)
       end ;;
  apaar_sum <- match float_set (apaar_percentage s) with
               | Some p => py_add (d_apaar_sum d) (NFloat p)
               | None => Ok (d_apaar_sum d)
               end ;;
  Ok (mkDistrict (d_district_name d) total_schools total_students total_teachers
        (fst a) apaar_sum
        (bump (flag_set (water_available s)) (d_water_count d))
        (bump (flag_set (toilets_available s)) (d_toilet_count d))
        (bump (flag_set (certified s)) (d_certified_count d))
        (snd a)).

(** The block half of the loop body. *)
Definition add_to_block (s : School) (b : Block) : result Block :=
  let total_schools := b_total_schools b + 1 in
  let total_students := b_total_students b + get_int (total_students s) in
  a <- match float_set (aadhaar_percentage s) with
       | Some p =>
           sum <- py_add (b_aadhaar_sum b) (NFloat p) ;;
           Ok (sum, b_schools_with_data b + 1)
       | None => Ok (b_aadhaar_sum b, b_schools_with_data b)
       end ;;
  apaar_sum <- match float_set (apaar_percentage s) with
               | Some p => py_add (b_apaar_sum b) (NFloat p)
               | None => Ok (b_apaar_sum b)
               end ;;
  Ok (mkBlock (b_district_name b) (b_block_name b) total_schools total_students
        (fst a) apaar_sum (snd a)).

Definition acc : Type := (dict District * dict Block)%type.

(** One turn of [for udise, school in self.schools_data.items()]. *)
Definition step (st : acc) (s : School) : result acc :=
  if has_district s then
    let districts :=
      setdefault (district_of s) (new_district (district_of s)) (fst st) in
    let blocks :=
      setdefault (block_key s) (new_block (district_of s) (block_of s)) (snd st) in
    districts' <- modify (district_of s) (add_to_district s) districts ;;
    blocks' <- modify (block_key s) (add_to_block s) blocks ;;
    Ok (districts', blocks')
  else Ok st.

Fixpoint accumulate (st : acc) (schools : list School) : result acc :=
  match schools with
  | [] => Ok st
  | s :: rest => st' <- step st s ;; accumulate st' rest
  end.

(** [round(sum / n, 1)] *)
Definition mean1 (sum : num) (n : Z) : result num :=
  q <- py_truediv sum (NInt n) ;; Ok (py_round q 1).

(** [round((count / total) * 100, 1)] *)
Definition share1 (count total : Z) : result num :=
  q <- int_truediv count total ;; Ok (NFloat (fround (fmul q (Fin 100)) 1)).

Definition zero : num := NFloat (Fin 0).

(** A district with the averages of the closing loop. *)
Record DistrictOut : Type := mkDistrictOut {
  d_acc : District;
  d_aadhaar_percentage : num;
  d_apaar_percentage : num;
  d_water_percentage : num;
  d_toilet_percentage : num;
  d_data_entry_percentage : num;
  d_avg_ptr : num
}.

Record BlockOut : Type := mkBlockOut {
  b_acc : Block;
  b_aadhaar_percentage : num;
  b_apaar_percentage : num
}.

Definition finish_district (d : District) : result DistrictOut :=
  p <- (if d_schools_with_data d >? 0
        then a <- mean1 (d_aadhaar_sum d) (d_schools_with_data d) ;;
             b <- mean1 (d_apaar_sum d) (d_schools_with_data d) ;;
             Ok (a, b)
        else Ok (zero, zero)) ;;
  w <- (if d_total_schools d >? 0
        then w <- share1 (d_water_count d) (d_total_schools d) ;;
             t <- share1 (d_toilet_count d) (d_total_schools d) ;;
             c <- share1 (d_certified_count d) (d_total_schools d) ;;
             Ok (w, t, c)
        else Ok (zero, zero, zero)) ;;
  ptr <- (if d_total_teachers d >? 0
          then q <- int_truediv (d_total_students d) (d_total_teachers d) ;;
               Ok (NFloat (fround q 1))
          else Ok zero) ;;
  Ok (mkDistrictOut d (fst p) (snd p) (fst (fst w)) (snd (fst w)) (snd w) ptr).

Definition finish_block (b : Block) : result BlockOut :=
  p <- (if b_schools_with_data b >? 0
        then a <- mean1 (b_aadhaar_sum b) (b_schools_with_data b) ;;
             c <- mean1 (b_apaar_sum b) (b_schools_with_data b) ;;
             Ok (a, c)
        else Ok (zero, zero)) ;;
  Ok (mkBlockOut b (fst p) (snd p)).

Record Aggregated : Type := mkAggregated {
  schools : list School;
  districts : list DistrictOut;
  blocks : list BlockOut
}.

Definition get_aggregated_data (schools_data : dict School) : result Aggregated :=
  st <- accumulate ([], []) (values schools_data) ;;
  ds <- mapM finish_district (values (fst st)) ;;
  bs <- mapM finish_block (values (snd st)) ;;
  Ok (mkAggregated (values schools_data) ds bs).

End DataImport.

(** ** Composite index: [routers/executive.py] *)

Module Executive.

Local Open Scope string_scope.

(** [round(identity_index * 0.25 + infra_index * 0.25
           + teacher_index * 0.25 + operational_index * 0.25, 1)] *)
Definition shi (identity_index infra_index teacher_index operational_index : num)
  : result num :=
  let w := NFloat (lit (1 # 4)) in
  a <- py_mul identity_index w ;;
  b <- py_mul infra_index w ;;
  ab <- py_add a b ;;
  c <- py_mul teacher_index w ;;
  abc <- py_add ab c ;;
  d <- py_mul operational_index w ;;
  s <- py_add abc d ;;
  Ok (py_round s 1).

Record rag : Type := mkRag { status : string; color : string }.

Definition get_rag (value : num) : rag :=
  if py_ge value (NInt 85) then mkRag "Green" "#10b981"
  else if py_ge value (NInt 70) then mkRag "Amber" "#f59e0b"
  else mkRag "Red" "#ef4444".

End Executive.

(** ** Aggregate summaries of the ETL pipeline *)

Module EtlSummary.

Local Open Scope string_scope.

(** The single document of a [$group] stage with [_id: None]; the stage
    yields no document when nothing matched. *)
Record aadhaar_group : Type := mkAadhaarGroup {
  ag_total_schools : Z;
  ag_total_enrolment : Z;
  ag_aadhaar_available : Z
}.

Record apaar_group : Type := mkApaarGroup {
  pg_total_students : Z;
  pg_apaar_generated : Z
}.

Record teacher_group : Type := mkTeacherGroup {
  tg_total_teachers : Z;
  tg_ctet_passed : Z
}.

(** [(n / d * 100) if g and d > 0 else 0] *)
Definition pct (g : option (Z * Z)) : result num :=
  match g with
  | Some (n, d) =>
      if d >? 0
      then q <- int_truediv n d ;; Ok (NFloat (fmul q (Fin 100)))
      else Ok (NInt 0)
  | None => Ok (NInt 0)
  end.

(** [round(aadhaar_pct * 0.3 + apaar_pct * 0.3 + teacher_quality * 0.4, 1)] *)
Definition weighted (aadhaar_pct apaar_pct teacher_quality : num) : result num :=
  a <- py_mul aadhaar_pct (NFloat (lit (3 # 10))) ;;
  b <- py_mul apaar_pct (NFloat (lit (3 # 10))) ;;
  ab <- py_add a b ;;
  c <- py_mul teacher_quality (NFloat (lit (4 # 10))) ;;
  s <- py_add ab c ;;
  Ok (py_round s 1).

(** The [shi_score] of [create_districts_summary] and
    [create_blocks_summary]. *)
Definition shi_score (aadhaar : option aadhaar_group) (apaar : option apaar_group)
    (teacher : option teacher_group) : result num :=
  aadhaar_pct <-
    pct (option_map (fun g => (ag_aadhaar_available g, ag_total_enrolment g)) aadhaar) ;;
  apaar_pct <-
    pct (option_map (fun g => (pg_apaar_generated g, pg_total_students g)) apaar) ;;
  teacher_quality <-
    pct (option_map (fun g => (tg_ctet_passed g, tg_total_teachers g)) teacher) ;;
  weighted aadhaar_pct apaar_pct teacher_quality.

(** ["green" if shi_score >= 75 else "amber" if shi_score >= 50 else "red"] *)
Definition rag_status (shi_score : num) : string :=
  if py_ge shi_score (NInt 75) then "green"
  else if py_ge shi_score (NInt 50) then "amber"
  else "red".

End EtlSummary.

(** ** Composite index: [server.py] *)

Module Server.

(** [max(a, b)] and [min(a, b)] keep their first argument unless the second
    is strictly beyond it. *)
Definition py_max (a b : num) : num := if py_gt b a then b else a.
Definition py_min (a b : num) : num := if py_lt b a then b else a.

(** [round(min(100, max(0, shi)), 1)] *)
Definition clamp_round (shi : num) : num :=
  py_round (py_min (NInt 100) (py_max (NInt 0) shi)) 1.

(** The keys [calculate_shi] reads; [None] is an absent key. *)
Record school_data : Type := mkSchoolData {
  sd_aadhaar_percentage : option num;
  sd_apaar_percentage : option num;
  sd_water_available : option bool;
  sd_toilets_available : option bool;
  sd_students_per_classroom : option num;
  sd_ptr : option num;
  sd_certified : option bool
}.

Definition get_or {A : Type} (field : option A) (d : A) : A :=
  match field with
  | Some a => a
  | None => d
  end.

(** [min(100, (k / max(x, 1)) * 100)] *)
Definition capped_ratio (k : Z) (x : num) : result num :=
  q <- py_truediv (NInt k) (py_max x (NInt 1)) ;;
  p <- py_mul q (NInt 100) ;;
  Ok (py_min (NInt 100) p).

Definition calculate_shi (d : school_data) : result num :=
  let aadhaar_pct := get_or (sd_aadhaar_percentage d) (NInt 0) in
  let apaar_pct := get_or (sd_apaar_percentage d) (NInt 0) in
  i1 <- py_mul aadhaar_pct (NFloat (lit (1 # 2))) ;;
  i2 <- py_mul apaar_pct (NFloat (lit (3 # 10))) ;;
  i12 <- py_add i1 i2 ;;
  i3 <- py_mul (NInt 100) (NFloat (lit (2 # 10))) ;;
  identity_score <- py_add i12 i3 ;;
  let water := NInt (if get_or (sd_water_available d) true then 100 else 0) in
  let toilet := NInt (if get_or (sd_toilets_available d) true then 100 else 0) in
  classroom_score <-
    capped_ratio 40 (get_or (sd_students_per_classroom d) (NInt 40)) ;;
  f1 <- py_mul water (NFloat (lit (4 # 10))) ;;
  f2 <- py_mul toilet (NFloat (lit (3 # 10))) ;;
  f12 <- py_add f1 f2 ;;
  f3 <- py_mul classroom_score (NFloat (lit (3 # 10))) ;;
  infra_score <- py_add f12 f3 ;;
  teacher_score <- capped_ratio 30 (get_or (sd_ptr d) (NInt 30)) ;;
  let operational_score :=
    NInt (if get_or (sd_certified d) false then 100 else 50) in
  let age_integrity := NInt 90 in
  s1 <- py_mul identity_score (NFloat (lit (25 # 100))) ;;
  s2 <- py_mul infra_score (NFloat (lit (25 # 100))) ;;
  s12 <- py_add s1 s2 ;;
  s3 <- py_mul teacher_score (NFloat (lit (20 # 100))) ;;
  s123 <- py_add s12 s3 ;;
  s4 <- py_mul operational_score (NFloat (lit (20 # 100))) ;;
  s1234 <- py_add s123 s4 ;;
  s5 <- py_mul age_integrity (NFloat (lit (10 # 100))) ;;
  shi <- py_add s1234 s5 ;;
  Ok (clamp_round shi).

End Server.

(** ** Vocabulary of the stated properties *)

Module Spec.

Import Dict DataImport.
Local Open Scope string_scope.

(** Number of records of [l] selected by [p]. *)
Definition count {A : Type} (p : A -> bool) (l : list A) : Z :=
  Z.of_nat (List.length (filter p l)).

(** The school contributes to the aggregate filed under [k], for the key
    function [keyof]. *)
Definition selected_by (keyof : School -> string) (k : string) (s : School)
  : bool :=
  has_district s && String.eqb (keyof s) k.

(** The school contributes to the district named [k]. *)
Definition in_district (k : string) (s : School) : bool :=
  selected_by district_of k s.

(** The school contributes to the block stored under the key [k]. *)
Definition in_block (k : string) (s : School) : bool :=
  selected_by block_key k s.

(** The school contributes to the block [block] of the district
    [district]. *)
Definition in_pair (district block : string) (s : School) : bool :=
  has_district s && String.eqb (district_of s) district
  && String.eqb (block_of s) block.

(** The key a block aggregate is stored under. *)
Definition block_label (b : Block) : string :=
  b_district_name b ++ "|" ++ b_block_name b.

(** [sum(b.total_schools for b in blocks if b.district_name == name)] *)
Definition block_sum (name : string) (bs : list Block) : Z :=
  fold_right
    (fun b n =>
       if String.eqb (b_district_name b) name then b_total_schools b + n else n)
    0 bs.

(** [total_schools] of the district aggregates named [name]. *)
Definition district_sum (name : string) (ds : list District) : Z :=
  fold_right
    (fun d n =>
       if String.eqb (d_district_name d) name then d_total_schools d + n else n)
    0 ds.

(** A dictionary of aggregates agrees with the records [pre] read so far:
    keys are distinct, every aggregate is labelled by its key and counts the
    records selected by it, and an absent key selects nothing. *)
Definition counted {V : Type} (sel : string -> School -> bool)
    (label : V -> string) (tot swd : V -> Z)
    (d : dict V) (pre : list School) : Prop :=
  NoDup (map fst d) /\
  (forall k v, In (k, v) d ->
     label v = k /\ tot v = count (sel k) pre /\ 0 <= swd v <= tot v) /\
  (forall k, ~ In k (map fst d) -> count (sel k) pre = 0).

(** The rate as the specification words it:
    [round(n / max(d, 1) * 100, 1)]. *)
Definition floored_rate (n d : Z) : result pyfloat :=
  q <- int_truediv n (Z.max d 1) ;; Ok (fround (fmul q (Fin 100)) 1).

(** A cell that is exactly an opening parenthesis, digits, a closing
    parenthesis. *)
Definition paren_digits_cell (v : pyval) : bool :=
  match v with
  | VStr s => Str.paren_digits s
  | _ => false
  end.

(** Sum of the coerced cells of the columns of [cs] selected by [p]. *)
Definition column_sum (p : string -> bool) (r : Etl.row) (cs : list string) : Z :=
  fold_right
    (fun col n => if p col then Etl.safe_int (Etl.row_get r col) + n else n)
    0 cs.

(** Columns marked for girls and not for boys; columns marked for
    transgender pupils and for neither of the others. *)
Definition girls_only (col : string) : bool :=
  negb (Str.contains "(Boys)" col) && Str.contains "(Girls)" col.

Definition trans_only (col : string) : bool :=
  negb (Str.contains "(Boys)" col) && negb (Str.contains "(Girls)" col)
  && Str.contains "(Trans)" col.

(** A number lies in the closed interval [[lo, hi]]. *)
Definition within (lo hi : Z) (v : num) : Prop :=
  py_le (NInt lo) v = true /\ py_le v (NInt hi) = true.

(** *** Worked data *)

(** Three schools of one block, as rows of the Aadhaar sheet. *)
Definition three_rows : list aadhaar_row :=
  [ mkAadhaarRow "U1" "School A" "PUNE" "HAVELI" 100 90;
    mkAadhaarRow "U2" "School B" "PUNE" "HAVELI" 50 50;
    mkAadhaarRow "U3" "School C" "PUNE" "HAVELI" 0 0 ].

(** The store after [parse_aadhaar] has read [three_rows] and
    [parse_enrolment] has recorded the same head counts. *)
Definition load_three : result (dict School) :=
  st <- parse_aadhaar [] three_rows ;;
  st <- parse_enrolment_row st "U1" 100 ;;
  st <- parse_enrolment_row st "U2" 50 ;;
  parse_enrolment_row st "U3" 0.

Definition three_school (udise name : string) (total : Z) (pct : Q) : School :=
  mkSchool (Some udise) (Some name) (Some "PUNE") (Some "HAVELI")
           (Some total) None (Some (Fin pct)) None None None None
           (Some total) None.

Definition three_schools : dict School :=
  [ ("U1", three_school "U1" "School A" 100 90);
    ("U2", three_school "U2" "School B" 50 100);
    ("U3", three_school "U3" "School C" 0 0) ].

(** The block aggregate the specification expects of [three_schools]. *)
Definition expected_block (b : BlockOut) : Prop :=
  b_total_schools (b_acc b) = 3 /\
  b_total_students (b_acc b) = 150 /\
  b_aadhaar_percentage b = NFloat (lit (633 # 10)).

(** The mean of the percentages over all the schools of a block, as the
    specification takes it:
    [round(aadhaar_sum / total_schools, 1)]. *)
Definition mean_of_all (b : Block) : result num :=
  mean1 (b_aadhaar_sum b) (b_total_schools b).

Definition named_school (district block : string) : School :=
  mkSchool None None (Some district) (Some block)
           None None None None None None None None None.

(** Two schools whose district and block names join to the same key. *)
Definition colliding_schools : dict School :=
  [ ("U1", named_school "A|B" "C"); ("U2", named_school "A" "B|C") ].

(** A second header row of column-index labels, a data row, and a row whose
    first cell is bracketed text. *)
Definition label_row : Etl.row :=
  [ ("c0", VStr "(1)"); ("c1", VStr "(2)"); ("c2", VStr "School A") ].

Definition data_row : Etl.row :=
  [ ("c0", VStr "UDISE001"); ("c1", VStr "2701"); ("c2", VStr "School A") ].

Definition bracket_row : Etl.row := [ ("c0", VStr "(abc)") ].

(** A row of a sheet with a column whose name carries two markers. *)
Definition two_marker_row : Etl.row := [ ("X(Boys)(Girls)", VInt 5) ].

(** A row of the enrolment sheet. *)
Definition class_row : Etl.row :=
  [ ("UDISE Code", VStr "27250100101");
    ("Class 1(Boys)", VInt 12); ("Class 1(Girls)", VInt 15);
    ("Class 1(Trans)", VInt 0); ("Class 2(Boys)", VStr "9") ].

(** The two dictionaries of [get_aggregated_data] agree with the records
    read so far. *)
Definition districts_ok (st : acc) (pre : list School) : Prop :=
  counted in_district d_district_name d_total_schools d_schools_with_data
    (fst st) pre.

Definition blocks_ok (st : acc) (pre : list School) : Prop :=
  counted in_block block_label b_total_schools b_schools_with_data
    (snd st) pre.

(** Every block aggregate was opened by a contributing record of its key
    and carries that record's district name. *)
Definition block_origin (bs : dict Block) (pre : list School) : Prop :=
  forall k b, In (k, b) bs ->
    exists s, In s pre /\ has_district s = true /\
              block_key s = k /\ district_of s = b_district_name b.

(** No two contributing records of different districts share a block key. *)
Definition no_collision (l : list School) : Prop :=
  forall s s', In s l -> In s' l ->
    has_district s = true -> has_district s' = true ->
    block_key s = block_key s' -> district_of s = district_of s'.

(** The blocks filed under a district account for the records of that
    district. *)
Definition blocks_account (bs : dict Block) (pre : list School) : Prop :=
  forall name, block_sum name (values bs) = count (in_district name) pre.

(** A computation that can only fail by overflow. *)
Definition overflow_only {A : Type} (m : result A) : Prop :=
  forall e, m = Raise e -> e = OverflowError.

(** A running sum of the roll-up: the initial [0] or a float. *)
Definition sum_ok (v : num) : Prop := v = NInt 0 \/ exists x, v = NFloat x.

Definition district_sums_ok (d : District) : Prop :=
  sum_ok (d_aadhaar_sum d) /\ sum_ok (d_apaar_sum d).

Definition block_sums_ok (b : Block) : Prop :=
  sum_ok (b_aadhaar_sum b) /\ sum_ok (b_apaar_sum b).

Definition sums_ok (st : acc) : Prop :=
  (forall k d, In (k, d) (fst st) -> district_sums_ok d) /\
  (forall k b, In (k, b) (snd st) -> block_sums_ok b).

(** The name has no vertical bar. *)
Fixpoint no_bar (s : string) : bool :=
  match s with
  | EmptyString => true
  | String c t => negb (Ascii.eqb c "|") && no_bar t
  end.

End Spec.

(** Inversion of a successful [bind]. *)
Ltac bind_inv H :=
  match type of H with
  | bind ?m _ = Ok _ =>
      let E := fresh "E" in
      destruct m eqn:E; cbn [bind] in H; [|discriminate H]
  end.

(** * The rest of the pipeline

    The helpers of the parser and of the ETL pipeline that the roll-up and
    the normalizers sit between, the drill-down scope of
    [backend/utils/scope.py], and the status helpers of the server and of
    the executive router. *)

(** ** Further string operations *)

Module Text.

Local Open Scope string_scope.

(** [s.split(c)[0]] for a separator of one character: what comes before
    its first occurrence, the whole string when there is none. *)
Fixpoint before (c : ascii) (s : string) : string :=
  match s with
  | EmptyString => EmptyString
  | String a t => if Ascii.eqb a c then EmptyString else String a (before c t)
  end.

Fixpoint all_chars (p : ascii -> bool) (s : string) : bool :=
  match s with
  | EmptyString => true
  | String c t => p c && all_chars p t
  end.

(** The characters of [s] that satisfy [p], in order. *)
Fixpoint filter_chars (p : ascii -> bool) (s : string) : string :=
  match s with
  | EmptyString => EmptyString
  | String c t => if p c then String c (filter_chars p t) else filter_chars p t
  end.

Fixpoint map_chars (f : ascii -> ascii) (s : string) : string :=
  match s with
  | EmptyString => EmptyString
  | String c t => String (f c) (map_chars f t)
  end.

(** [s.replace(a, b)] for two strings of one character. *)
Definition replace_char (a b : ascii) (s : string) : string :=
  map_chars (fun c => if Ascii.eqb c a then b else c) s.

Definition is_lower (c : ascii) : bool :=
  (97 <=? nat_of_ascii c)%nat && (nat_of_ascii c <=? 122)%nat.

(** ASCII characters matched by [\w]. *)
Definition is_word (c : ascii) : bool :=
  Str.is_digit c || Str.is_upper c || is_lower c || Ascii.eqb c "_".

Definition is_ascii (c : ascii) : bool := (nat_of_ascii c <? 128)%nat.

(** The text is ASCII: the character classes above are those of Python on
    such text only. *)
Definition ascii_only (s : string) : bool := all_chars is_ascii s.

(** [s.isdigit()] *)
Definition isdigit (s : string) : bool :=
  negb (String.eqb s "") && all_chars Str.is_digit s.

End Text.

(** ** The top-level helpers of [data_import/parser.py] *)

Module ParserNames.

Local Open Scope string_scope.





(** The column name after [re.sub(r'[^\w\s]', '', col)] and
    [col.strip().lower().replace(' ', '_')]; a name that is no string is
    rendered by [str]. *)
Section CleanColumn.

Variable float_repr : pyfloat -> string.

Definition clean_column_name (col : pyval) : string :=
  match col with
  | VStr s =>
      let col := Text.filter_chars (fun c => Text.is_word c || Str.is_space c) s in
      Text.replace_char " " "_" (Str.lower (Str.strip col))
  | _ => py_str float_repr col
  end.

End CleanColumn.





End ParserNames.

(** ** More of [etl/etl_pipeline.py] *)

Module EtlNames.

Local Open Scope string_scope.

Section Extract.

Variable float_repr : pyfloat -> string.

Definition extract_block_name (val : pyval) : string :=
  if isna val then ""
  else
    let val := py_str float_repr val in
    if Str.contains "(" val then Str.strip (Text.before "(" val)
    else if Str.contains "&" val then Str.strip (Text.before "&" val)
    else Str.strip val.

Definition extract_district_name (val : pyval) : string :=
  if isna val then ""
  else
    let val := py_str float_repr val in
    if Str.contains "(" val then Str.strip (Text.before "(" val)
    else if Str.contains "&" val then Str.strip (Text.before "&" val)
    else Str.strip val.

End Extract.

End EtlNames.

Module EtlAge.

Import Etl.
Local Open Scope string_scope.

Record age_totals : Type := mkAgeTotals {
  boys_total : Z;
  girls_total : Z
}.

(** One turn of the loop over [df.columns] in [etl_age_wise]. *)
Definition age_step (r : row) (acc : age_totals) (col : string) : age_totals :=
  if Str.contains "(Boys)" col && Str.contains "Class" col then
    mkAgeTotals (boys_total acc + safe_int (row_get r col)) (girls_total acc)
  else if Str.contains "(Girls)" col && Str.contains "Class" col then
    mkAgeTotals (boys_total acc) (girls_total acc + safe_int (row_get r col))
  else acc.

(** The numeric fields of the record [etl_age_wise] appends. *)
Record age_record : Type := mkAge {
  age : Z;
  boys : Z;
  girls : Z;
  total : Z
}.

Definition etl_age_wise_row (r : row) : age_record :=
  let t := fold_left (age_step r) (columns r) (mkAgeTotals 0 0) in
  let age := safe_int (row_get r "Age Wise") in
  mkAge age (boys_total t) (girls_total t) (boys_total t + girls_total t).

Definition etl_age_wise (df : list row) : list age_record :=
  map etl_age_wise_row (read_excel_skip_placeholders df).

End EtlAge.

Module EtlBatch.

(** [range(start, stop, step)] for a positive step, unrolled at most
    [fuel] times. *)
Fixpoint range_from (fuel : nat) (i stop step : Z) : list Z :=
  match fuel with
  | O => []
  | S fuel' => if i <? stop then i :: range_from fuel' (i + step) stop step else []
  end.

(** [range(0, stop, step)] for [step >= 1]: [stop] turns are enough. *)
Definition py_range (stop step : Z) : list Z :=
  range_from (Z.to_nat stop) 0 stop step.

(** [l[i:j]] for [0 <= i <= j]. *)
Definition slice {A : Type} (l : list A) (i j : Z) : list A :=
  firstn (Z.to_nat (j - i)) (skipn (Z.to_nat i) l).

Definition batch_size : Z := 10000.

(** The lists handed to [insert_many], in order, by [etl_age_wise] and
    [etl_ctteacher]. *)
Definition insert_batches {A : Type} (records : list A) : list (list A) :=
  match records with
  | [] => []
  | _ =>
      map (fun i => slice records i (i + batch_size))
          (py_range (Z.of_nat (List.length records)) batch_size)
  end.

End EtlBatch.

(** ** The drill-down scope: [utils/scope.py] *)

Module Scope.

Local Open Scope string_scope.

(** A value of a [$in] list: the code as text, or as a number. *)
Inductive code_value : Type :=
| CodeStr (s : string)
| CodeInt (n : Z).

(** The match documents [build_scope_match] can build. *)
#[warnings="-register-all"] Inductive query : Type :=
| Empty                                          (* {} *)
| In_ (field : string) (vals : list code_value)  (* {field: {"$in": vals}} *)
| Eq_ (field : string) (value : string)          (* {field: value} *)
| Or_ (a b : query)                              (* {"$or": [a, b]} *)
| And_ (conditions : list query).                (* {"$and": conditions} *)

(** Truth value of an optional string: [None] and the empty string are
    false. *)
Definition truthy (s : option string) : bool :=
  match s with
  | Some s => negb (String.eqb s "")
  | None => false
  end.

Definition text (s : option string) : string :=
  match s with
  | Some s => s
  | None => ""
  end.

(** The codes of a scope are read as ASCII text.  There [code.isdigit()]
    holds of the non-empty strings of the digits [0] to [9], which
    [Text.isdigit] decides, and [int(code)] reads them in base ten; the
    decimal digits of other scripts, which [str.isdigit] and [int] also
    accept, are outside the model. *)

(** [int(code)] for a string of ASCII digits: [int] refuses more than 4300
    digits with a [ValueError]. *)
Definition int_of_digits (code : string) : result Z :=
  if (4300 <? String.length code)%nat then Raise ValueError
  else Ok (Str.digits_value 0 code).

(** [_code_variants(code)] for a code of ASCII text. *)
Definition _code_variants (code : option string) : list code_value :=
  if negb (truthy code) then []
  else
    let vals := [CodeStr (text code)] in
    if Text.isdigit (text code) && negb (Str.startswith (text code) "0")
    then match int_of_digits (text code) with
         | Ok n => vals ++ [CodeInt n]
         | Raise _ => vals
         end
    else vals.

Definition nonempty {A : Type} (l : list A) : bool :=
  match l with
  | [] => false
  | _ => true
  end.

(** One of the three blocks of [build_scope_match]: the conditions it
    appends for a level of the hierarchy. *)
Definition level (code_field name_field : string) (code name : option string)
  : list query :=
  if truthy code || truthy name then
    let code_vals := _code_variants code in
    if nonempty code_vals && truthy name then
      [Or_ (In_ code_field code_vals) (Eq_ name_field (text name))]
    else if nonempty code_vals then [In_ code_field code_vals]
    else if truthy name then [Eq_ name_field (text name)]
    else []
  else [].

Definition build_scope_match
    (district_code block_code udise_code
     district_name block_name school_name : option string) : query :=
  let conditions :=
    (level "district_code" "district_name" district_code district_name
     ++ level "block_code" "block_name" block_code block_name
     ++ level "udise_code" "school_name" udise_code school_name)%list in
  match conditions with
  | [] => Empty
  | [c] => c
  | _ => And_ conditions
  end.

(** A stage of an aggregation pipeline: a [$match], or one of the stages
    of the caller. *)
Inductive stage (A : Type) : Type :=
| Match (q : query)
| Stage (a : A).

Arguments Match {A} q.
Arguments Stage {A} a.

(** [not match]: the document is [{}]. *)
Definition is_empty (q : query) : bool :=
  match q with
  | Empty => true
  | _ => false
  end.

Definition prepend_match {A : Type} (pipeline : list (stage A)) (q : query)
  : list (stage A) :=
  if is_empty q then pipeline else Match q :: pipeline.

End Scope.

(** ** Status helpers of [server.py] and the ranking of [routers/executive.py] *)

Module ServerStatus.

Local Open Scope string_scope.

Definition get_rag_status (shi_score : num) : string :=
  if py_ge shi_score (NInt 85) then "green"
  else if py_ge shi_score (NInt 70) then "amber"
  else if py_ge shi_score (NInt 50) then "amber"
  else "red".

End ServerStatus.

Module Ranking.

Import Executive.
Local Open Scope string_scope.

(** An entry of [block_shi]. *)
Record block_entry : Type := mkEntry {
  rank : Z;
  shi_score : num;
  entry_rag : rag
}.

(** The entries appended by the loop over [enumerate(...[:20])], for the
    scores of the blocks. *)
Fixpoint entries_from (i : Z) (scores : list num) : list block_entry :=
  match scores with
  | [] => []
  | v :: rest => mkEntry (i + 1) v (get_rag v) :: entries_from (i + 1) rest
  end.

Definition block_entries (scores : list num) : list block_entry :=
  entries_from 0 (firstn 20 scores).

(** [for i, b in enumerate(block_shi): b["rank"] = i + 1] *)
Fixpoint rerank (i : Z) (block_shi : list block_entry) : list block_entry :=
  match block_shi with
  | [] => []
  | b :: rest => mkEntry (i + 1) (shi_score b) (entry_rag b) :: rerank (i + 1) rest
  end.

Record distribution : Type := mkDistribution {
  green : Z;
  amber : Z;
  red : Z
}.

Definition with_status (s : string) (block_shi : list block_entry) : Z :=
  Z.of_nat (List.length
    (filter (fun b => String.eqb (status (entry_rag b)) s) block_shi)).

Definition rag_distribution (block_shi : list block_entry) : distribution :=
  mkDistribution (with_status "Green" block_shi)
                 (with_status "Amber" block_shi)
                 (with_status "Red" block_shi).

End Ranking.

(** ** The enrolment sheet of [data_import/parser.py] *)

Module ParserEnrolment.

Import Etl.
Local Open Scope string_scope.

Record enrolment_counts : Type := mkCounts {
  total_students : Z;
  boys : Z;
  girls : Z
}.

(** The labels of the parser's frame are the cleaned headers, and two
    headers can clean to one label. *)
Definition repeated (r : row) (col : string) : bool :=
  (1 <? List.length (filter (String.eqb col) (columns r)))%nat.

(** [safe_int(row.get(col, 0))]: for a repeated label [row.get] answers
    the [Series] of its cells, whose truth test in [safe_int] raises the
    [ValueError] handled there, and the cell reads as [0]. *)
Definition cell_int (r : row) (col : string) : result Z :=
  if repeated r col then Ok 0%Z else Parser.safe_int (row_get r col).

(** One turn of the loop over [df.columns] in [parse_enrolment]: three
    independent tests. *)
Definition enrolment_step (r : row) (acc : enrolment_counts) (col : string)
  : result enrolment_counts :=
  total_students <-
    (if Str.contains "class" col || Str.contains "grade" col
     then v <- cell_int r col ;; Ok (total_students acc + v)
     else Ok (total_students acc)) ;;
  boys <-
    (if Str.contains "boy" col
     then v <- cell_int r col ;; Ok (boys acc + v)
     else Ok (boys acc)) ;;
  girls <-
    (if Str.contains "girl" col
     then v <- cell_int r col ;; Ok (girls acc + v)
     else Ok (girls acc)) ;;
  Ok (mkCounts total_students boys girls).

Fixpoint enrolment_loop (r : row) (cols : list string) (acc : enrolment_counts)
  : result enrolment_counts :=
  match cols with
  | [] => Ok acc
  | col :: rest => acc' <- enrolment_step r acc col ;; enrolment_loop r rest acc'
  end.



End ParserEnrolment.

(** ** The domain indices of [routers/executive.py] *)

Module Domains.

(** [round(n / d * 100, nd) if d > 0 else 0]: the rates of the four domain
    functions. *)
Definition rate (nd n d : Z) : result num :=
  if d >? 0
  then q <- int_truediv n d ;; Ok (NFloat (fround (fmul q (Fin 100)) nd))
  else Ok (NInt 0).

(** [round(aadhaar_coverage * 0.4 + apaar_coverage * 0.4
           + (100 - name_mismatch_rate) * 0.2, 1)] *)
Definition identity_compliance_index
    (aadhaar_coverage apaar_coverage name_mismatch_rate : num) : result num :=
  a <- py_mul aadhaar_coverage (NFloat (lit (4 # 10))) ;;
  b <- py_mul apaar_coverage (NFloat (lit (4 # 10))) ;;
  ab <- py_add a b ;;
  m <- py_sub (NInt 100) name_mismatch_rate ;;
  c <- py_mul m (NFloat (lit (2 # 10))) ;;
  s <- py_add ab c ;;
  Ok (py_round s 1).

(** [round(classroom_health * 0.3 + toilet_functional * 0.25
           + water_availability * 0.25 + electricity_pct * 0.2, 1)] *)
Definition infrastructure_index
    (classroom_health toilet_functional water_availability electricity_pct : num)
  : result num :=
  a <- py_mul classroom_health (NFloat (lit (3 # 10))) ;;
  b <- py_mul toilet_functional (NFloat (lit (25 # 100))) ;;
  ab <- py_add a b ;;
  c <- py_mul water_availability (NFloat (lit (25 # 100))) ;;
  abc <- py_add ab c ;;
  d <- py_mul electricity_pct (NFloat (lit (2 # 10))) ;;
  s <- py_add abc d ;;
  Ok (py_round s 1).

(** [round(ctet_pct * 0.4 + nishtha_pct * 0.3 + aadhaar_verified_pct * 0.3, 1)] *)
Definition teacher_quality_index (ctet_pct nishtha_pct aadhaar_verified_pct : num)
  : result num :=
  a <- py_mul ctet_pct (NFloat (lit (4 # 10))) ;;
  b <- py_mul nishtha_pct (NFloat (lit (3 # 10))) ;;
  ab <- py_add a b ;;
  c <- py_mul aadhaar_verified_pct (NFloat (lit (3 # 10))) ;;
  s <- py_add ab c ;;
  Ok (py_round s 1).

(** [round(completion_rate * 0.3 + certification_rate * 0.25
           + data_accuracy * 0.25 + (100 - dropout_rate) * 0.2, 1)] *)
Definition operational_index
    (completion_rate certification_rate data_accuracy dropout_rate : num)
  : result num :=
  a <- py_mul completion_rate (NFloat (lit (3 # 10))) ;;
  b <- py_mul certification_rate (NFloat (lit (25 # 100))) ;;
  ab <- py_add a b ;;
  c <- py_mul data_accuracy (NFloat (lit (25 # 100))) ;;
  abc <- py_add ab c ;;
  m <- py_sub (NInt 100) dropout_rate ;;
  d <- py_mul m (NFloat (lit (2 # 10))) ;;
  s <- py_add abc d ;;
  Ok (py_round s 1).

(** The rates the four indices are computed from. *)
Record metrics : Type := mkMetrics {
  aadhaar_coverage : num;
  apaar_coverage : num;
  name_mismatch_rate : num;
  classroom_health : num;
  toilet_functional : num;
  water_availability : num;
  electricity_pct : num;
  ctet_pct : num;
  nishtha_pct : num;
  aadhaar_verified_pct : num;
  completion_rate : num;
  certification_rate : num;
  data_accuracy : num;
  dropout_rate : num
}.

(** The [school_health_index] of [get_school_health_index], from the rates
    of the four domains. *)
Definition school_health_index (m : metrics) : result num :=
  identity_index <-
    identity_compliance_index (aadhaar_coverage m) (apaar_coverage m)
      (name_mismatch_rate m) ;;
  infra_index <-
    infrastructure_index (classroom_health m) (toilet_functional m)
      (water_availability m) (electricity_pct m) ;;
  teacher_index <-
    teacher_quality_index (ctet_pct m) (nishtha_pct m) (aadhaar_verified_pct m) ;;
  operational_index <-
    operational_index (completion_rate m) (certification_rate m)
      (data_accuracy m) (dropout_rate m) ;;
  Executive.shi identity_index infra_index teacher_index operational_index.

(** The group sums [get_student_identity_compliance] reads: those of the
    Aadhaar collection and those of the APAAR collection. *)
Record identity_sums : Type := mkIdentitySums {
  is_total_students : Z;
  is_aadhaar_available : Z;
  is_name_match : Z;
  is_apaar_total_students : Z;
  is_apaar_generated : Z
}.

Definition identity_index_of_sums (g : identity_sums) : result num :=
  let total_students := is_total_students g in
  let name_match := is_name_match g in
  let name_mismatch :=
    if total_students >? name_match then total_students - name_match else 0 in
  aadhaar_coverage <- rate 1 (is_aadhaar_available g) total_students ;;
  apaar_coverage <- rate 1 (is_apaar_generated g) (is_apaar_total_students g) ;;
  name_mismatch_rate <- rate 2 name_mismatch total_students ;;
  identity_compliance_index aadhaar_coverage apaar_coverage name_mismatch_rate.

End Domains.

(** ** Vocabulary of the further properties *)

Module Totals.

Import Dict DataImport Spec.
Local Open Scope string_scope.

(** Sum of a quantity over a list. *)
Definition sum_of {A : Type} (f : A -> Z) (l : list A) : Z :=
  fold_right (fun a n => f a + n) 0 l.

(** The entries of the store that name a district. *)
Definition attributed (schools_data : dict School) : dict School :=
  filter (fun kv => has_district (snd kv)) schools_data.

(** The two lists of aggregates of an answer of [get_aggregated_data]. *)
Definition aggregates (r : result Aggregated)
  : result (list DistrictOut * list BlockOut) :=
  a <- r ;; Ok (districts a, blocks a).

(** The entry of a school, or the empty one the parsers start from. *)
Definition entry (udise : string) (store : dict School) : School :=
  match get udise store with
  | Some s => s
  | None => empty_school
  end.

(** Every block aggregate was opened by a contributing record of its key
    and carries the district and block names of that record. *)
Definition block_opened (bs : dict Block) (pre : list School) : Prop :=
  forall k b, In (k, b) bs ->
    exists s, In s pre /\ has_district s = true /\ block_key s = k /\
              district_of s = b_district_name b /\
              block_of s = b_block_name b.

(** Every district aggregate was opened by a contributing record of its
    name. *)
Definition district_opened (ds : dict District) (pre : list School) : Prop :=
  forall k, In k (map fst ds) ->
    exists s, In s pre /\ has_district s = true /\ district_of s = k.

(** The district and block a block aggregate is filed under. *)
Definition block_names (b : BlockOut) : string * string :=
  (b_district_name (b_acc b), b_block_name (b_acc b)).

(** The counts of a district aggregate are counts of some of its schools. *)
Definition counts_ok (d : District) : Prop :=
  0 <= d_water_count d <= d_total_schools d /\
  0 <= d_toilet_count d <= d_total_schools d /\
  0 <= d_certified_count d <= d_total_schools d.

(** The characters of a cleaned column name: lower-case letters, digits,
    the underscore, and white space other than the blank. *)
Definition column_char (c : ascii) : bool :=
  Text.is_lower c || Str.is_digit c || Ascii.eqb c "_"
  || (Str.is_space c && negb (Ascii.eqb c " ")).

(** Columns of the age-wise sheet counted for boys, and those counted for
    girls. *)
Definition boys_class (col : string) : bool :=
  Str.contains "(Boys)" col && Str.contains "Class" col.

Definition girls_class (col : string) : bool :=
  negb (boys_class col) && Str.contains "(Girls)" col && Str.contains "Class" col.


(** [ceil(n / d)] for a positive [d]. *)
Definition ceil_div (n d : Z) : Z := (n + d - 1) / d.

(** The last row of the sheet that carries the UDISE code [k]; rows without
    code are skipped by the parser. *)
Fixpoint last_row (k : string) (rows : list aadhaar_row) : option aadhaar_row :=
  match rows with
  | [] => None
  | r :: rest =>
      match last_row k rest with
      | Some r' => Some r'
      | None =>
          if String.eqb (ar_udise r) k && negb (String.eqb (ar_udise r) "")
          then Some r else None
      end
  end.




(** Every rate of the four domains is a percentage. *)
Definition percentages (m : Domains.metrics) : Prop :=
  within 0 100 (Domains.aadhaar_coverage m) /\
  within 0 100 (Domains.apaar_coverage m) /\
  within 0 100 (Domains.name_mismatch_rate m) /\
  within 0 100 (Domains.classroom_health m) /\
  within 0 100 (Domains.toilet_functional m) /\
  within 0 100 (Domains.water_availability m) /\
  within 0 100 (Domains.electricity_pct m) /\
  within 0 100 (Domains.ctet_pct m) /\
  within 0 100 (Domains.nishtha_pct m) /\
  within 0 100 (Domains.aadhaar_verified_pct m) /\
  within 0 100 (Domains.completion_rate m) /\
  within 0 100 (Domains.certification_rate m) /\
  within 0 100 (Domains.data_accuracy m) /\
  within 0 100 (Domains.dropout_rate m).

(** *** Worked data *)

(** The three schools of Haveli, a school of another district, and a
    school the sheets gave no district. *)
Definition mixed_store : dict School :=
  (three_schools ++
  [ ("U4", mkSchool (Some "U4") (Some "School D") (Some "SATARA") (Some "KARAD")
             (Some 40) (Some 2) (Some (Fin 50)) None (Some true) (Some false)
             (Some true) (Some 40) None);
    ("U5", mkSchool (Some "U5") (Some "School E") None None
             (Some 70) None None None None None None None None) ])%list.

(** A row of the age-wise sheet: one column lacks the word Class. *)
Definition age_row : Etl.row :=
  [ ("UDISE Code", VStr "27250100101"); ("Age Wise", VInt 7);
    ("Class 1 (Boys)", VInt 12); ("Class 1 (Girls)", VInt 15);
    ("Class 2 (Boys)", VStr "9"); ("Total (Boys)", VInt 21) ].

(** A school as [calculate_shi] reads it. *)
Definition crowded_school : Server.school_data :=
  Server.mkSchoolData (Some (NFloat (Fin 90))) (Some (NInt 250)) (Some true)
    (Some false) (Some (NInt 80)) (Some (NFloat (Fin 0))) None.


(** The three rows of Haveli, and a second row for the first school. *)
Definition repeated_rows : list aadhaar_row :=
  (three_rows ++ [mkAadhaarRow "U1" "School A" "PUNE" "MULSHI" 120 60])%list.

(** The rates of a scope, all of them percentages. *)
Definition sample_metrics : Domains.metrics :=
  Domains.mkMetrics (NFloat (lit (917 # 10))) (NFloat (Fin 64)) (NFloat (lit (42 # 10)))
    (NFloat (Fin 88)) (NFloat (Fin (193 # 2))) (NInt 100) (NInt 0)
    (NFloat (Fin (25 # 2))) (NFloat (Fin 40)) (NFloat (Fin 99))
    (NFloat (lit (9987 # 100))) (NFloat (Fin 75)) (NFloat (Fin 100)) (NInt 0).

End Totals.

(** * Properties *)

(** ** Rounding to binary64 *)

Module FloatFacts.

Lemma rne_bounds (q : Q) : Qfloor q <= rne q <= Qfloor q + 1.
Proof.
  unfold rne. destruct (Qcompare _ _); [destruct (Z.even _)| |]; lia.
Qed.

Lemma rne_inject_Z (z : Z) : rne (inject_Z z) = z.
Proof.
  unfold rne. rewrite Qfloor_Z.
  destruct (Qcompare_spec (inject_Z z - inject_Z z) (1 # 2)) as [H|H|H].
  - exfalso. lra.
  - reflexivity.
  - exfalso. lra.
Qed.

Lemma rne_mono (x y : Q) : (x <= y)%Q -> rne x <= rne y.
Proof.
  intros Hxy.
  pose proof (Qfloor_resp_le x y Hxy) as Hf.
  destruct (Z.eq_dec (Qfloor x) (Qfloor y)) as [E|N].
  - unfold rne. rewrite E.
    destruct (Qcompare_spec (x - inject_Z (Qfloor y)) (1 # 2)) as [Hx|Hx|Hx];
    destruct (Qcompare_spec (y - inject_Z (Qfloor y)) (1 # 2)) as [Hy|Hy|Hy];
    try destruct (Z.even (Qfloor y)); try lia; exfalso; lra.
  - pose proof (rne_bounds x). pose proof (rne_bounds y). lia.
Qed.

Lemma pow2_pos (e : Z) : (0 < 2 ^ e)%Q.
Proof. apply Qpower_0_lt. reflexivity. Qed.

Lemma pow2_le (a b : Z) : a <= b -> (2 ^ a <= 2 ^ b)%Q.
Proof. intros H. apply Qpower_le_compat_l; [exact H | discriminate]. Qed.

Lemma pow2_inject (n : Z) : 0 <= n -> (inject_Z (2 ^ n) == 2 ^ n)%Q.
Proof. intros H. exact (Zpower_Qpower 2 n H). Qed.

Lemma ilog2_spec (q : Q) :
  (0 < q)%Q -> (2 ^ ilog2 q <= q)%Q /\ (q < 2 ^ (ilog2 q + 1))%Q.
Proof.
  intros Hq. destruct q as [a b]. unfold ilog2. cbn [Qnum Qden].
  assert (Ha : 0 < a) by (unfold Qlt in Hq; cbn in Hq; lia).
  set (la := Z.log2 a). set (lb := Z.log2 (Z.pos b)).
  assert (Hla : 2 ^ la <= a < 2 ^ (la + 1)).
  { pose proof (Z.log2_spec a Ha) as H. unfold la. rewrite <- Z.add_1_r in H. exact H. }
  assert (Hlb : 2 ^ lb <= Z.pos b < 2 ^ (lb + 1)).
  { pose proof (Z.log2_spec (Z.pos b) eq_refl) as H. unfold lb.
    rewrite <- Z.add_1_r in H. exact H. }
  assert (Hla0 : 0 <= la) by apply Z.log2_nonneg.
  assert (Hlb0 : 0 <= lb) by apply Z.log2_nonneg.
  assert (Eq : (a # b == inject_Z a / inject_Z (Z.pos b))%Q) by apply Qmake_Qdiv.
  assert (Hb : (0 < inject_Z (Z.pos b))%Q) by reflexivity.
  assert (QaL : (2 ^ la <= inject_Z a)%Q).
  { rewrite <- pow2_inject by lia. rewrite <- Zle_Qle. lia. }
  assert (QaU : (inject_Z a < 2 ^ (la + 1))%Q).
  { rewrite <- pow2_inject by lia. rewrite <- Zlt_Qlt. lia. }
  assert (QbL : (2 ^ lb <= inject_Z (Z.pos b))%Q).
  { rewrite <- pow2_inject by lia. rewrite <- Zle_Qle. lia. }
  assert (QbU : (inject_Z (Z.pos b) < 2 ^ (lb + 1))%Q).
  { rewrite <- pow2_inject by lia. rewrite <- Zlt_Qlt. lia. }
  assert (N2 : ~ (2 == 0)%Q) by discriminate.
  destruct (Qle_bool (2 ^ (la - lb)) (a # b)) eqn:Hc.
  - apply Qle_bool_iff in Hc. split; [exact Hc|].
    rewrite Eq. apply Qlt_shift_div_r; [exact Hb|].
    replace (la - lb + 1) with ((la + 1) + - lb) by lia.
    rewrite Qpower_plus by exact N2. rewrite Qpower_opp.
    apply Qlt_le_trans with (2 ^ (la + 1))%Q; [exact QaU|].
    pose proof (pow2_pos lb) as P1. pose proof (pow2_pos (la + 1)) as P2.
    setoid_replace (2 ^ (la + 1))%Q with (2 ^ (la + 1) * / 2 ^ lb * 2 ^ lb)%Q at 1
      by (field; lra).
    apply Qmult_le_l; [|exact QbL].
    apply Qmult_lt_0_compat; [exact P2|]. apply Qinv_lt_0_compat. exact P1.
  - assert (Hlt : (a # b < 2 ^ (la - lb))%Q).
    { apply Qnot_le_lt. intros H. apply Qle_bool_iff in H. congruence. }
    split.
    + rewrite Eq. apply Qle_shift_div_l; [exact Hb|].
      replace (la - lb - 1) with (la + - (lb + 1)) by lia.
      rewrite Qpower_plus by exact N2. rewrite Qpower_opp.
      apply Qle_trans with (2 ^ la)%Q; [|exact QaL].
      pose proof (pow2_pos (lb + 1)) as P1. pose proof (pow2_pos la) as P2.
      setoid_replace (2 ^ la)%Q with (2 ^ la * / 2 ^ (lb + 1) * 2 ^ (lb + 1))%Q at 2
        by (field; lra).
      apply Qmult_le_l; [|apply Qlt_le_weak; exact QbU].
      apply Qmult_lt_0_compat; [exact P2|]. apply Qinv_lt_0_compat. exact P1.
    + replace (la - lb - 1 + 1) with (la - lb) by lia. exact Hlt.
Qed.

Lemma ilog2_mono (x y : Q) : (0 < x)%Q -> (x <= y)%Q -> ilog2 x <= ilog2 y.
Proof.
  intros Hx Hxy.
  destruct (ilog2_spec x Hx) as [Lx _].
  destruct (ilog2_spec y (Qlt_le_trans _ _ _ Hx Hxy)) as [_ Uy].
  destruct (Z_le_gt_dec (ilog2 x) (ilog2 y)) as [H|H]; [exact H|exfalso].
  pose proof (pow2_le (ilog2 y + 1) (ilog2 x) ltac:(lia)) as P.
  lra.
Qed.

Lemma b64_exp_mono (x y : Q) : (0 < x)%Q -> (x <= y)%Q -> b64_exp x <= b64_exp y.
Proof.
  intros Hx Hxy. pose proof (ilog2_mono x y Hx Hxy). unfold b64_exp. lia.
Qed.

Lemma div_pow2_le (x y : Q) (e : Z) : (x <= y)%Q -> (x / 2 ^ e <= y / 2 ^ e)%Q.
Proof.
  intros H. unfold Qdiv. apply Qmult_le_compat_r; [exact H|].
  apply Qlt_le_weak, Qinv_lt_0_compat, pow2_pos.
Qed.

(** The scaled significand is below [2^53]. *)
Lemma b64_mant_upper (x : Q) : (0 < x)%Q -> rne (x / 2 ^ b64_exp x) <= 2 ^ 53.
Proof.
  intros Hx. destruct (ilog2_spec x Hx) as [_ U].
  rewrite <- (rne_inject_Z (2 ^ 53)). apply rne_mono.
  rewrite pow2_inject by lia.
  apply Qle_shift_div_r; [apply pow2_pos|].
  rewrite <- Qpower_plus by discriminate.
  apply Qlt_le_weak. eapply Qlt_le_trans; [exact U|].
  apply pow2_le. unfold b64_exp. lia.
Qed.

(** Above the subnormal range the scaled significand is at least [2^52]. *)
Lemma b64_mant_lower (x : Q) :
  (0 < x)%Q -> -1074 < b64_exp x -> 2 ^ 52 <= rne (x / 2 ^ b64_exp x).
Proof.
  intros Hx He. destruct (ilog2_spec x Hx) as [L _].
  rewrite <- (rne_inject_Z (2 ^ 52)) at 1. apply rne_mono.
  rewrite pow2_inject by lia.
  apply Qle_shift_div_l; [apply pow2_pos|].
  rewrite <- Qpower_plus by discriminate.
  eapply Qle_trans; [|exact L].
  apply pow2_le. unfold b64_exp in *. lia.
Qed.

Lemma b64_pos_nonneg (x : Q) : (0 < x)%Q -> (0 <= b64_pos x)%Q.
Proof.
  intros Hx. unfold b64_pos.
  apply Qmult_le_0_compat; [|apply Qlt_le_weak, pow2_pos].
  change 0%Q with (inject_Z 0). rewrite <- Zle_Qle.
  rewrite <- (rne_inject_Z 0). apply rne_mono.
  apply Qle_shift_div_l; [apply pow2_pos|].
  change (inject_Z 0) with 0%Q. rewrite Qmult_0_l. lra.
Qed.

Lemma b64_pos_mono (x y : Q) : (0 < x)%Q -> (x <= y)%Q -> (b64_pos x <= b64_pos y)%Q.
Proof.
  intros Hx Hxy.
  assert (Hy : (0 < y)%Q) by lra.
  pose proof (b64_exp_mono x y Hx Hxy) as He.
  unfold b64_pos.
  destruct (Z.eq_dec (b64_exp x) (b64_exp y)) as [E|N].
  - rewrite E. apply Qmult_le_compat_r; [|apply Qlt_le_weak, pow2_pos].
    rewrite <- Zle_Qle. apply rne_mono. rewrite <- E at 1 2.
    rewrite E. apply div_pow2_le. exact Hxy.
  - assert (Hlt : b64_exp x < b64_exp y) by lia.
    pose proof (b64_mant_upper x Hx) as Ux.
    assert (Hey : -1074 < b64_exp y) by (unfold b64_exp in *; lia).
    pose proof (b64_mant_lower y Hy Hey) as Ly.
    apply Qle_trans with (2 ^ 53 * 2 ^ b64_exp x)%Q.
    { apply Qmult_le_compat_r; [|apply Qlt_le_weak, pow2_pos].
      rewrite <- (pow2_inject 53) by lia. rewrite <- Zle_Qle. exact Ux. }
    apply Qle_trans with (2 ^ 52 * 2 ^ b64_exp y)%Q.
    { rewrite <- !Qpower_plus by discriminate. apply pow2_le. lia. }
    apply Qmult_le_compat_r; [|apply Qlt_le_weak, pow2_pos].
    rewrite <- (pow2_inject 52) by lia. rewrite <- Zle_Qle. exact Ly.
Qed.

(** Rounding never crosses a binary64 value: a non-negative rational below
    the binary64 value [h] rounds to a finite float of the same range. *)
Lemma b64_range (q h : Q) :
  (0 <= q)%Q -> (q <= h)%Q -> b64_fix h ->
  exists r, b64 q = Fin r /\ (0 <= r)%Q /\ (r <= h)%Q.
Proof.
  intros H0 Hh [Fh Bh]. unfold b64.
  destruct (Qcompare_spec q 0) as [E|L|G].
  - exists 0%Q. split; [reflexivity|]. split; lra.
  - exfalso. lra.
  - pose proof (b64_pos_mono q h G Hh) as M.
    pose proof (b64_pos_nonneg q G) as P.
    destruct (Qle_bool b64_huge (b64_pos q)) eqn:Hc.
    + apply Qle_bool_iff in Hc. exfalso. lra.
    + exists (Qred (b64_pos q)). split; [reflexivity|].
      rewrite Qred_correct. split; lra.
Qed.

Lemma b64_fix_1 : b64_fix 1.
Proof. split; vm_compute; reflexivity. Qed.
Lemma b64_fix_100 : b64_fix 100.
Proof. split; vm_compute; reflexivity. Qed.

End FloatFacts.

(** ** Results and dictionaries *)

Lemma mapM_in {A B : Type} (f : A -> result B) (l : list A) (l' : list B) :
  mapM f l = Ok l' -> forall y, In y l' -> exists x, In x l /\ f x = Ok y.
Proof.
  revert l'. induction l as [|a l IH]; cbn; intros l' H y Hy.
  - inversion H; subst. destruct Hy.
  - bind_inv H. bind_inv H. inversion H; subst. destruct Hy as [->|Hy].
    + exists a. auto.
    + destruct (IH _ eq_refl y Hy) as [x [Hx Fx]]. exists x. auto.
Qed.

(** ** Dictionaries *)

Module DictFacts.
Import Dict.

Section Facts.
Context {V : Type}.
Implicit Types (d : dict V) (k : string) (v : V).

Lemma get_none_iff k d : get k d = None <-> ~ In k (map fst d).
Proof.
  induction d as [|[k' v'] d IH]; cbn.
  - tauto.
  - destruct (String.eqb_spec k' k) as [->|N].
    + split; [discriminate|]. intros H. exfalso. apply H. now left.
    + rewrite IH. split; intros H; [intros [E|I]; [congruence|tauto] | tauto].
Qed.

Lemma get_in k v d : get k d = Some v -> In (k, v) d.
Proof.
  induction d as [|[k' v'] d IH]; cbn; [discriminate|].
  destruct (String.eqb_spec k' k) as [->|N].
  - intros H. inversion H. now left.
  - intros H. right. auto.
Qed.

Lemma in_keys k v d : In (k, v) d -> In k (map fst d).
Proof. intros H. change k with (fst (k, v)). now apply in_map. Qed.

Lemma setdefault_keys k v d :
  NoDup (map fst d) -> NoDup (map fst (setdefault k v d)).
Proof.
  intros N. unfold setdefault, mem.
  destruct (get k d) eqn:G; [exact N|].
  rewrite map_app. cbn. apply get_none_iff in G.
  apply NoDup_app; [exact N | repeat constructor; intros [] | ].
  intros x Hx [E|[]]. cbn in E. subst. tauto.
Qed.

Lemma setdefault_in k v d k' v' :
  In (k', v') (setdefault k v d) ->
  In (k', v') d \/ (k' = k /\ v' = v /\ ~ In k (map fst d)).
Proof.
  unfold setdefault, mem. destruct (get k d) eqn:G; [auto|].
  intros H. apply in_app_or in H. destruct H as [H|[H|[]]]; [auto|].
  inversion H; subst. right. repeat split. now apply get_none_iff.
Qed.

Lemma setdefault_has k v d : In k (map fst (setdefault k v d)).
Proof.
  unfold setdefault, mem. destruct (get k d) eqn:G.
  - apply get_in in G. eapply in_keys; eauto.
  - rewrite map_app. apply in_or_app. right. now left.
Qed.


Lemma modify_keys k (f : V -> result V) d d' :
  modify k f d = Ok d' -> map fst d' = map fst d.
Proof.
  revert d'. induction d as [|[k' v'] d IH]; cbn; intros d' H.
  - now inversion H.
  - destruct (String.eqb k' k).
    + bind_inv H. now inversion H.
    + bind_inv H. inversion H; subst. cbn. f_equal. auto.
Qed.

Lemma modify_in k (f : V -> result V) d d' k' v' :
  NoDup (map fst d) -> modify k f d = Ok d' -> In (k', v') d' ->
  (k' <> k /\ In (k', v') d) \/
  (k' = k /\ exists v, In (k, v) d /\ f v = Ok v').
Proof.
  revert d'. induction d as [|[k0 v0] d IH]; cbn; intros d' N H I.
  - inversion H; subst. destruct I.
  - inversion N as [|? ? Hn N']; subst.
    destruct (String.eqb_spec k0 k) as [->|Ne].
    + bind_inv H. inversion H; subst. destruct I as [I|I].
      * inversion I; subst. right. split; [reflexivity|]. exists v0. auto.
      * left. split; [|now right]. intros ->. apply Hn. eapply in_keys; eauto.
    + bind_inv H. inversion H; subst. destruct I as [I|I].
      * inversion I; subst. left. split; [exact Ne | now left].
      * destruct (IH _ N' eq_refl I) as [[A B]|[A [v [B C]]]].
        -- left. split; [exact A | now right].
        -- right. split; [exact A|]. exists v. split; [now right | exact C].
Qed.

End Facts.
End DictFacts.

(** ** The roll-up loop *)

Module AggregatorFacts.
Import Dict DataImport Spec DictFacts.

Lemma count_app {A : Type} (p : A -> bool) (l1 l2 : list A) :
  count p (l1 ++ l2) = count p l1 + count p l2.
Proof. unfold count. rewrite filter_app, length_app. lia. Qed.

Lemma count_one {A : Type} (p : A -> bool) (a : A) :
  count p [a] = if p a then 1 else 0.
Proof. unfold count. cbn. destruct (p a); reflexivity. Qed.

Lemma setdefault_keys_mono {V : Type} (k : string) (v : V) (d : dict V) x :
  In x (map fst d) -> In x (map fst (setdefault k v d)).
Proof.
  unfold setdefault. destruct (mem k d); [auto|].
  rewrite map_app. intros H. apply in_or_app. now left.
Qed.

(** *** One dictionary of aggregates, generically *)

Section Counted.

Context {V : Type}.
Variables (keyof : School -> string) (init : School -> V).
Variable upd : School -> V -> result V.
Variables (label : V -> string) (tot swd : V -> Z).

Hypothesis init_label : forall s, label (init s) = keyof s.
Hypothesis init_tot : forall s, tot (init s) = 0.
Hypothesis init_swd : forall s, swd (init s) = 0.
Hypothesis upd_spec : forall s v v',
  upd s v = Ok v' ->
  label v' = label v /\ tot v' = tot v + 1 /\ swd v <= swd v' <= swd v + 1.

Lemma counted_skip (d : dict V) (pre : list School) (s : School) :
  has_district s = false ->
  counted (selected_by keyof) label tot swd d pre ->
  counted (selected_by keyof) label tot swd d (pre ++ [s]).
Proof.
  intros Hs [N [HI HO]].
  assert (C : forall k, count (selected_by keyof k) (pre ++ [s])
                        = count (selected_by keyof k) pre).
  { intros k. rewrite count_app, count_one. unfold selected_by.
    rewrite Hs. cbn. lia. }
  split; [exact N|]. split.
  - intros k v I. rewrite C. now apply HI.
  - intros k I. rewrite C. now apply HO.
Qed.

Lemma counted_step (d d' : dict V) (pre : list School) (s : School) :
  has_district s = true ->
  counted (selected_by keyof) label tot swd d pre ->
  modify (keyof s) (upd s) (setdefault (keyof s) (init s) d) = Ok d' ->
  counted (selected_by keyof) label tot swd d' (pre ++ [s]).
Proof.
  intros Hs [N [HI HO]] M.
  assert (C : forall k, count (selected_by keyof k) (pre ++ [s])
                        = count (selected_by keyof k) pre
                          + if String.eqb (keyof s) k then 1 else 0).
  { intros k. rewrite count_app, count_one. unfold selected_by.
    rewrite Hs. reflexivity. }
  pose proof (setdefault_keys (keyof s) (init s) d N) as N1.
  pose proof (modify_keys _ _ _ _ M) as K.
  split; [rewrite K; exact N1|]. split.
  - intros k v' I. rewrite C.
    destruct (modify_in _ _ _ _ _ _ N1 M I) as [[Ne I1]|[-> [v [I1 U]]]].
    + apply setdefault_in in I1. destruct I1 as [I1|[E _]]; [|congruence].
      destruct (String.eqb_spec (keyof s) k) as [E|_]; [congruence|].
      rewrite Z.add_0_r. now apply HI.
    + rewrite String.eqb_refl.
      destruct (upd_spec _ _ _ U) as [L [T S]].
      apply setdefault_in in I1. destruct I1 as [I1|[_ [-> Hn]]].
      * destruct (HI _ _ I1) as [L1 [T1 S1]]. rewrite L, T.
        repeat split; lia || congruence.
      * rewrite (HO _ Hn). rewrite L, T, init_label, init_tot.
        rewrite init_swd in S. repeat split; lia.
  - intros k Hk. rewrite K in Hk. rewrite C.
    destruct (String.eqb_spec (keyof s) k) as [E|_].
    + exfalso. apply Hk. rewrite <- E. apply setdefault_has.
    + rewrite Z.add_0_r. apply HO. intros I. apply Hk.
      now apply setdefault_keys_mono.
Qed.

End Counted.

(** *** The two dictionaries of [get_aggregated_data] *)

Lemma add_to_district_spec (s : School) (d d' : District) :
  add_to_district s d = Ok d' ->
  d_district_name d' = d_district_name d /\
  d_total_schools d' = d_total_schools d + 1 /\
  d_schools_with_data d <= d_schools_with_data d' <= d_schools_with_data d + 1.
Proof.
  unfold add_to_district. intros H. bind_inv H. bind_inv H.
  inversion H; subst; cbn.
  destruct (float_set (aadhaar_percentage s)).
  - bind_inv E. inversion E; subst; cbn. repeat split; try reflexivity; lia.
  - inversion E; subst; cbn. repeat split; try reflexivity; lia.
Qed.

Lemma add_to_block_spec (s : School) (b b' : Block) :
  add_to_block s b = Ok b' ->
  block_label b' = block_label b /\
  b_total_schools b' = b_total_schools b + 1 /\
  b_schools_with_data b <= b_schools_with_data b' <= b_schools_with_data b + 1.
Proof.
  unfold add_to_block. intros H. bind_inv H. bind_inv H.
  inversion H; subst; cbn.
  destruct (float_set (aadhaar_percentage s)).
  - bind_inv E. inversion E; subst; cbn. repeat split; try reflexivity; lia.
  - inversion E; subst; cbn. repeat split; try reflexivity; lia.
Qed.

Lemma step_ok (st st' : acc) (pre : list School) (s : School) :
  districts_ok st pre -> blocks_ok st pre -> step st s = Ok st' ->
  districts_ok st' (pre ++ [s]) /\ blocks_ok st' (pre ++ [s]).
Proof.
  unfold districts_ok, blocks_ok, step. intros D B H.
  destruct (has_district s) eqn:Hs.
  - bind_inv H. bind_inv H. inversion H; subst; cbn [fst snd]. split.
    + exact (counted_step district_of (fun s => new_district (district_of s))
               add_to_district d_district_name d_total_schools
               d_schools_with_data (fun _ => eq_refl) (fun _ => eq_refl)
               (fun _ => eq_refl) add_to_district_spec _ _ pre s Hs D E).
    + exact (counted_step block_key
               (fun s => new_block (district_of s) (block_of s))
               add_to_block block_label b_total_schools b_schools_with_data
               (fun _ => eq_refl) (fun _ => eq_refl) (fun _ => eq_refl)
               add_to_block_spec _ _ pre s Hs B E0).
  - inversion H; subst. split.
    + now apply (counted_skip district_of).
    + now apply (counted_skip block_key).
Qed.

Lemma accumulate_ok (l pre : list School) (st st' : acc) :
  districts_ok st pre -> blocks_ok st pre -> accumulate st l = Ok st' ->
  districts_ok st' (pre ++ l) /\ blocks_ok st' (pre ++ l).
Proof.
  revert pre st. induction l as [|s l IH]; cbn; intros pre st D B H.
  - inversion H; subst. rewrite app_nil_r. auto.
  - bind_inv H. destruct (step_ok _ _ _ _ D B E) as [D1 B1].
    replace (pre ++ s :: l) with ((pre ++ [s]) ++ l)
      by (rewrite <- app_assoc; reflexivity).
    eapply IH; eauto.
Qed.

Lemma counted_nil {V : Type} sel (label : V -> string) tot swd :
  counted sel label tot swd [] [].
Proof.
  split; [constructor|]. split; [intros ? ? []|]. intros; reflexivity.
Qed.

Lemma finish_district_acc (d : District) (o : DistrictOut) :
  finish_district d = Ok o -> d_acc o = d.
Proof.
  unfold finish_district. intros H. bind_inv H. bind_inv H. bind_inv H.
  now inversion H.
Qed.

Lemma finish_block_acc (b : Block) (o : BlockOut) :
  finish_block b = Ok o -> b_acc o = b.
Proof.
  unfold finish_block. intros H. bind_inv H. now inversion H.
Qed.

End AggregatorFacts.

(** ** Rates *)

Module RateFacts.

Import DataImport Spec FloatFacts.

(** The quotient of two [int]s, the smaller over the larger. *)
Lemma int_truediv_unit (n d : Z) :
  0 <= n <= d -> 0 < d ->
  exists r, int_truediv n d = Ok (Fin r) /\ (0 <= r)%Q /\ (r <= 1)%Q.
Proof.
  intros Hn Hd. unfold int_truediv.
  destruct (Z.eqb_spec d 0) as [E|_]; [lia|].
  assert (Pd : (0 < inject_Z d)%Q).
  { change 0%Q with (inject_Z 0). rewrite <- Zlt_Qlt. lia. }
  assert (L : (0 <= inject_Z n / inject_Z d)%Q).
  { apply Qle_shift_div_l; [exact Pd|]. rewrite Qmult_0_l.
    change 0%Q with (inject_Z 0). rewrite <- Zle_Qle. lia. }
  assert (U : (inject_Z n / inject_Z d <= 1)%Q).
  { apply Qle_shift_div_r; [exact Pd|]. rewrite Qmult_1_l. rewrite <- Zle_Qle. lia. }
  destruct (b64_range _ _ L U b64_fix_1) as [r [E R]].
  rewrite E. exists r. auto.
Qed.

Lemma fmul_100_range (r : Q) :
  (0 <= r)%Q -> (r <= 1)%Q ->
  exists p, fmul (Fin r) (Fin 100) = Fin p /\ (0 <= p)%Q /\ (p <= 100)%Q.
Proof.
  intros L U. cbn [fmul].
  apply b64_range; [|  | exact b64_fix_100]; nra.
Qed.

Lemma pow10_pos (nd : Z) : (0 < 10 ^ nd)%Q.
Proof. apply Qpower_0_lt. reflexivity. Qed.

(** Rounding to [nd] decimals keeps a percentage a percentage. *)
Lemma fround_range (p : Q) (nd : Z) :
  0 <= nd -> (0 <= p)%Q -> (p <= 100)%Q ->
  exists r, fround (Fin p) nd = Fin r /\ (0 <= r)%Q /\ (r <= 100)%Q.
Proof.
  intros Hnd L U. cbn [fround].
  pose proof (pow10_pos nd) as P.
  assert (E10 : (inject_Z (10 ^ nd) == 10 ^ nd)%Q) by exact (Zpower_Qpower 10 nd Hnd).
  assert (R0 : 0 <= rne (p * 10 ^ nd)).
  { rewrite <- (rne_inject_Z 0). apply rne_mono. change (inject_Z 0) with 0%Q. nra. }
  assert (R1 : rne (p * 10 ^ nd) <= 100 * 10 ^ nd).
  { rewrite <- (rne_inject_Z (100 * 10 ^ nd)). apply rne_mono.
    rewrite inject_Z_mult, E10. change (inject_Z 100) with 100%Q. nra. }
  apply b64_range; [| | exact b64_fix_100].
  - apply Qle_shift_div_l; [exact P|]. rewrite Qmult_0_l.
    change 0%Q with (inject_Z 0). rewrite <- Zle_Qle. exact R0.
  - apply Qle_shift_div_r; [exact P|].
    apply Qle_trans with (inject_Z (100 * 10 ^ nd)).
    + rewrite <- Zle_Qle. exact R1.
    + rewrite inject_Z_mult, E10. apply Qle_refl.
Qed.

Lemma within_fin (r : Q) :
  (0 <= r)%Q -> (r <= 100)%Q -> within 0 100 (NFloat (Fin r)).
Proof.
  intros L U. unfold within, py_le, py_cmp. cbn [num_exact fcmp]. split.
  - destruct (Qcompare_spec (inject_Z 0) r) as [H|H|H]; try reflexivity.
    exfalso. change (inject_Z 0) with 0%Q in H. lra.
  - destruct (Qcompare_spec r (inject_Z 100)) as [H|H|H]; try reflexivity.
    exfalso. change (inject_Z 100) with 100%Q in H. lra.
Qed.


(** The rate [round(n / d * 100, nd)] of a part [n] of a whole [d]. *)
Lemma part_rate_range (n d nd : Z) :
  0 <= n <= d -> 0 < d -> 0 <= nd ->
  exists q r, int_truediv n d = Ok q /\
              fround (fmul q (Fin 100)) nd = Fin r /\ (0 <= r)%Q /\ (r <= 100)%Q.
Proof.
  intros Hn Hd Hnd.
  destruct (int_truediv_unit n d Hn Hd) as [q [E [L U]]].
  destruct (fmul_100_range q L U) as [p [Ep [Lp Up]]].
  destruct (fround_range p nd Hnd Lp Up) as [r [Er [Lr Ur]]].
  exists (Fin q), r. rewrite Ep. auto.
Qed.

End RateFacts.

(** ** Strings *)

Module StrFacts.

Import Str Spec.
Local Open Scope string_scope.

Lemma startswith_iff (s p : string) :
  startswith s p = true <-> exists t, s = p ++ t.
Proof.
  unfold startswith. revert s. induction p as [|c p IH]; intros s.
  - split; [intros _; exists s; reflexivity | intros _; destruct s; reflexivity].
  - destruct s as [|c' s]; cbn.
    + split; [discriminate | intros [t H]; discriminate].
    + destruct (Ascii.ascii_dec c c') as [E|N].
      * subst. rewrite IH. split; intros [t H]; exists t; [now subst | now inversion H].
      * split; [discriminate | intros [t H]; inversion H; congruence].
Qed.

Lemma append_assoc (a b c : string) : (a ++ b) ++ c = a ++ (b ++ c).
Proof. induction a; cbn; congruence. Qed.

Lemma rev_string_app (acc s : string) : rev_string acc s = rev_string "" s ++ acc.
Proof.
  revert acc. induction s as [|c s IH]; intros acc; cbn; [reflexivity|].
  rewrite IH, (IH (String c "")). rewrite append_assoc. reflexivity.
Qed.

Lemma append_nil_r (s : string) : s ++ "" = s.
Proof. induction s; cbn; congruence. Qed.

Lemma rev_append (a b : string) :
  rev_string "" (a ++ b) = rev_string "" b ++ rev_string "" a.
Proof.
  induction a as [|c a IH]; cbn.
  - now rewrite append_nil_r.
  - rewrite (rev_string_app (String c "") (a ++ b)), IH,
      (rev_string_app (String c "") a).
    now rewrite append_assoc.
Qed.

Lemma rev_involutive (s : string) : rev_string "" (rev_string "" s) = s.
Proof.
  induction s as [|c s IH]; cbn; [reflexivity|].
  rewrite (rev_string_app (String c "") s), rev_append, IH. reflexivity.
Qed.

Lemma endswith_iff (s p : string) :
  endswith s p = true <-> exists u, s = u ++ p.
Proof.
  unfold endswith. rewrite (startswith_iff (rev_string "" s) (rev_string "" p)).
  split; intros [t H].
  - exists (rev_string "" t).
    rewrite <- (rev_involutive s), H, rev_append, rev_involutive. reflexivity.
  - exists (rev_string "" t). rewrite H, rev_append. reflexivity.
Qed.

Lemma span_digits_app (s : string) :
  s = fst (span_digits s) ++ snd (span_digits s).
Proof.
  induction s as [|c s IH]; cbn; [reflexivity|].
  destruct (is_digit c); [|reflexivity].
  destruct (span_digits s) as [d r]. cbn in *. congruence.
Qed.

(** A [(<digits>)] string starts and ends with a parenthesis. *)
Lemma paren_digits_brackets (s : string) :
  paren_digits s = true -> startswith s "(" = true /\ endswith s ")" = true.
Proof.
  unfold paren_digits. destruct s as [|c t]; [discriminate|].
  destruct (Ascii.ascii_dec c "(") as [->|N].
  - pose proof (span_digits_app t) as A.
    destruct (span_digits t) as [d r]. cbn [fst snd] in A.
    intros H. apply andb_true_iff in H. destruct H as [_ H].
    apply String.eqb_eq in H. subst r. split.
    + apply startswith_iff. exists t. reflexivity.
    + apply endswith_iff. exists (String "(" d). cbn. congruence.
  - intros H. exfalso. revert H.
    destruct c as [[] [] [] [] [] [] [] []]; try discriminate. contradiction.
Qed.

End StrFacts.

(** ** The enrolment loop *)

Module EnrolmentFacts.

Import Etl Spec.
Local Open Scope string_scope.
Local Open Scope Z_scope.

Lemma enrolment_fold (r : row) (cs : list string) (acc : enrolment_totals) :
  let t := fold_left (enrolment_step r) cs acc in
  boys_total t = boys_total acc + column_sum (Str.contains "(Boys)") r cs /\
  girls_total t = girls_total acc + column_sum girls_only r cs /\
  trans_total t = trans_total acc + column_sum trans_only r cs.
Proof.
  revert acc. induction cs as [|c cs IH]; intros acc.
  - cbn. lia.
  - cbn [fold_left]. destruct (IH (enrolment_step r acc c)) as [B [G T]].
    cbv zeta. rewrite B, G, T. unfold column_sum. cbn [fold_right].
    unfold enrolment_step, girls_only, trans_only.
    destruct (Str.contains "(Boys)" c);
      cbn [negb andb boys_total girls_total trans_total]; [lia|].
    destruct (Str.contains "(Girls)" c);
      cbn [negb andb boys_total girls_total trans_total]; [lia|].
    destruct (Str.contains "(Trans)" c);
      cbn [negb andb boys_total girls_total trans_total]; lia.
Qed.

End EnrolmentFacts.

(** ** Conservation between blocks and districts *)

Module ConservationFacts.

Import Dict DataImport Spec DictFacts AggregatorFacts.
Local Open Scope string_scope.
Local Open Scope list_scope.
Local Open Scope Z_scope.

Lemma block_sum_cons (name : string) (b : Block) (l : list Block) :
  block_sum name (b :: l)
  = (if String.eqb (b_district_name b) name then b_total_schools b else 0)
    + block_sum name l.
Proof.
  unfold block_sum. cbn. destruct (String.eqb (b_district_name b) name); lia.
Qed.

Lemma block_sum_app (name : string) (l1 l2 : list Block) :
  block_sum name (l1 ++ l2) = block_sum name l1 + block_sum name l2.
Proof.
  induction l1 as [|b l1 IH]; [reflexivity|].
  cbn [app]. rewrite !block_sum_cons, IH. lia.
Qed.

Lemma block_sum_setdefault (name k d bn : string) (bs : dict Block) :
  block_sum name (values (setdefault k (new_block d bn) bs))
  = block_sum name (values bs).
Proof.
  unfold setdefault. destruct (mem k bs); [reflexivity|].
  unfold values. rewrite map_app, block_sum_app. cbn [map snd].
  rewrite block_sum_cons. cbn. destruct (String.eqb d name); lia.
Qed.

Lemma add_to_block_names (s : School) (b b' : Block) :
  add_to_block s b = Ok b' -> b_district_name b' = b_district_name b.
Proof.
  unfold add_to_block. intros E. bind_inv E. bind_inv E. now inversion E.
Qed.

(** Adding a record to the block under [k] adds one to the sum of the
    district that block is filed under. *)
Lemma block_sum_modify (name k : string) (s : School) (bs bs' : dict Block) (b : Block) :
  get k bs = Some b -> modify k (add_to_block s) bs = Ok bs' ->
  block_sum name (values bs')
  = block_sum name (values bs)
    + (if String.eqb (b_district_name b) name then 1 else 0).
Proof.
  revert bs'. induction bs as [|[k' v] bs IH]; cbn [get modify]; intros bs' G M;
    [discriminate|].
  destruct (String.eqb k' k).
  - inversion G; subst v. bind_inv M. inversion M; subst bs'.
    unfold values. cbn [map snd]. rewrite !block_sum_cons.
    destruct (add_to_block_spec _ _ _ E) as [_ [T _]].
    rewrite (add_to_block_names _ _ _ E), T.
    destruct (String.eqb (b_district_name b) name); lia.
  - bind_inv M. inversion M; subst bs'.
    unfold values in *. cbn [map snd]. rewrite !block_sum_cons.
    rewrite (IH _ G eq_refl). lia.
Qed.

Lemma get_setdefault (k : string) (v : Block) (bs : dict Block) :
  exists b, get k (setdefault k v bs) = Some b /\
            (In (k, b) bs \/ (b = v /\ ~ In k (map fst bs))).
Proof.
  unfold setdefault, mem. destruct (get k bs) as [b|] eqn:G.
  - exists b. rewrite G. split; [reflexivity|]. left. now apply get_in.
  - exists v. split.
    + induction bs as [|[k' v'] bs IH]; cbn in *.
      * now rewrite String.eqb_refl.
      * destruct (String.eqb k' k); [discriminate|]. auto.
    + right. split; [reflexivity|]. now apply get_none_iff.
Qed.

Lemma step_conserved (st st' : acc) (pre : list School) (s : School) :
  no_collision (pre ++ [s]) ->
  blocks_ok st pre -> block_origin (snd st) pre -> blocks_account (snd st) pre ->
  step st s = Ok st' ->
  block_origin (snd st') (pre ++ [s]) /\ blocks_account (snd st') (pre ++ [s]).
Proof.
  intros NC [N _] O A H. unfold step in H.
  destruct (has_district s) eqn:Hs.
  - bind_inv H. bind_inv H. inversion H; subst st'; cbn [snd].
    pose proof (setdefault_keys (block_key s)
                  (new_block (district_of s) (block_of s)) (snd st) N) as N1.
    split.
    + intros k b I.
      destruct (modify_in _ _ _ _ _ _ N1 E0 I) as [[Ne I1]|[-> [v [I1 U]]]].
      * apply setdefault_in in I1. destruct I1 as [I1|[Ek _]]; [|congruence].
        destruct (O _ _ I1) as [s' [P1 P2]]. exists s'. split; [|exact P2].
        apply in_or_app. now left.
      * rewrite (add_to_block_names _ _ _ U).
        apply setdefault_in in I1. destruct I1 as [I1|[_ [-> _]]].
        -- destruct (O _ _ I1) as [s' [P1 P2]]. exists s'. split; [|exact P2].
           apply in_or_app. now left.
        -- exists s. split; [apply in_or_app; right; now left|]. repeat split; auto.
    + intros name.
      destruct (get_setdefault (block_key s)
                  (new_block (district_of s) (block_of s)) (snd st)) as [b [G Hb]].
      rewrite (block_sum_modify name _ _ _ _ _ G E0), block_sum_setdefault, A.
      rewrite count_app, count_one.
      replace (in_district name s) with (String.eqb (district_of s) name)
        by (unfold in_district, selected_by; now rewrite Hs).
      assert (Eb : b_district_name b = district_of s).
      { destruct Hb as [I|[-> _]]; [|reflexivity].
        destruct (O _ _ I) as [s' [P1 [P2 [P3 P4]]]]. rewrite <- P4.
        apply NC; auto.
        - apply in_or_app. now left.
        - apply in_or_app. right. now left. }
      rewrite Eb. reflexivity.
  - inversion H; subst st'. split.
    + intros k b I. destruct (O _ _ I) as [s' [P1 P2]]. exists s'.
      split; [apply in_or_app; now left | exact P2].
    + intros name. rewrite A, count_app, count_one.
      replace (in_district name s) with false
        by (unfold in_district, selected_by; now rewrite Hs).
      lia.
Qed.

Lemma no_collision_prefix (l1 l2 : list School) :
  no_collision (l1 ++ l2) -> no_collision l1.
Proof.
  intros H s s' I I'. apply H; apply in_or_app; now left.
Qed.

Lemma accumulate_conserved (l pre : list School) (st st' : acc) :
  no_collision (pre ++ l) ->
  districts_ok st pre -> blocks_ok st pre ->
  block_origin (snd st) pre -> blocks_account (snd st) pre ->
  accumulate st l = Ok st' ->
  blocks_account (snd st') (pre ++ l).
Proof.
  revert pre st. induction l as [|s l IH]; cbn; intros pre st NC D B O A H.
  - inversion H; subst. now rewrite app_nil_r.
  - bind_inv H.
    assert (NC' : no_collision ((pre ++ [s]) ++ l)).
    { now rewrite <- app_assoc. }
    destruct (step_ok _ _ _ _ D B E) as [D1 B1].
    destruct (step_conserved _ _ _ _ (no_collision_prefix _ _ NC') B O A E) as [O1 A1].
    replace (pre ++ s :: l) with ((pre ++ [s]) ++ l)
      by (rewrite <- app_assoc; reflexivity).
    eapply IH; eauto.
Qed.

Lemma district_sum_cons (name : string) (d : District) (l : list District) :
  district_sum name (d :: l)
  = (if String.eqb (d_district_name d) name then d_total_schools d else 0)
    + district_sum name l.
Proof.
  unfold district_sum. cbn. destruct (String.eqb (d_district_name d) name); lia.
Qed.

(** The district aggregates, whose keys are their names, sum to the count
    of the records of the district. *)
Lemma district_sum_counted (name : string) (ds : dict District) (pre : list School) :
  counted in_district d_district_name d_total_schools d_schools_with_data ds pre ->
  district_sum name (values ds) = count (in_district name) pre.
Proof.
  intros [N [HI HO]].
  assert (G : district_sum name (values ds)
              = match get name ds with Some d => d_total_schools d | None => 0 end).
  { clear HO. induction ds as [|[k v] ds IH]; [reflexivity|].
    inversion N as [|? ? Hn N']; subst.
    destruct (HI k v (or_introl eq_refl)) as [L _].
    unfold values in *. cbn [map snd get]. rewrite district_sum_cons, L.
    rewrite IH by (auto; intros; apply HI; now right).
    destruct (String.eqb_spec k name) as [->|Ne]; [|reflexivity].
    destruct (get name ds) eqn:Gn; [|lia].
    exfalso. apply Hn. apply get_in in Gn. eapply in_keys; eauto. }
  rewrite G. destruct (get name ds) as [d|] eqn:Gn.
  - apply get_in in Gn. now destruct (HI _ _ Gn) as [_ [T _]].
  - symmetry. apply HO. now apply get_none_iff.
Qed.

Lemma mapM_map {A B : Type} (f : A -> result B) (g : B -> A) (l : list A) (l' : list B) :
  (forall a b, f a = Ok b -> g b = a) -> mapM f l = Ok l' -> map g l' = l.
Proof.
  intros Hg. revert l'. induction l as [|a l IH]; cbn; intros l' H.
  - now inversion H.
  - bind_inv H. bind_inv H. inversion H; subst. cbn. f_equal; auto.
Qed.

(** Conservation, away from key collisions: the block aggregates filed
    under a district sum to the district's [total_schools]. *)
Theorem block_totals_conserved (schools_data : dict School) (out : Aggregated) :
  no_collision (values schools_data) ->
  get_aggregated_data schools_data = Ok out ->
  forall name,
    block_sum name (map b_acc (blocks out))
    = district_sum name (map d_acc (districts out)).
Proof.
  intros NC H name. unfold get_aggregated_data in H.
  bind_inv H. bind_inv H. bind_inv H. inversion H; subst out; cbn [districts blocks].
  rewrite (mapM_map _ _ _ _ finish_district_acc E0).
  rewrite (mapM_map _ _ _ _ finish_block_acc E1).
  destruct (accumulate_ok (values schools_data) [] ([], []) a
              (counted_nil _ _ _ _) (counted_nil _ _ _ _) E) as [D B].
  assert (A : blocks_account (snd a) ([] ++ values schools_data)).
  { eapply (accumulate_conserved _ [] ([], [])); eauto.
    - apply counted_nil.
    - apply counted_nil.
    - intros ? ? [].
    - intros ?. reflexivity. }
  cbn [app] in *. rewrite A. symmetry. now apply district_sum_counted.
Qed.

Lemma bar_split (d1 d2 r1 r2 : string) :
  no_bar d1 = true -> no_bar d2 = true ->
  (d1 ++ String "|" r1 = d2 ++ String "|" r2)%string -> d1 = d2.
Proof.
  revert d2. induction d1 as [|c d1 IH]; intros [|c' d2]; cbn; intros B1 B2 E.
  - reflexivity.
  - inversion E; subst. rewrite Ascii.eqb_refl in B2. discriminate.
  - inversion E; subst. rewrite Ascii.eqb_refl in B1. discriminate.
  - inversion E; subst. apply andb_true_iff in B1, B2. f_equal. apply (IH d2); tauto.
Qed.

(** District names without a vertical bar never collide. *)
Lemma no_bar_no_collision (l : list School) :
  (forall s, In s l -> has_district s = true -> no_bar (district_of s) = true) ->
  no_collision l.
Proof.
  intros H s s' I I' Hs Hs' E. unfold block_key in E. cbn in E.
  eapply bar_split; eauto.
Qed.

End ConservationFacts.

(** ** The roll-up returns *)

Module TotalityFacts.

Import Dict DataImport Spec DictFacts AggregatorFacts FloatFacts.
Local Open Scope string_scope.
Local Open Scope list_scope.
Local Open Scope Z_scope.

Lemma overflow_only_ok {A : Type} (a : A) : overflow_only (Ok a).
Proof. intros e H. discriminate H. Qed.

Lemma overflow_only_bind {A B : Type} (m : result A) (k : A -> result B) :
  overflow_only m -> (forall a, m = Ok a -> overflow_only (k a)) ->
  overflow_only (bind m k).
Proof.
  intros Hm Hk e H. destruct m as [a|e']; cbn in H.
  - exact (Hk a eq_refl e H).
  - inversion H; subst. now apply Hm.
Qed.

Lemma of_int_overflow_only (n : Z) : overflow_only (of_int n).
Proof.
  unfold of_int. intros e H. destruct (b64 (inject_Z n)); now inversion H.
Qed.

Lemma num_to_float_overflow_only (v : num) : overflow_only (num_to_float v).
Proof.
  destruct v; cbn; [apply of_int_overflow_only | apply overflow_only_ok].
Qed.

Lemma py_add_overflow_only (a b : num) : overflow_only (py_add a b).
Proof.
  unfold py_add. destruct a, b; try apply overflow_only_ok;
    (apply overflow_only_bind; [apply num_to_float_overflow_only|]; intros ? _;
     apply overflow_only_bind; [apply num_to_float_overflow_only|]; intros ? _;
     apply overflow_only_ok).
Qed.

Lemma int_truediv_overflow_only (a b : Z) : b <> 0 -> overflow_only (int_truediv a b).
Proof.
  intros Hb e H. unfold int_truediv in H.
  destruct (Z.eqb_spec b 0); [contradiction|].
  destruct (b64 (inject_Z a / inject_Z b)); now inversion H.
Qed.

(** The float of a positive [int] is positive. *)
Lemma of_int_pos (n : Z) (x : pyfloat) :
  0 < n -> of_int n = Ok x -> exists q, x = Fin q /\ (0 < q)%Q.
Proof.
  intros Hn. unfold of_int, b64.
  assert (P : (0 < inject_Z n)%Q).
  { change 0%Q with (inject_Z 0). rewrite <- Zlt_Qlt. lia. }
  destruct (Qcompare_spec (inject_Z n) 0) as [E|L|G]; try (exfalso; lra).
  destruct (Qle_bool b64_huge (b64_pos (inject_Z n))); [discriminate|].
  intros H. inversion H; subst. eexists. split; [reflexivity|].
  pose proof (Qred_correct (b64_pos (inject_Z n))) as R.
  assert (M : (b64_pos 1 <= b64_pos (inject_Z n))%Q).
  { apply b64_pos_mono; [reflexivity|]. change 1%Q with (inject_Z 1).
    rewrite <- Zle_Qle. lia. }
  destruct b64_fix_1 as [F _].
  apply Qlt_le_trans with (b64_pos 1); [rewrite F; reflexivity|].
  apply Qle_trans with (b64_pos (inject_Z n)); [exact M|].
  rewrite R. apply Qle_refl.
Qed.

Lemma fdiv_pos_ok (x : pyfloat) (q : Q) : (0 < q)%Q -> exists y, fdiv x (Fin q) = Ok y.
Proof.
  intros Hq.
  assert (N : Qeq_bool q 0 = false).
  { destruct (Qeq_bool q 0) eqn:E; [|reflexivity].
    apply Qeq_bool_iff in E. exfalso. lra. }
  assert (C : (q ?= 0)%Q = Gt) by (apply Qgt_alt; exact Hq).
  destruct x; cbn; rewrite ?N, ?C; eauto.
Qed.

Lemma mean1_overflow_only (sum : num) (n : Z) : 0 < n -> overflow_only (mean1 sum n).
Proof.
  intros Hn. unfold mean1. apply overflow_only_bind; [|intros; apply overflow_only_ok].
  unfold py_truediv. destruct sum as [m|x].
  - apply overflow_only_bind; [|intros; apply overflow_only_ok].
    apply int_truediv_overflow_only. lia.
  - cbn [num_to_float bind].
    apply overflow_only_bind; [apply of_int_overflow_only|]. intros y Hy.
    destruct (of_int_pos n y Hn Hy) as [q [-> Hq]].
    destruct (fdiv_pos_ok x q Hq) as [z Hz]. rewrite Hz. cbn. apply overflow_only_ok.
Qed.

Lemma share1_overflow_only (c t : Z) : 0 < t -> overflow_only (share1 c t).
Proof.
  intros Ht. unfold share1. apply overflow_only_bind; [|intros; apply overflow_only_ok].
  apply int_truediv_overflow_only. lia.
Qed.

Lemma finish_district_overflow_only (d : District) : overflow_only (finish_district d).
Proof.
  unfold finish_district.
  apply overflow_only_bind.
  { destruct (Z.gtb_spec (d_schools_with_data d) 0); [|apply overflow_only_ok].
    repeat (apply overflow_only_bind; [now apply mean1_overflow_only|]; intros ? _).
    apply overflow_only_ok. }
  intros ? _. apply overflow_only_bind.
  { destruct (Z.gtb_spec (d_total_schools d) 0); [|apply overflow_only_ok].
    repeat (apply overflow_only_bind; [now apply share1_overflow_only|]; intros ? _).
    apply overflow_only_ok. }
  intros ? _. apply overflow_only_bind; [|intros; apply overflow_only_ok].
  destruct (Z.gtb_spec (d_total_teachers d) 0); [|apply overflow_only_ok].
  apply overflow_only_bind; [|intros; apply overflow_only_ok].
  apply int_truediv_overflow_only. lia.
Qed.

Lemma finish_block_overflow_only (b : Block) : overflow_only (finish_block b).
Proof.
  unfold finish_block.
  apply overflow_only_bind; [|intros; apply overflow_only_ok].
  destruct (Z.gtb_spec (b_schools_with_data b) 0); [|apply overflow_only_ok].
  repeat (apply overflow_only_bind; [now apply mean1_overflow_only|]; intros ? _).
  apply overflow_only_ok.
Qed.

Lemma mapM_overflow_only {A B : Type} (f : A -> result B) (l : list A) :
  (forall a, overflow_only (f a)) -> overflow_only (mapM f l).
Proof.
  intros Hf. induction l as [|a l IH]; cbn; [apply overflow_only_ok|].
  apply overflow_only_bind; [apply Hf|]. intros ? _.
  apply overflow_only_bind; [exact IH|]. intros ? _. apply overflow_only_ok.
Qed.

(** *** The loop never raises *)

Lemma py_add_sum (v : num) (p : pyfloat) :
  sum_ok v -> exists x, py_add v (NFloat p) = Ok (NFloat x).
Proof.
  intros [->|[x ->]]; eexists; reflexivity.
Qed.

Lemma add_to_district_total (s : School) (d : District) :
  district_sums_ok d ->
  exists d', add_to_district s d = Ok d' /\ district_sums_ok d'.
Proof.
  intros [A B]. unfold add_to_district, district_sums_ok.
  destruct (float_set (aadhaar_percentage s)) as [p|];
    destruct (float_set (apaar_percentage s)) as [p'|]; cbn [bind].
  - destruct (py_add_sum _ p A) as [x ->]. destruct (py_add_sum _ p' B) as [y ->].
    cbn. eexists. split; [reflexivity|]. cbn. split; right; eauto.
  - destruct (py_add_sum _ p A) as [x ->].
    cbn. eexists. split; [reflexivity|]. cbn. split; [right; eauto | exact B].
  - destruct (py_add_sum _ p' B) as [y ->].
    cbn. eexists. split; [reflexivity|]. cbn. split; [exact A | right; eauto].
  - eexists. split; [reflexivity|]. cbn. split; assumption.
Qed.

Lemma add_to_block_total (s : School) (b : Block) :
  block_sums_ok b ->
  exists b', add_to_block s b = Ok b' /\ block_sums_ok b'.
Proof.
  intros [A B]. unfold add_to_block, block_sums_ok.
  destruct (float_set (aadhaar_percentage s)) as [p|];
    destruct (float_set (apaar_percentage s)) as [p'|]; cbn [bind].
  - destruct (py_add_sum _ p A) as [x ->]. destruct (py_add_sum _ p' B) as [y ->].
    cbn. eexists. split; [reflexivity|]. cbn. split; right; eauto.
  - destruct (py_add_sum _ p A) as [x ->].
    cbn. eexists. split; [reflexivity|]. cbn. split; [right; eauto | exact B].
  - destruct (py_add_sum _ p' B) as [y ->].
    cbn. eexists. split; [reflexivity|]. cbn. split; [exact A | right; eauto].
  - eexists. split; [reflexivity|]. cbn. split; assumption.
Qed.

Lemma modify_total {V : Type} (P : V -> Prop) (k : string) (f : V -> result V)
    (d : dict V) :
  (forall v, P v -> exists v', f v = Ok v' /\ P v') ->
  (forall k' v, In (k', v) d -> P v) ->
  exists d', modify k f d = Ok d' /\ (forall k' v, In (k', v) d' -> P v).
Proof.
  intros Hf. induction d as [|[k0 v0] d IH]; intros HP.
  - exists []. split; [reflexivity|]. intros ? ? [].
  - cbn [modify]. destruct (String.eqb k0 k).
    + destruct (Hf v0 (HP k0 v0 (or_introl eq_refl))) as [v' [E Pv']].
      rewrite E. cbn. eexists. split; [reflexivity|].
      intros k' v [I|I]; [inversion I; subst; exact Pv' | eapply HP; right; exact I].
    + destruct IH as [d' [E Pd']]; [intros; eapply HP; right; eauto|].
      rewrite E. cbn. eexists. split; [reflexivity|].
      intros k' v [I|I]; [inversion I; subst; eapply HP; left; reflexivity | eauto].
Qed.

Lemma setdefault_all {V : Type} (P : V -> Prop) (k : string) (v : V) (d : dict V) :
  P v -> (forall k' v', In (k', v') d -> P v') ->
  forall k' v', In (k', v') (setdefault k v d) -> P v'.
Proof.
  intros Pv HP k' v' I. apply setdefault_in in I.
  destruct I as [I|[_ [-> _]]]; eauto.
Qed.

Lemma step_total (st : acc) (s : School) :
  sums_ok st -> exists st', step st s = Ok st' /\ sums_ok st'.
Proof.
  intros [D B]. unfold step. destruct (has_district s).
  - destruct (modify_total district_sums_ok (district_of s) (add_to_district s)
                (setdefault (district_of s) (new_district (district_of s)) (fst st))
                (add_to_district_total s)) as [ds [Ed Pd]].
    { apply setdefault_all; [split; now left | exact D]. }
    destruct (modify_total block_sums_ok (block_key s) (add_to_block s)
                (setdefault (block_key s)
                   (new_block (district_of s) (block_of s)) (snd st))
                (add_to_block_total s)) as [bs [Eb Pb]].
    { apply setdefault_all; [split; now left | exact B]. }
    rewrite Ed, Eb. cbn. eexists. split; [reflexivity|]. split; assumption.
  - exists st. split; [reflexivity|]. split; assumption.
Qed.

(** The loop over the schools never raises. *)
Lemma accumulate_total (l : list School) (st : acc) :
  sums_ok st -> exists st', accumulate st l = Ok st'.
Proof.
  revert st. induction l as [|s l IH]; intros st H; cbn.
  - eauto.
  - destruct (step_total st s H) as [st1 [E H1]]. rewrite E. cbn. auto.
Qed.

(** The roll-up returns, unless a count or a ratio leaves the binary64
    range: it never divides by zero. *)
Theorem get_aggregated_data_returns (schools_data : dict School) :
  (exists out, get_aggregated_data schools_data = Ok out) \/
  get_aggregated_data schools_data = Raise OverflowError.
Proof.
  unfold get_aggregated_data.
  destruct (accumulate_total (values schools_data) ([], [])) as [st E].
  { split; intros ? ? []. }
  rewrite E. cbn [bind].
  pose proof (mapM_overflow_only finish_district (values (fst st))
                finish_district_overflow_only) as Hd.
  pose proof (mapM_overflow_only finish_block (values (snd st))
                finish_block_overflow_only) as Hb.
  destruct (mapM finish_district (values (fst st))) as [ds|e].
  - cbn [bind]. destruct (mapM finish_block (values (snd st))) as [bs|e].
    + left. eexists. reflexivity.
    + right. cbn. now rewrite (Hb e eq_refl).
  - right. cbn. now rewrite (Hd e eq_refl).
Qed.

End TotalityFacts.

(** ** The coercion layer *)

Module CoercionFacts.

Import Spec TotalityFacts.
Local Open Scope string_scope.
Local Open Scope list_scope.
Local Open Scope Z_scope.

Lemma float_of_string_errors (s : string) (e : exn) :
  Str.float_of_string s = Raise e -> e = ValueError.
Proof.
  unfold Str.float_of_string.
  destruct (Str.drop_underscores " " (Str.strip_c s)); [|intros H; now inversion H].
  destruct (Str.split_sign s0) as [neg body].
  destruct (_ || _); [discriminate|].
  destruct (String.eqb _ _); [discriminate|].
  destruct (Str.parse_decimal body); [discriminate|]. intros H. now inversion H.
Qed.

Lemma py_float_errors (v : pyval) (e : exn) :
  py_float v = Raise e -> e = ValueError \/ e = TypeError \/ e = OverflowError.
Proof.
  destruct v; cbn; intros H; try discriminate.
  - inversion H. auto.
  - apply of_int_overflow_only in H. auto.
  - apply float_of_string_errors in H. auto.
Qed.

(** [safe_int] of the parser fails only by overflow: on an infinite float
    or on an [int] beyond the binary64 range. *)
Lemma parser_safe_int_overflow_only (v : pyval) : overflow_only (Parser.safe_int v).
Proof.
  unfold Parser.safe_int, except_value_type, int_of_float_of. intros e.
  destruct (isna v); [discriminate|].
  destruct (py_float v) as [x|e'] eqn:E; cbn.
  - destruct x; cbn; try discriminate; intros H; now inversion H.
  - apply py_float_errors in E. destruct E as [-> | [-> | ->]]; try discriminate.
    intros H. now inversion H.
Qed.

Lemma parser_safe_float_overflow_only (v : pyval) : overflow_only (Parser.safe_float v).
Proof.
  unfold Parser.safe_float, except_value_type. intros e.
  destruct (isna v); [discriminate|].
  destruct (py_float v) as [x|e'] eqn:E; [discriminate|].
  apply py_float_errors in E. destruct E as [-> | [-> | ->]]; try discriminate.
  intros H. now inversion H.
Qed.

(** Missing cells, the empty string and text that is no number coerce to
    the defaults. *)
Lemma safe_int_defaults :
  Parser.safe_int VNone = Ok 0 /\ Parser.safe_int (VFloat NaN) = Ok 0 /\
  Parser.safe_int (VStr "") = Ok 0 /\ Parser.safe_int (VStr "n/a") = Ok 0 /\
  Etl.safe_int VNone = 0 /\ Etl.safe_int (VFloat NaN) = 0 /\
  Etl.safe_int (VStr "") = 0 /\ Etl.safe_int (VStr "n/a") = 0 /\
  Etl.safe_int (VStr "1-Yes") = 1 /\ Etl.safe_int (VStr "2-No") = 0 /\
  Etl.safe_int (VStr "(3)") = 0.
Proof. repeat split; vm_compute; reflexivity. Qed.

Lemma safe_str_defaults (float_repr : pyfloat -> string) :
  safe_str float_repr VNone = "" /\
  safe_str float_repr (VFloat NaN) = "" /\
  safe_str float_repr (VStr "") = "" /\
  safe_str float_repr (VStr "  Pune ") = "Pune" /\
  safe_str float_repr (VInt 2701) = "2701".
Proof. repeat split. Qed.

Lemma safe_float_defaults :
  Parser.safe_float VNone = Ok (Fin 0) /\
  Parser.safe_float (VStr "") = Ok (Fin 0) /\
  Parser.safe_float (VStr "n/a") = Ok (Fin 0) /\
  Etl.safe_float VNone = Fin 0 /\
  Etl.safe_float (VStr "") = Fin 0 /\
  Etl.safe_float (VStr "n/a") = Fin 0.
Proof. repeat split; vm_compute; reflexivity. Qed.

End CoercionFacts.

(** ** The clamp of [calculate_shi] *)

Module ClampFacts.

Import Server Spec RateFacts.
Local Open Scope Z_scope.

Lemma within_int (n : Z) : 0 <= n <= 100 -> within 0 100 (NInt n).
Proof.
  intros H. unfold within, py_le, py_cmp. cbn [num_exact fcmp]. split.
  - destruct (Qcompare_spec (inject_Z 0) (inject_Z n)) as [E|L|G]; try reflexivity.
    exfalso. rewrite <- Zlt_Qlt in G. lia.
  - destruct (Qcompare_spec (inject_Z n) (inject_Z 100)) as [E|L|G]; try reflexivity.
    exfalso. rewrite <- Zlt_Qlt in G. lia.
Qed.

(** The closing clamp of [calculate_shi] returns a score in [[0, 100]] for
    every input, finite or not. *)
Theorem clamp_round_within (shi : num) : within 0 100 (clamp_round shi).
Proof.
  unfold clamp_round, py_max, py_min, py_gt, py_lt, py_cmp.
  destruct shi as [n|[q| | |]]; cbn [num_exact fcmp].
  - destruct (Qcompare_spec (inject_Z n) (inject_Z 0)) as [E|L|G]; cbn [num_exact fcmp].
    + cbn. split; reflexivity.
    + cbn. split; reflexivity.
    + rewrite <- Zlt_Qlt in G.
      destruct (Qcompare_spec (inject_Z n) (inject_Z 100)) as [E'|L'|G']; cbn [py_round].
      * split; reflexivity.
      * rewrite <- Zlt_Qlt in L'. apply within_int. lia.
      * split; reflexivity.
  - destruct (Qcompare_spec q (inject_Z 0)) as [E|L|G]; cbn [num_exact fcmp].
    + cbn. split; reflexivity.
    + cbn. split; reflexivity.
    + destruct (Qcompare_spec q (inject_Z 100)) as [E'|L'|G']; cbn [py_round].
      * split; reflexivity.
      * change (inject_Z 0) with 0%Q in G. change (inject_Z 100) with 100%Q in L'.
        destruct (fround_range q 1 ltac:(lia) ltac:(lra) ltac:(lra)) as [r [Er [L0 U0]]].
        rewrite Er. now apply within_fin.
      * split; reflexivity.
  - cbn. split; reflexivity.
  - cbn. split; reflexivity.
  - cbn. split; reflexivity.
Qed.

(** Whatever the school data, a score [calculate_shi] returns lies in
    [[0, 100]]. *)
Theorem calculate_shi_within (d : school_data) (v : num) :
  calculate_shi d = Ok v -> within 0 100 v.
Proof.
  unfold calculate_shi. intros H.
  repeat bind_inv H. inversion H; subst v. apply clamp_round_within.
Qed.

End ClampFacts.

(** * The claims *)

Import Dict DataImport Spec DictFacts AggregatorFacts RateFacts.
Local Open Scope string_scope.
Local Open Scope Z_scope.

(** ** C1: the three-school example *)

(** C1 at the three schools of one block with head counts [100, 50, 0] and
    authenticated counts [90, 50, 0]: the per-school percentages are
    [90.0, 100.0, 0.0], the third a defined [0.0].  With the head counts
    recorded by [parse_enrolment] the roll-up yields one block with
    [total_schools = 3] and [total_students = 150], but its
    [aadhaar_percentage] is [95.0]: the truth test of the loop drops the
    [0.0], so [schools_with_data] is [2] and the sum [190.0] is divided by
    [2], where the mean over the three schools is [63.3].  From the rows of
    the Aadhaar sheet alone the block is the same except for
    [total_students], which is [0]. *)
Theorem C1_zero_percentage_left_out_of_the_mean :
  map (fun r => percentage (ar_aadhaar_authenticated r) (ar_total_students r))
      three_rows
  = [Ok (Fin 90); Ok (Fin 100); Ok (Fin 0)] /\
  load_three = Ok three_schools /\
  (exists out b,
     get_aggregated_data three_schools = Ok out /\
     blocks out = [b] /\
     b_total_schools (b_acc b) = 3 /\
     b_total_students (b_acc b) = 150 /\
     b_schools_with_data (b_acc b) = 2 /\
     b_aadhaar_sum (b_acc b) = NFloat (Fin 190) /\
     b_aadhaar_percentage b = NFloat (Fin 95) /\
     mean_of_all (b_acc b) = Ok (NFloat (lit (633 # 10))) /\
     ~ expected_block b) /\
  (exists store out b,
     parse_aadhaar [] three_rows = Ok store /\
     get_aggregated_data store = Ok out /\
     blocks out = [b] /\
     b_total_schools (b_acc b) = 3 /\
     b_total_students (b_acc b) = 0 /\
     b_schools_with_data (b_acc b) = 2 /\
     b_aadhaar_percentage b = NFloat (Fin 95)).
Proof.
  split; [vm_compute; reflexivity|].
  split; [vm_compute; reflexivity|]. split.
  - eexists. eexists. split; [vm_compute; reflexivity|].
    cbn [blocks b_acc b_total_schools b_total_students b_schools_with_data
         b_aadhaar_sum b_aadhaar_percentage].
    do 6 (split; [reflexivity|]). split; [vm_compute; reflexivity|].
    unfold expected_block. intros [_ [_ P]]. vm_compute in P. discriminate P.
  - eexists. eexists. eexists. split; [vm_compute; reflexivity|].
    split; [vm_compute; reflexivity|]. cbn. repeat split.
Qed.

(** ** C2: conservation of [total_schools] between blocks and districts *)

(** C2 at the failing input: district ["A|B"] with block ["C"] and district
    ["A"] with block ["B|C"] share the key ["A|B|C"].  Both schools are
    counted in the one block filed under district ["A|B"], so district ["A"]
    has [total_schools = 1] while its blocks sum to [0]. *)
Theorem C2_block_key_collision :
  exists out,
    get_aggregated_data colliding_schools = Ok out /\
    map (fun d => (d_district_name (d_acc d), d_total_schools (d_acc d)))
        (districts out) = [("A|B", 1); ("A", 1)] /\
    map (fun b => (b_district_name (b_acc b), b_total_schools (b_acc b)))
        (blocks out) = [("A|B", 2)] /\
    district_sum "A" (map d_acc (districts out)) = 1 /\
    block_sum "A" (map b_acc (blocks out)) = 0.
Proof.
  eexists. split; [vm_compute; reflexivity|]. cbn. repeat split.
Qed.

(** ** C3: totality of the coercion layer *)

(** C3 at the failing input: [safe_int] of [parser.py] lets the
    [OverflowError] of [int(float("inf"))] escape; the [safe_int] of the
    ETL pipeline returns [0] on the same cell. *)
Theorem C3_parser_safe_int_raises :
  Parser.safe_int (VStr "inf") = Raise OverflowError /\
  Parser.safe_int (VFloat PInf) = Raise OverflowError /\
  Etl.safe_int (VStr "inf") = 0.
Proof. repeat split; vm_compute; reflexivity. Qed.

(** ** C4: the placeholder filter *)

(** C4 as stated fails: a row whose first cell is ["(abc)"] is classified as
    a placeholder although none of its cells is ["(<digits>)"]. *)
Lemma C4_counterexample :
  ~ (Etl.is_placeholder_row bracket_row = true <->
     existsb paren_digits_cell (firstn 5 (Etl.row_values bracket_row)) = true).
Proof. vm_compute. intros [H _]. specialize (H eq_refl). discriminate H. Qed.

(** C4, amended: a row is a placeholder if and only if one of its first five
    cells is a string that starts with an opening and ends with a closing
    parenthesis; every row with a ["(<digits>)"] cell among its first five
    is therefore a placeholder; the label row [["(1)", "(2)", "School A"]]
    is dropped and the data row [["UDISE001", "2701", "School A"]] is
    kept. *)
Theorem C4_placeholder_rows :
  (forall r : Etl.row,
     Etl.is_placeholder_row r = true <->
     exists s, In (VStr s) (firstn 5 (Etl.row_values r)) /\
               (exists t, s = "(" ++ t) /\ (exists u, s = u ++ ")")) /\
  (forall r : Etl.row,
     existsb paren_digits_cell (firstn 5 (Etl.row_values r)) = true ->
     Etl.is_placeholder_row r = true) /\
  Etl.read_excel_skip_placeholders [label_row; data_row] = [data_row].
Proof.
  split; [|split; [|reflexivity]].
  - intros r. unfold Etl.is_placeholder_row. rewrite existsb_exists. split.
    + intros [c [I P]]. destruct c as [| | | |s]; try discriminate.
      cbn in P. apply andb_true_iff in P. destruct P as [P1 P2].
      exists s. split; [exact I|]. split.
      * now apply StrFacts.startswith_iff.
      * now apply StrFacts.endswith_iff.
    + intros [s [I [P1 P2]]]. exists (VStr s). split; [exact I|].
      cbn. apply andb_true_iff. split.
      * now apply StrFacts.startswith_iff.
      * now apply StrFacts.endswith_iff.
  - intros r. unfold Etl.is_placeholder_row. rewrite !existsb_exists.
    intros [c [I P]]. exists c. split; [exact I|].
    destruct c as [| | | |s]; try discriminate. cbn in *.
    destruct (StrFacts.paren_digits_brackets s P) as [A B]. now rewrite A, B.
Qed.

(** The label row has a ["(<digits>)"] cell and is a placeholder. *)
Lemma C4_witness :
  existsb paren_digits_cell (firstn 5 (Etl.row_values label_row)) = true /\
  Etl.is_placeholder_row label_row = true.
Proof.
  split; [reflexivity|].
  apply (proj1 (proj2 C4_placeholder_rows) label_row). reflexivity.
Defined.

(** ** C5: the composite score *)

(** C5 at the failing inputs: with the four sub-indices at [200.0] the
    score of [get_school_health_index] is [200.0], and for a district of one
    school that reports ten APAAR identifiers generated for one student the
    [shi_score] of the ETL summaries is [300.0]; neither is clamped, where
    the closing clamp of [calculate_shi] in [server.py] returns [100]. *)
Theorem C5_composite_score_is_not_clamped :
  Executive.shi (NFloat (Fin 200)) (NFloat (Fin 200))
                (NFloat (Fin 200)) (NFloat (Fin 200)) = Ok (NFloat (Fin 200)) /\
  EtlSummary.shi_score (Some (EtlSummary.mkAadhaarGroup 1 1 0))
                       (Some (EtlSummary.mkApaarGroup 1 10))
                       (Some (EtlSummary.mkTeacherGroup 0 0))
    = Ok (NFloat (Fin 300)) /\
  py_le (NFloat (Fin 200)) (NInt 100) = false /\
  py_le (NFloat (Fin 300)) (NInt 100) = false /\
  Server.clamp_round (NFloat (Fin 300)) = NInt 100.
Proof. repeat split; vm_compute; reflexivity. Qed.

(** ** C6: the two threshold schemes *)

Lemma py_ge_lt (v : num) (a b : Z) :
  py_ge v (NInt a) = false -> py_ge v (NInt b) = true -> py_lt v (NInt a) = true.
Proof.
  unfold py_ge, py_lt, py_cmp. destruct v as [n|[q| | |]]; cbn [num_exact fcmp].
  - destruct (Qcompare _ _); try discriminate; reflexivity.
  - destruct (Qcompare _ _); try discriminate; reflexivity.
  - discriminate.
  - reflexivity.
  - discriminate.
Qed.

Lemma py_lt_not_ge (v a : num) : py_lt v a = true -> py_ge v a = false.
Proof.
  unfold py_ge, py_lt. destruct (py_cmp v a) as [[| |]|]; try discriminate; reflexivity.
Qed.

(** C6: [get_rag] of the executive module answers Green exactly from 85,
    Amber exactly from 70 up to but excluding 85, and Red otherwise; the ETL
    summaries answer green exactly from 75, amber exactly from 50 up to but
    excluding 75, and red otherwise.  The two schemes differ: a score of 80
    is Amber for the first and green for the second. *)
Theorem C6_two_rag_threshold_schemes (v : num) :
  (Executive.status (Executive.get_rag v) = "Green" <-> py_ge v (NInt 85) = true) /\
  (Executive.status (Executive.get_rag v) = "Amber" <->
     py_ge v (NInt 70) = true /\ py_lt v (NInt 85) = true) /\
  (Executive.status (Executive.get_rag v) = "Red" <->
     py_ge v (NInt 85) = false /\
     ~ (py_ge v (NInt 70) = true /\ py_lt v (NInt 85) = true)) /\
  (EtlSummary.rag_status v = "green" <-> py_ge v (NInt 75) = true) /\
  (EtlSummary.rag_status v = "amber" <->
     py_ge v (NInt 50) = true /\ py_lt v (NInt 75) = true) /\
  (EtlSummary.rag_status v = "red" <->
     py_ge v (NInt 75) = false /\
     ~ (py_ge v (NInt 50) = true /\ py_lt v (NInt 75) = true)) /\
  Executive.status (Executive.get_rag (NFloat (Fin 80))) = "Amber" /\
  EtlSummary.rag_status (NFloat (Fin 80)) = "green".
Proof.
  pose proof (py_lt_not_ge v (NInt 85)) as L85.
  pose proof (py_ge_lt v 85 70) as G85.
  pose proof (py_lt_not_ge v (NInt 75)) as L75.
  pose proof (py_ge_lt v 75 50) as G75.
  unfold Executive.get_rag, EtlSummary.rag_status.
  destruct (py_ge v (NInt 85)); destruct (py_ge v (NInt 70));
    destruct (py_ge v (NInt 75)); destruct (py_ge v (NInt 50));
    cbn [Executive.status];
    repeat match goal with |- _ /\ _ => split end;
    try reflexivity;
    try (split; intros; try reflexivity; try discriminate;
         intuition (try discriminate; try congruence)).
Qed.

(** ** C7: bounds of the derived rates *)

(** C7 as stated fails: 200 authenticated of 100 students is a rate of
    [200.0]. *)
Lemma C7_counterexample :
  ~ (exists p, percentage 200 100 = Ok p /\ within 0 100 (NFloat p)).
Proof.
  intros [p [E [_ W]]]. vm_compute in E. inversion E; subst p.
  vm_compute in W. discriminate W.
Qed.

(** C7, amended: for a non-negative numerator [n] and a denominator [d]
    that is zero or at least [n], the rates of the normalizers
    ([aadhaar_percentage] and [apaar_percentage] of the parser,
    [exception_rate], [generation_rate] and [completion_rate] of the ETL)
    are computed without error and lie in [[0, 100]] after rounding. *)
Theorem C7_rates_of_parts_are_percentages (n d : Z) :
  0 <= n -> d = 0 \/ n <= d ->
  (exists p, percentage n d = Ok p /\ within 0 100 (NFloat p)) /\
  (exists v, Etl.exception_rate n d = Ok v /\ within 0 100 v) /\
  (exists v, Etl.generation_rate n d = Ok v /\ within 0 100 v) /\
  (exists v, Etl.completion_rate n d = Ok v /\ within 0 100 v).
Proof.
  intros Hn Hd'.
  assert (H : 0 < d -> 0 <= n <= d) by lia.
  assert (R2 : exists v, Etl.rate2 n d = Ok v /\ within 0 100 v).
  { unfold Etl.rate2. destruct (Z.gtb_spec d 0) as [Hd|Hd].
    - destruct (part_rate_range n d 2 (H Hd) ltac:(lia) ltac:(lia))
        as [q [r [E [Er [L U]]]]].
      rewrite E. cbn [bind py_round]. rewrite Er. eexists. split; [reflexivity|].
      now apply within_fin.
    - cbn. eexists. split; [reflexivity|]. split; reflexivity. }
  split; [|now repeat split].
  unfold percentage. destruct (Z.gtb_spec d 0) as [Hd|Hd].
  - destruct (part_rate_range n d 1 (H Hd) ltac:(lia) ltac:(lia))
      as [q [r [E [Er [L U]]]]].
    rewrite E. cbn [bind]. rewrite Er. eexists. split; [reflexivity|].
    now apply within_fin.
  - eexists. split; [reflexivity|]. split; reflexivity.
Qed.

(** 90 of 100. *)
Lemma C7_witness :
  0 <= 90 /\ (100 = 0 \/ 90 <= 100) /\
  (exists p, percentage 90 100 = Ok p /\ within 0 100 (NFloat p)) /\
  (exists v, Etl.exception_rate 90 100 = Ok v /\ within 0 100 v) /\
  (exists v, Etl.generation_rate 90 100 = Ok v /\ within 0 100 v) /\
  (exists v, Etl.completion_rate 90 100 = Ok v /\ within 0 100 v).
Proof.
  split; [lia|]. split; [lia|].
  apply (C7_rates_of_parts_are_percentages 90 100); lia.
Defined.

(** ** C8: the zero denominator *)

(** C8 as stated fails: for numerator 5 and denominator 0 the parser gives
    [0.0] where [round(5 / max(0, 1) * 100, 1)] is [500.0]. *)
Lemma C8_counterexample :
  percentage 5 0 = Ok (Fin 0) /\
  floored_rate 5 0 = Ok (Fin 500) /\
  percentage 5 0 <> floored_rate 5 0.
Proof.
  split; [reflexivity|]. split; [vm_compute; reflexivity|].
  vm_compute. discriminate.
Qed.

(** C8, amended: the normalizers branch on the denominator.  For a positive
    denominator the parser's rate is [round(n / max(d, 1) * 100, 1)] and the
    ETL's is the same quotient rounded to two decimals; otherwise the rate
    is [0.0] (parser) or [0] (ETL), whatever the numerator. *)
Theorem C8_rates_branch_on_the_denominator (n d : Z) :
  percentage n d = (if 0 <? d then floored_rate n d else Ok (Fin 0)) /\
  Etl.rate2 n d =
    (if 0 <? d
     then q <- int_truediv n (Z.max d 1) ;;
          Ok (NFloat (fround (fmul q (Fin 100)) 2))
     else Ok (NInt 0)) /\
  percentage n 0 = Ok (Fin 0) /\
  Etl.rate2 n 0 = Ok (NInt 0).
Proof.
  unfold percentage, floored_rate, Etl.rate2.
  rewrite Z.gtb_ltb.
  destruct (Z.ltb_spec 0 d) as [H|H].
  - replace (Z.max d 1) with d by lia. repeat split.
    destruct (int_truediv n d); reflexivity.
  - repeat split.
Qed.

(** ** C9: [total_schools] and [schools_with_data] *)

(** C9 at the failing input: district ["A|B"] with block ["C"] and district
    ["A"] with block ["B|C"] share the key ["A|B|C"].  The roll-up returns
    one block aggregate, of block ["C"] of district ["A|B"], with
    [total_schools = 2], while one record contributes to that block; the
    record of block ["B|C"] of district ["A"] has no aggregate of its own.
    The district aggregates count one record each, and
    [schools_with_data <= total_schools] holds. *)
Theorem C9_block_counts_records_of_another_block :
  exists out b,
    get_aggregated_data colliding_schools = Ok out /\
    blocks out = [b] /\
    b_district_name (b_acc b) = "A|B" /\
    b_block_name (b_acc b) = "C" /\
    b_total_schools (b_acc b) = 2 /\
    count (in_pair "A|B" "C") (values colliding_schools) = 1 /\
    count (in_pair "A" "B|C") (values colliding_schools) = 1 /\
    b_schools_with_data (b_acc b) <= b_total_schools (b_acc b) /\
    map (fun d => (d_district_name (d_acc d), d_total_schools (d_acc d)))
        (districts out) = [("A|B", 1); ("A", 1)] /\
    map (fun d => count (in_district (d_district_name (d_acc d)))
                        (values colliding_schools))
        (districts out) = [1; 1].
Proof.
  eexists. eexists. split; [vm_compute; reflexivity|].
  cbn [blocks b_acc b_district_name b_block_name b_total_schools
       b_schools_with_data].
  do 4 (split; [reflexivity|]).
  split; [vm_compute; reflexivity|]. split; [vm_compute; reflexivity|].
  split; [vm_compute; discriminate|]. split; vm_compute; reflexivity.
Qed.

(** ** C10: the enrolment totals *)

(** C10 as stated fails: a column named ["X(Boys)(Girls)"] is counted for
    the boys only, so [girls_enrolment] is not the sum over all columns
    whose name contains ["(Girls)"]. *)
Lemma C10_counterexample :
  Etl.girls_enrolment (Etl.etl_enrolment_row two_marker_row) = 0 /\
  column_sum (Str.contains "(Girls)") two_marker_row (Etl.columns two_marker_row) = 5 /\
  Etl.girls_enrolment (Etl.etl_enrolment_row two_marker_row)
    <> column_sum (Str.contains "(Girls)") two_marker_row
         (Etl.columns two_marker_row).
Proof. vm_compute. repeat split. discriminate. Qed.

(** C10, amended: every record the enrolment transformation emits comes
    from a row that is not a placeholder and satisfies
    [total_enrolment = boys_enrolment + girls_enrolment + trans_enrolment],
    where [boys_enrolment] sums the coerced cells of the columns whose name
    contains ["(Boys)"], [girls_enrolment] those of the columns containing
    ["(Girls)"] but not ["(Boys)"], and [trans_enrolment] those of the
    columns containing ["(Trans)"] and neither of the other two. *)
Theorem C10_enrolment_totals (df : list Etl.row) (rec : Etl.enrolment_record) :
  In rec (Etl.etl_enrolment df) ->
  exists r,
    In r df /\ Etl.is_placeholder_row r = false /\
    Etl.total_enrolment rec
      = Etl.boys_enrolment rec + Etl.girls_enrolment rec + Etl.trans_enrolment rec /\
    Etl.boys_enrolment rec
      = column_sum (Str.contains "(Boys)") r (Etl.columns r) /\
    Etl.girls_enrolment rec = column_sum girls_only r (Etl.columns r) /\
    Etl.trans_enrolment rec = column_sum trans_only r (Etl.columns r).
Proof.
  unfold Etl.etl_enrolment, Etl.read_excel_skip_placeholders. intros H.
  apply in_map_iff in H. destruct H as [r [E I]].
  apply filter_In in I. destruct I as [I P].
  exists r. split; [exact I|]. split; [now apply negb_true_iff|].
  subst rec. unfold Etl.etl_enrolment_row, Etl.enrolment_loop. cbn.
  destruct (EnrolmentFacts.enrolment_fold r (Etl.columns r) (Etl.mkTotals 0 0 0))
    as [B [G T]].
  cbv zeta in B, G, T. cbn in B, G, T. rewrite B, G, T. repeat split.
Qed.

(** A sheet of a label row and one row of class counts. *)
Lemma C10_witness :
  exists r,
    In r [label_row; class_row] /\ Etl.is_placeholder_row r = false /\
    Etl.total_enrolment (Etl.etl_enrolment_row class_row)
      = Etl.boys_enrolment (Etl.etl_enrolment_row class_row)
        + Etl.girls_enrolment (Etl.etl_enrolment_row class_row)
        + Etl.trans_enrolment (Etl.etl_enrolment_row class_row) /\
    Etl.boys_enrolment (Etl.etl_enrolment_row class_row)
      = column_sum (Str.contains "(Boys)") r (Etl.columns r) /\
    Etl.girls_enrolment (Etl.etl_enrolment_row class_row)
      = column_sum girls_only r (Etl.columns r) /\
    Etl.trans_enrolment (Etl.etl_enrolment_row class_row)
      = column_sum trans_only r (Etl.columns r).
Proof.
  apply (C10_enrolment_totals [label_row; class_row]
           (Etl.etl_enrolment_row class_row)).
  vm_compute. left. reflexivity.
Defined.

(** * Further properties *)

(** ** The roll-up: what it counts and what it leaves out *)

Module RollupFacts.

Import Dict DataImport Spec Totals DictFacts AggregatorFacts.
Local Open Scope string_scope.
Local Open Scope list_scope.
Local Open Scope Z_scope.

Lemma accumulate_attributed (l : list School) (st : acc) :
  accumulate st l = accumulate st (filter has_district l).
Proof.
  revert st. induction l as [|s l IH]; intros st; [reflexivity|].
  cbn [accumulate filter]. destruct (has_district s) eqn:Hs.
  - cbn [accumulate]. destruct (step st s); cbn [bind]; auto.
  - unfold step. rewrite Hs. cbn [bind]. apply IH.
Qed.

Lemma values_attributed (sd : dict School) :
  values (attributed sd) = filter has_district (values sd).
Proof.
  unfold values, attributed. induction sd as [|[k v] sd IH]; [reflexivity|].
  cbn. destruct (has_district v); cbn; now rewrite IH.
Qed.

(** Schools that name no district never reach an aggregate: the
    aggregates of a store are those of its attributed entries. *)
Theorem unattributed_schools_are_left_out (schools_data : dict School) :
  aggregates (get_aggregated_data schools_data)
  = aggregates (get_aggregated_data (attributed schools_data)).
Proof.
  unfold aggregates, get_aggregated_data.
  rewrite values_attributed, <- accumulate_attributed.
  destruct (accumulate ([], []) (values schools_data)) as [st|e]; [|reflexivity].
  cbn [bind]. destruct (mapM finish_district (values (fst st))); [|reflexivity].
  cbn [bind]. destruct (mapM finish_block (values (snd st))); reflexivity.
Qed.

(** *** Grand totals *)

Lemma sum_of_app {A : Type} (f : A -> Z) (l1 l2 : list A) :
  sum_of f (l1 ++ l2) = sum_of f l1 + sum_of f l2.
Proof.
  unfold sum_of. induction l1 as [|a l1 IH]; cbn; [reflexivity|]. rewrite IH. lia.
Qed.

Lemma sum_of_map {A B : Type} (f : B -> Z) (g : A -> B) (l : list A) :
  sum_of f (map g l) = sum_of (fun a => f (g a)) l.
Proof.
  unfold sum_of. induction l as [|a l IH]; cbn; congruence.
Qed.

Section Additive.

Context {V : Type}.
Variables (g : V -> Z) (w : School -> Z).
Variable upd : School -> V -> result V.

Hypothesis upd_adds : forall s v v', upd s v = Ok v' -> g v' = g v + w s.

Lemma sum_of_setdefault (k : string) (v : V) (d : dict V) :
  g v = 0 -> sum_of g (values (setdefault k v d)) = sum_of g (values d).
Proof.
  intros Hv. unfold setdefault. destruct (mem k d); [reflexivity|].
  unfold values. rewrite map_app, sum_of_app. cbn. lia.
Qed.

Lemma sum_of_modify (k : string) (s : School) (d d' : dict V) :
  In k (map fst d) -> modify k (upd s) d = Ok d' ->
  sum_of g (values d') = sum_of g (values d) + w s.
Proof.
  revert d'. induction d as [|[k0 v0] d IH]; intros d' I M; [destruct I|].
  cbn [modify] in M. destruct (String.eqb_spec k0 k) as [E|N].
  - bind_inv M. inversion M; subst d'. cbn. rewrite (upd_adds _ _ _ E0). lia.
  - bind_inv M. inversion M; subst d'. cbn in *.
    destruct I as [I|I]; [congruence|].
    unfold values, sum_of in IH. rewrite (IH _ I eq_refl). lia.
Qed.

Lemma sum_of_turn (k : string) (v : V) (s : School) (d d' : dict V) :
  g v = 0 -> modify k (upd s) (setdefault k v d) = Ok d' ->
  sum_of g (values d') = sum_of g (values d) + w s.
Proof.
  intros Hv M. rewrite (sum_of_modify k s _ _ (setdefault_has k v d) M).
  now rewrite sum_of_setdefault.
Qed.

End Additive.

Lemma add_to_district_adds (s : School) (d d' : District) :
  add_to_district s d = Ok d' ->
  d_total_schools d' = d_total_schools d + 1 /\
  d_total_students d' = d_total_students d + get_int (total_students s) /\
  d_total_teachers d' = d_total_teachers d + get_int (total_teachers s).
Proof.
  unfold add_to_district. intros H. bind_inv H. bind_inv H.
  inversion H; subst; cbn. auto.
Qed.

Lemma add_to_block_adds (s : School) (b b' : Block) :
  add_to_block s b = Ok b' ->
  b_total_schools b' = b_total_schools b + 1 /\
  b_total_students b' = b_total_students b + get_int (total_students s).
Proof.
  unfold add_to_block. intros H. bind_inv H. bind_inv H.
  inversion H; subst; cbn. auto.
Qed.

(** The grand totals of the accumulators, against the schools read. *)
Lemma accumulate_totals (l : list School) (st st' : acc) :
  accumulate st l = Ok st' ->
  sum_of d_total_schools (values (fst st'))
    = sum_of d_total_schools (values (fst st)) + count has_district l /\
  sum_of b_total_schools (values (snd st'))
    = sum_of b_total_schools (values (snd st)) + count has_district l /\
  sum_of d_total_students (values (fst st'))
    = sum_of d_total_students (values (fst st))
      + sum_of (fun s => get_int (total_students s)) (filter has_district l) /\
  sum_of b_total_students (values (snd st'))
    = sum_of b_total_students (values (snd st))
      + sum_of (fun s => get_int (total_students s)) (filter has_district l) /\
  sum_of d_total_teachers (values (fst st'))
    = sum_of d_total_teachers (values (fst st))
      + sum_of (fun s => get_int (total_teachers s)) (filter has_district l).
Proof.
  revert st. induction l as [|s l IH]; intros st H.
  - inversion H; subst. unfold count. cbn. lia.
  - cbn [accumulate] in H. bind_inv H. destruct (IH _ H) as [A [B [C [D T]]]].
    rewrite A, B, C, D, T. clear IH A B C D T H.
    unfold step in E. unfold count. cbn [filter].
    destruct (has_district s) eqn:Hs.
    + bind_inv E. bind_inv E. inversion E; subst a; cbn [fst snd].
      rewrite (sum_of_turn d_total_schools (fun _ => 1) add_to_district
                 (fun s v v' U => proj1 (add_to_district_adds s v v' U))
                 _ (new_district (district_of s)) s _ _ eq_refl E0).
      rewrite (sum_of_turn d_total_students (fun s => get_int (total_students s))
                 add_to_district
                 (fun s v v' U => proj1 (proj2 (add_to_district_adds s v v' U)))
                 _ (new_district (district_of s)) s _ _ eq_refl E0).
      rewrite (sum_of_turn d_total_teachers (fun s => get_int (total_teachers s))
                 add_to_district
                 (fun s v v' U => proj2 (proj2 (add_to_district_adds s v v' U)))
                 _ (new_district (district_of s)) s _ _ eq_refl E0).
      rewrite (sum_of_turn b_total_schools (fun _ => 1) add_to_block
                 (fun s v v' U => proj1 (add_to_block_adds s v v' U))
                 _ (new_block (district_of s) (block_of s)) s _ _ eq_refl E1).
      rewrite (sum_of_turn b_total_students (fun s => get_int (total_students s))
                 add_to_block
                 (fun s v v' U => proj2 (add_to_block_adds s v v' U))
                 _ (new_block (district_of s) (block_of s)) s _ _ eq_refl E1).
      cbn [List.length sum_of fold_right]. unfold sum_of. lia.
    + inversion E; subst a. lia.
Qed.

(** Every attributed school is counted once among the districts and once
    among the blocks, with its students and teachers: the grand totals of
    the district aggregates and of the block aggregates are those of the
    attributed schools of the store. *)
Theorem grand_totals (schools_data : dict School) (out : Aggregated) :
  get_aggregated_data schools_data = Ok out ->
  let inside := filter has_district (values schools_data) in
  sum_of (fun d => d_total_schools (d_acc d)) (districts out)
    = Z.of_nat (List.length inside) /\
  sum_of (fun b => b_total_schools (b_acc b)) (blocks out)
    = Z.of_nat (List.length inside) /\
  sum_of (fun d => d_total_students (d_acc d)) (districts out)
    = sum_of (fun s => get_int (total_students s)) inside /\
  sum_of (fun b => b_total_students (b_acc b)) (blocks out)
    = sum_of (fun s => get_int (total_students s)) inside /\
  sum_of (fun d => d_total_teachers (d_acc d)) (districts out)
    = sum_of (fun s => get_int (total_teachers s)) inside.
Proof.
  unfold get_aggregated_data. intros H. bind_inv H. bind_inv H. bind_inv H.
  inversion H; subst out; cbn [districts blocks].
  destruct (accumulate_totals _ _ _ E) as [A [B [C [D T]]]]. cbn in A, B, C, D, T.
  assert (Md : forall f, sum_of (fun d => f (d_acc d)) a0 = sum_of f (values (fst a))).
  { intros f. rewrite <- (ConservationFacts.mapM_map _ _ _ _ finish_district_acc E0).
    now rewrite sum_of_map. }
  assert (Mb : forall f, sum_of (fun b => f (b_acc b)) a1 = sum_of f (values (snd a))).
  { intros f. rewrite <- (ConservationFacts.mapM_map _ _ _ _ finish_block_acc E1).
    now rewrite sum_of_map. }
  cbv zeta. rewrite !Md, !Mb, A, B, C, D, T. unfold count. repeat split.
Qed.

End RollupFacts.

(** ** Status thresholds of [server.py] *)

Module StatusFacts.

Local Open Scope string_scope.
Local Open Scope Z_scope.

Lemma py_ge_int_mono (v : num) (a b : Z) :
  b <= a -> py_ge v (NInt a) = true -> py_ge v (NInt b) = true.
Proof.
  unfold py_ge, py_cmp. intros L.
  destruct v as [n|[q| | |]]; cbn; try (intros; congruence || reflexivity).
  - destruct (Qcompare_spec (inject_Z n) (inject_Z a)) as [E|E|E]; try discriminate;
      intros _; destruct (Qcompare_spec (inject_Z n) (inject_Z b)) as [F|F|F];
      try reflexivity; exfalso; rewrite Zle_Qle in L; try rewrite E in F; lra.
  - destruct (Qcompare_spec q (inject_Z a)) as [E|E|E]; try discriminate;
      intros _; destruct (Qcompare_spec q (inject_Z b)) as [F|F|F];
      try reflexivity; exfalso; rewrite Zle_Qle in L; try rewrite E in F; lra.
Qed.

(** [get_rag_status] has two thresholds only: a score is green from 85 on,
    red when it is not at least 50 (a NaN score included), amber in
    between; the branch at 70 never changes the answer.  It is green
    exactly when [get_rag] of the executive router says Green, and red
    exactly when the [rag_status] of the ETL summaries is red. *)
Theorem get_rag_status_thresholds (shi_score : num) :
  ServerStatus.get_rag_status shi_score
  = (if py_ge shi_score (NInt 85) then "green"
     else if py_ge shi_score (NInt 50) then "amber"
     else "red") /\
  (ServerStatus.get_rag_status shi_score = "green"
   <-> Executive.status (Executive.get_rag shi_score) = "Green") /\
  (ServerStatus.get_rag_status shi_score = "red"
   <-> EtlSummary.rag_status shi_score = "red").
Proof.
  unfold ServerStatus.get_rag_status, Executive.get_rag, EtlSummary.rag_status.
  destruct (py_ge shi_score (NInt 85)) eqn:E85.
  - rewrite (py_ge_int_mono shi_score 85 75 ltac:(lia) E85).
    cbn. repeat split; intros; congruence.
  - destruct (py_ge shi_score (NInt 70)) eqn:E70.
    + rewrite (py_ge_int_mono shi_score 70 50 ltac:(lia) E70).
      destruct (py_ge shi_score (NInt 75)); cbn; repeat split; intros; congruence.
    + destruct (py_ge shi_score (NInt 75)) eqn:E75.
      { rewrite (py_ge_int_mono shi_score 75 70 ltac:(lia) E75) in E70. discriminate. }
      destruct (py_ge shi_score (NInt 50)); cbn; repeat split; intros; congruence.
Qed.

End StatusFacts.

(** ** The ranking of [get_school_health_index] *)

Module RankingFacts.

Import Executive Ranking.
Local Open Scope string_scope.
Local Open Scope Z_scope.

Lemma get_rag_status_cases (v : num) :
  status (get_rag v) = "Green" \/ status (get_rag v) = "Amber"
  \/ status (get_rag v) = "Red".
Proof.
  unfold get_rag. destruct (py_ge v (NInt 85)); [now left|].
  destruct (py_ge v (NInt 70)); cbn; auto.
Qed.

Lemma with_status_cons (s : string) (b : block_entry) (l : list block_entry) :
  with_status s (b :: l)
  = (if String.eqb (status (entry_rag b)) s then 1 else 0) + with_status s l.
Proof.
  unfold with_status. cbn [filter].
  destruct (String.eqb (status (entry_rag b)) s); cbn [List.length]; lia.
Qed.

Lemma with_status_rerank (s : string) (l : list block_entry) (i : Z) :
  with_status s (rerank i l) = with_status s l.
Proof.
  revert i. induction l as [|b l IH]; intros i; [reflexivity|].
  cbn [rerank]. rewrite !with_status_cons, IH. reflexivity.
Qed.

Lemma with_status_perm (s : string) (l l' : list block_entry) :
  Permutation l l' -> with_status s l = with_status s l'.
Proof.
  intros P. induction P.
  - reflexivity.
  - rewrite !with_status_cons. lia.
  - rewrite !with_status_cons. lia.
  - congruence.
Qed.

Lemma entries_total (i : Z) (scores : list num) :
  green (rag_distribution (entries_from i scores))
  + amber (rag_distribution (entries_from i scores))
  + red (rag_distribution (entries_from i scores))
  = Z.of_nat (List.length scores).
Proof.
  revert i. induction scores as [|v l IH]; intros i; [reflexivity|].
  specialize (IH (i + 1)). cbn [rag_distribution green amber red] in *.
  cbn [entries_from]. rewrite !with_status_cons. cbn [entry_rag].
  change (List.length (v :: l)) with (S (List.length l)).
  rewrite Nat2Z.inj_succ.
  destruct (get_rag_status_cases v) as [E|[E|E]]; rewrite E;
    simpl String.eqb; lia.
Qed.

Lemma with_status_green (i : Z) (scores : list num) :
  with_status "Green" (entries_from i scores)
  = Z.of_nat (List.length (filter (fun v => py_ge v (NInt 85)) scores)).
Proof.
  revert i. induction scores as [|v l IH]; intros i; [reflexivity|].
  cbn [entries_from filter]. rewrite with_status_cons, IH. cbn [entry_rag].
  unfold get_rag. destruct (py_ge v (NInt 85)).
  - cbn [List.length]. rewrite Nat2Z.inj_succ. simpl String.eqb. lia.
  - destruct (py_ge v (NInt 70)); simpl String.eqb; lia.
Qed.

(** Whatever order the sort leaves the ranked blocks in, the three counts
    of [rag_distribution] add up to the number of ranked blocks, which is
    the number of blocks or 20 if there are more; the green count is the
    number of ranked blocks whose score is at least 85. *)
Theorem rag_distribution_partitions (scores : list num)
    (sorted : list block_entry) :
  Permutation (block_entries scores) sorted ->
  let d := rag_distribution (rerank 0 sorted) in
  green d + amber d + red d = Z.min 20 (Z.of_nat (List.length scores)) /\
  green d
  = Z.of_nat (List.length (filter (fun v => py_ge v (NInt 85)) (firstn 20 scores))).
Proof.
  intros P. cbv zeta. cbn [rag_distribution green amber red].
  rewrite !with_status_rerank.
  rewrite <- !(with_status_perm _ _ _ P). unfold block_entries.
  pose proof (entries_total 0 (firstn 20 scores)) as T.
  cbn [rag_distribution green amber red] in T. rewrite T.
  rewrite with_status_green. split; [|reflexivity].
  rewrite length_firstn. lia.
Qed.

End RankingFacts.

(** ** The drill-down scope *)

Module ScopeFacts.

Import Scope.
Local Open Scope string_scope.
Local Open Scope list_scope.
Local Open Scope Z_scope.

Lemma is_digit_cases (c : ascii) :
  Str.is_digit c = true ->
  exists k, (k < 10)%nat /\ c = ascii_of_nat (48 + k).
Proof.
  unfold Str.is_digit. intros H. apply andb_true_iff in H. destruct H as [A B].
  apply Nat.leb_le in A, B. exists (nat_of_ascii c - 48)%nat. split; [lia|].
  replace (48 + (nat_of_ascii c - 48))%nat with (nat_of_ascii c) by lia.
  now rewrite ascii_nat_embedding.
Qed.

Lemma digits_value_pos (acc : positive) (c : ascii) (s : string) (d : Decimal.uint) (k : Z) (p : positive) :
  Str.digit_val c = k -> 10 * Z.pos acc + k = Z.pos p ->
  (forall acc, Str.digits_value (Zpos acc) s = Zpos (Pos.of_uint_acc d acc)) ->
  Str.digits_value (Zpos acc) (String c s) = Zpos (Pos.of_uint_acc d p).
Proof.
  intros K P A. cbn [Str.digits_value]. rewrite K, P. apply A.
Qed.

Lemma digits_uint (s : string) :
  Text.all_chars Str.is_digit s = true ->
  exists d, NilEmpty.uint_of_string s = Some d /\
            (forall acc, Str.digits_value (Zpos acc) s = Zpos (Pos.of_uint_acc d acc)) /\
            Str.digits_value 0 s = Z.of_N (Pos.of_uint d) /\
            (Str.startswith s "0" = false -> s <> "" -> Decimal.unorm d = d).
Proof.
  induction s as [|c s IH]; intros H.
  - exists Decimal.Nil. repeat split; try reflexivity. intros _ N. congruence.
  - cbn [Text.all_chars] in H. apply andb_true_iff in H. destruct H as [Hc Hs].
    destruct (IH Hs) as [d [E [A [Z0 _]]]]. clear IH.
    destruct (is_digit_cases c Hc) as [k [Hk ->]].
    do 10 (destruct k as [|k]; [
      cbn [NilEmpty.uint_of_string]; rewrite E; eexists; split; [reflexivity|];
      split; [intros acc; cbn [Pos.of_uint_acc]; eapply digits_value_pos;
              [vm_compute; reflexivity| |exact A]; lia |
      split; [cbn [Pos.of_uint Str.digits_value];
              match goal with
              | |- Str.digits_value ?v s = _ =>
                  let v' := eval vm_compute in v in change v with v'
              end; first [exact Z0 | apply A] |
              first [ intros _ _; reflexivity
                    | intros F; cbn in F; destruct s; discriminate F ]]] |]).
    exfalso; lia.
Qed.

Lemma int_of_digits_round_trip (s : string) (n : Z) :
  Text.isdigit s = true -> Str.startswith s "0" = false ->
  int_of_digits s = Ok n -> Str.string_of_Z n = s.
Proof.
  unfold Text.isdigit, int_of_digits. intros D Z0 H.
  apply andb_true_iff in D. destruct D as [N D].
  apply negb_true_iff in N. apply String.eqb_neq in N.
  destruct (4300 <? String.length s)%nat; [discriminate|]. inversion H; subst n.
  destruct (digits_uint s D) as [d [E [_ [V U]]]]. specialize (U Z0 N).
  rewrite V. apply NilEmpty.sus in E.
  pose proof (DecimalPos.Unsigned.to_of d) as T. rewrite U in T.
  destruct (Pos.of_uint d) as [|p] eqn:P.
  - cbn in T. subst d. cbn in E. subst s.
    cbn in Z0. discriminate.
  - cbn in T. cbn [Z.of_N Str.string_of_Z]. now rewrite T.
Qed.

(** The variants of a code of ASCII text all denote it: the first is the
    code itself, and a numeric variant, added for a string of digits
    without leading zero, prints back as the code. *)
Theorem code_variants_denote_the_code (code : option string) (v : code_value) :
  Text.ascii_only (text code) = true ->
  In v (_code_variants code) ->
  match v with
  | CodeStr s => s = text code
  | CodeInt n => Str.string_of_Z n = text code
  end.
Proof.
  intros _. unfold _code_variants. destruct (truthy code); cbn [negb]; [|intros []].
  destruct (Text.isdigit (text code) && negb (Str.startswith (text code) "0")) eqn:D.
  - apply andb_true_iff in D. destruct D as [D Z0]. apply negb_true_iff in Z0.
    destruct (int_of_digits (text code)) as [n|e] eqn:E.
    + intros [<-|[<-|[]]]; [reflexivity|].
      now apply int_of_digits_round_trip.
    + intros [<-|[]]. reflexivity.
  - intros [<-|[]]. reflexivity.
Qed.

(** The numeric variant of a district code. *)
Lemma code_variants_witness :
  Text.ascii_only (text (Some "2725")) = true /\
  match CodeInt 2725 with
  | CodeStr s => s = text (Some "2725")
  | CodeInt n => Str.string_of_Z n = text (Some "2725")
  end.
Proof.
  split; [reflexivity|].
  apply (code_variants_denote_the_code (Some "2725") (CodeInt 2725)).
  - reflexivity.
  - vm_compute. right. left. reflexivity.
Defined.

Lemma code_variants_nonempty (code : option string) :
  nonempty (_code_variants code) = truthy code.
Proof.
  unfold _code_variants. destruct (truthy code); cbn [negb]; [|reflexivity].
  destruct (Text.isdigit (text code) && negb (Str.startswith (text code) "0"));
    [|reflexivity].
  destruct (int_of_digits (text code)); reflexivity.
Qed.

Lemma level_cases (cf nf : string) (code name : option string) :
  (truthy code || truthy name = false /\ level cf nf code name = []) \/
  (truthy code || truthy name = true /\
   exists c, level cf nf code name = [c] /\ is_empty c = false /\
             forall cs, c <> And_ cs).
Proof.
  unfold level. rewrite code_variants_nonempty.
  destruct (truthy code), (truthy name); cbn [orb andb].
  - right. split; [reflexivity|]. eexists. repeat split; intros; discriminate.
  - right. split; [reflexivity|]. eexists. repeat split; intros; discriminate.
  - right. split; [reflexivity|]. eexists. repeat split; intros; discriminate.
  - left. split; reflexivity.
Qed.

(** The scope filter: with no argument given the match document is [{}]
    and [prepend_match] hands the pipeline back untouched; otherwise the
    document is not empty and exactly one [$match] stage is put in front of
    the untouched pipeline.  An [$and] appears only for two or three
    levels, with one condition a level. *)
Theorem scope_is_prepended_once {A : Type} (pipeline : list (stage A))
    (district_code block_code udise_code
     district_name block_name school_name : option string) :
  let q := build_scope_match district_code block_code udise_code
             district_name block_name school_name in
  let d := truthy district_code || truthy district_name in
  let b := truthy block_code || truthy block_name in
  let u := truthy udise_code || truthy school_name in
  (q = Empty <-> d || b || u = false) /\
  prepend_match pipeline q
    = (if d || b || u then Match q :: pipeline else pipeline) /\
  (forall cs, q = And_ cs ->
     Z.of_nat (List.length cs) = Z.b2z d + Z.b2z b + Z.b2z u /\
     2 <= Z.of_nat (List.length cs)).
Proof.
  cbv zeta. unfold build_scope_match, prepend_match.
  destruct (level_cases "district_code" "district_name" district_code district_name)
    as [[-> ->]|[-> [c1 [-> [N1 A1]]]]];
  destruct (level_cases "block_code" "block_name" block_code block_name)
    as [[-> ->]|[-> [c2 [-> [N2 A2]]]]];
  destruct (level_cases "udise_code" "school_name" udise_code school_name)
    as [[-> ->]|[-> [c3 [-> [N3 A3]]]]];
  simpl;
  repeat split; intros; try discriminate; try reflexivity;
  try (subst; discriminate);
  try match goal with
      | H : is_empty ?c = false |- context [is_empty ?c] => rewrite H; reflexivity
      | H : ?c = And_ _, N : forall cs, ?c <> And_ cs |- _ => exfalso; exact (N _ H)
      | H : And_ _ = And_ _ |- _ => inversion H; subst; cbn; lia
      end.
Qed.

End ScopeFacts.

(** ** Dataset types and their parsers *)

Module DispatchFacts.

Import ParserNames Totals.
Local Open Scope string_scope.
Local Open Scope list_scope.






End DispatchFacts.

(** ** Age-wise enrolment *)

Module EtlRecordFacts.

Import Etl EtlAge Spec Totals.
Local Open Scope string_scope.
Local Open Scope list_scope.
Local Open Scope Z_scope.

Lemma age_fold (r : row) (cs : list string) (acc : age_totals) :
  let t := fold_left (age_step r) cs acc in
  boys_total t = boys_total acc + column_sum boys_class r cs /\
  girls_total t = girls_total acc + column_sum girls_class r cs.
Proof.
  revert acc. induction cs as [|c cs IH]; intros acc.
  - cbn. lia.
  - cbn [fold_left]. destruct (IH (age_step r acc c)) as [B G].
    cbv zeta. rewrite B, G. unfold column_sum. cbn [fold_right].
    unfold age_step, girls_class, boys_class.
    destruct (Str.contains "(Boys)" c), (Str.contains "Class" c),
             (Str.contains "(Girls)" c);
      cbn [negb andb EtlAge.boys_total EtlAge.girls_total]; lia.
Qed.

(** Every record of [etl_age_wise] comes from a row that is no placeholder
    and has [total = boys + girls], where [boys] sums the coerced cells of
    the columns whose name contains both ["(Boys)"] and ["Class"], and
    [girls] those of the other columns whose name contains both
    ["(Girls)"] and ["Class"]. *)
Theorem age_wise_totals (df : list row) (rec : age_record) :
  In rec (etl_age_wise df) ->
  exists r,
    In r df /\ is_placeholder_row r = false /\
    total rec = boys rec + girls rec /\
    boys rec = column_sum boys_class r (columns r) /\
    girls rec = column_sum girls_class r (columns r).
Proof.
  unfold etl_age_wise, read_excel_skip_placeholders. intros H.
  apply in_map_iff in H. destruct H as [r [E I]].
  apply filter_In in I. destruct I as [I P].
  exists r. split; [exact I|]. split; [now apply negb_true_iff|].
  subst rec. unfold etl_age_wise_row. cbn [total boys girls].
  destruct (age_fold r (columns r) (mkAgeTotals 0 0)) as [B G].
  cbv zeta in B, G. cbn [boys_total girls_total] in B, G. rewrite B, G.
  repeat split.
Qed.

End EtlRecordFacts.

(** ** The batches of [insert_many] *)

Module BatchFacts.

Import EtlBatch Totals.
Local Open Scope list_scope.
Local Open Scope Z_scope.

Section Batches.

Context {A : Type}.
Variable l : list A.
Variables k len : Z.
Hypothesis k_pos : 0 < k.
Hypothesis len_eq : len = Z.of_nat (List.length l).

Lemma skipn_beyond (i : Z) : len <= i -> skipn (Z.to_nat i) l = [].
Proof using All. intros H. apply skipn_all2. lia. Qed.

Lemma slice_then_rest (i : Z) :
  0 <= i ->
  slice l i (i + k) ++ skipn (Z.to_nat (i + k)) l = skipn (Z.to_nat i) l.
Proof using All.
  intros H. unfold slice. replace (i + k - i) with k by lia.
  replace (Z.to_nat (i + k)) with (Z.to_nat k + Z.to_nat i)%nat by lia.
  rewrite <- skipn_skipn. apply firstn_skipn.
Qed.

Lemma range_concat (fuel : nat) (i : Z) :
  0 <= i -> len - i <= Z.of_nat fuel ->
  List.concat (map (fun i => slice l i (i + k)) (range_from fuel i len k))
  = skipn (Z.to_nat i) l.
Proof using All.
  revert i. induction fuel as [|fuel IH]; intros i P F; cbn [range_from].
  - cbn. symmetry. apply skipn_beyond. lia.
  - destruct (Z.ltb_spec i len) as [L|L].
    + cbn [map List.concat]. rewrite IH by lia. now apply slice_then_rest.
    + cbn. symmetry. now apply skipn_beyond.
Qed.

Lemma range_from_in (fuel : nat) (i j : Z) :
  In j (range_from fuel i len k) -> i <= j < len.
Proof using All.
  revert i. induction fuel as [|fuel IH]; intros i; cbn [range_from]; [intros []|].
  destruct (Z.ltb_spec i len) as [L|L]; [|intros []].
  intros [<-|I]; [lia|]. apply IH in I. lia.
Qed.

Lemma slice_length (i : Z) :
  0 <= i < len ->
  Z.of_nat (List.length (slice l i (i + k))) = Z.min k (len - i).
Proof using All.
  intros H. unfold slice. rewrite length_firstn, length_skipn. lia.
Qed.

Lemma range_from_length (fuel : nat) (i : Z) :
  len - i <= Z.of_nat fuel -> i <= len + k - 1 ->
  Z.of_nat (List.length (range_from fuel i len k)) = ceil_div (len - i) k.
Proof using All.
  unfold ceil_div. revert i.
  induction fuel as [|fuel IH]; intros i F U; cbn [range_from].
  - cbn. symmetry. apply Z.div_small. lia.
  - destruct (Z.ltb_spec i len) as [L|L].
    + cbn [List.length]. rewrite Nat2Z.inj_succ, IH by lia.
      replace (len - i + k - 1) with ((len - (i + k) + k - 1) + 1 * k) by lia.
      rewrite Z.div_add by lia. lia.
    + cbn. symmetry. apply Z.div_small. lia.
Qed.

End Batches.

(** The batches handed to [insert_many] are the records, cut in order:
    joined again they give the list back, none is empty or longer than
    [batch_size], and there are [ceil(len(records) / batch_size)] of
    them. *)
Theorem batches_cover_the_records {A : Type} (records : list A) :
  List.concat (insert_batches records) = records /\
  Forall (fun b => 0 < Z.of_nat (List.length b) <= batch_size)
         (insert_batches records) /\
  Z.of_nat (List.length (insert_batches records))
  = ceil_div (Z.of_nat (List.length records)) batch_size.
Proof.
  assert (K : 0 < batch_size) by reflexivity.
  unfold insert_batches, py_range.
  destruct records as [|a records]; [repeat split; constructor|].
  set (l := a :: records). set (len := Z.of_nat (List.length l)).
  assert (E : len = Z.of_nat (List.length l)) by reflexivity.
  repeat split.
  - rewrite (range_concat l batch_size len K E) by lia. reflexivity.
  - apply Forall_forall. intros b I. apply in_map_iff in I.
    destruct I as [i [<- I]]. apply (range_from_in l batch_size len K E) in I.
    rewrite (slice_length l batch_size len K E) by lia. lia.
  - rewrite length_map, (range_from_length l batch_size len K E) by lia.
    now rewrite Z.sub_0_r.
Qed.

End BatchFacts.

(** ** Composite scores of percentages *)

Module IndexFacts.

Import Spec FloatFacts RateFacts.
Local Open Scope Z_scope.

(** A closed comparison of rationals, settled by evaluation. *)
Ltac qbound := vm_compute; first [reflexivity | discriminate].

(** Rounding is monotone against any bound whose own rounding is known. *)
Lemma b64_below (q h H : Q) :
  (0 <= q)%Q -> (q <= h)%Q -> (b64_pos h <= H)%Q -> (0 <= H)%Q ->
  (H < b64_huge)%Q ->
  exists r, b64 q = Fin r /\ (0 <= r)%Q /\ (r <= H)%Q.
Proof.
  intros H0 Hh Fh PH Bh. unfold b64.
  destruct (Qcompare_spec q 0) as [E|L|G].
  - exists 0%Q. split; [reflexivity|]. split; lra.
  - exfalso. lra.
  - pose proof (b64_pos_mono q h G Hh) as M.
    pose proof (b64_pos_nonneg q G) as P.
    destruct (Qle_bool b64_huge (b64_pos q)) eqn:Hc.
    + apply Qle_bool_iff in Hc. exfalso. lra.
    + exists (Qred (b64_pos q)). split; [reflexivity|].
      rewrite Qred_correct. split; lra.
Qed.

(** A number within [[0, 100]] converts to a float of that range. *)
Lemma within_float (v : num) :
  within 0 100 v ->
  exists q, num_to_float v = Ok (Fin q) /\ (0 <= q)%Q /\ (q <= 100)%Q.
Proof.
  unfold within, py_le, py_cmp. intros [L U]. destruct v as [n|[q| | |]];
    cbn [num_exact fcmp] in L, U; try discriminate.
  - cbn [num_to_float]. unfold of_int.
    destruct (Qcompare_spec (inject_Z 0) (inject_Z n)) as [E|E|E]; try discriminate;
    destruct (Qcompare_spec (inject_Z n) (inject_Z 100)) as [F|F|F]; try discriminate;
    (destruct (b64_range (inject_Z n) 100) as [r [Er R]];
     [ change 0%Q with (inject_Z 0); lra
     | change 100%Q with (inject_Z 100); lra
     | exact b64_fix_100
     | rewrite Er; exists r; split; [reflexivity|exact R] ]).
  - exists q. split; [reflexivity|].
    destruct (Qcompare_spec (inject_Z 0) q) as [E|E|E]; try discriminate;
    destruct (Qcompare_spec q (inject_Z 100)) as [F|F|F]; try discriminate;
    change (inject_Z 0) with 0%Q in E; change (inject_Z 100) with 100%Q in F;
    split; lra.
Qed.

(** The product of a float of [[0, 100]] and a weight [w], where the
    rounding of [100 * w] is at most [H]. *)
Lemma weighted_range (v : num) (w H : Q) :
  within 0 100 v -> (0 < w)%Q -> (b64_pos (100 * w) <= H)%Q -> (0 <= H)%Q ->
  (H < b64_huge)%Q ->
  exists r, py_mul v (NFloat (Fin w)) = Ok (NFloat (Fin r)) /\
            (0 <= r)%Q /\ (r <= H)%Q.
Proof.
  intros W Pw Fh PH Bh. destruct (within_float v W) as [q [E [L U]]].
  assert (M : py_mul v (NFloat (Fin w)) = Ok (NFloat (fmul (Fin q) (Fin w)))).
  { destruct v; cbn [py_mul]; rewrite E; reflexivity. }
  rewrite M. cbn [fmul].
  destruct (b64_below (q * w) (100 * w) H) as [r [Er R]]; try assumption; try nra.
  exists r. rewrite Er. auto.
Qed.

Lemma sum_range (a b ha hb H : Q) :
  (0 <= a)%Q -> (a <= ha)%Q -> (0 <= b)%Q -> (b <= hb)%Q ->
  (b64_pos (ha + hb) <= H)%Q -> (0 <= H)%Q -> (H < b64_huge)%Q ->
  exists r, py_add (NFloat (Fin a)) (NFloat (Fin b)) = Ok (NFloat (Fin r)) /\
            (0 <= r)%Q /\ (r <= H)%Q.
Proof.
  intros. cbn [py_add num_to_float bind fadd].
  destruct (b64_below (a + b) (ha + hb) H) as [r [Er R]]; try assumption; try lra.
  exists r. rewrite Er. auto.
Qed.

Lemma lit_quarter : lit (1 # 4) = Fin (1 # 4).
Proof. vm_compute. reflexivity. Qed.

(** The composite index of sub-indices that are percentages is a
    percentage: [get_school_health_index] returns, and its
    [school_health_index] lies in [[0, 100]], whenever the four domain
    indices do. *)
Theorem shi_of_percentages (identity_index infra_index teacher_index
    operational_index : num) :
  within 0 100 identity_index -> within 0 100 infra_index ->
  within 0 100 teacher_index -> within 0 100 operational_index ->
  exists v,
    Executive.shi identity_index infra_index teacher_index operational_index = Ok v /\
    within 0 100 v.
Proof.
  intros W1 W2 W3 W4. unfold Executive.shi. cbv zeta. rewrite lit_quarter.
  assert (Pw : (0 < 1 # 4)%Q) by reflexivity.
  assert (F : (b64_pos (100 * (1 # 4)) <= 25)%Q) by qbound.
  assert (P25 : (0 <= 25)%Q) by qbound.
  assert (B25 : (25 < b64_huge)%Q) by qbound.
  assert (F50 : (b64_pos (25 + 25) <= 50)%Q) by qbound.
  assert (P50 : (0 <= 50)%Q) by qbound.
  assert (B50 : (50 < b64_huge)%Q) by qbound.
  assert (F75 : (b64_pos (50 + 25) <= 75)%Q) by qbound.
  assert (P75 : (0 <= 75)%Q) by qbound.
  assert (B75 : (75 < b64_huge)%Q) by qbound.
  assert (F100 : (b64_pos (75 + 25) <= 100)%Q) by qbound.
  assert (P100 : (0 <= 100)%Q) by qbound.
  assert (B100 : (100 < b64_huge)%Q) by qbound.
  destruct (weighted_range _ (1 # 4) 25 W1 Pw F P25 B25) as [a [-> [La Ua]]].
  destruct (weighted_range _ (1 # 4) 25 W2 Pw F P25 B25) as [b [-> [Lb Ub]]].
  cbn [bind].
  destruct (sum_range a b 25 25 50 La Ua Lb Ub F50 P50 B50) as [ab [-> [Lab Uab]]].
  destruct (weighted_range _ (1 # 4) 25 W3 Pw F P25 B25) as [c [-> [Lc Uc]]].
  cbn [bind].
  destruct (sum_range ab c 50 25 75 Lab Uab Lc Uc F75 P75 B75)
    as [abc [-> [Labc Uabc]]].
  destruct (weighted_range _ (1 # 4) 25 W4 Pw F P25 B25) as [d [-> [Ld Ud]]].
  cbn [bind].
  destruct (sum_range abc d 75 25 100 Labc Uabc Ld Ud F100 P100 B100)
    as [s [-> [Ls Us]]].
  cbn [bind py_round].
  destruct (fround_range s 1 ltac:(lia) Ls Us) as [r [-> [Lr Ur]]].
  eexists. split; [reflexivity|]. now apply within_fin.
Qed.

Lemma lit_three_tenths : lit (3 # 10) = Fin (5404319552844595 # 18014398509481984).
Proof. vm_compute. reflexivity. Qed.

Lemma lit_four_tenths : lit (4 # 10) = Fin (3602879701896397 # 9007199254740992).
Proof. vm_compute. reflexivity. Qed.

(** The percentage [pct] of a part of a whole. *)
Lemma pct_range (g : option (Z * Z)) :
  (forall n d, g = Some (n, d) -> 0 <= n <= d) ->
  exists v, EtlSummary.pct g = Ok v /\ within 0 100 v.
Proof.
  intros H. unfold EtlSummary.pct. destruct g as [[n d]|].
  - specialize (H n d eq_refl). destruct (Z.gtb_spec d 0) as [P|P].
    + destruct (int_truediv_unit n d H ltac:(lia)) as [q [-> [L U]]]. cbn [bind].
      destruct (fmul_100_range q L U) as [p [-> [Lp Up]]].
      eexists. split; [reflexivity|]. now apply within_fin.
    + eexists. split; [reflexivity|]. apply ClampFacts.within_int. lia.
  - eexists. split; [reflexivity|]. apply ClampFacts.within_int. lia.
Qed.

(** The [shi_score] of the district and block summaries is a percentage
    whenever each of the three group sums it is computed from counts a part
    of its whole: Aadhaar-available pupils among the enrolled, generated
    APAAR ids among the students, CTET-qualified teachers among the
    teachers. *)
Theorem shi_score_of_parts (aadhaar : option EtlSummary.aadhaar_group)
    (apaar : option EtlSummary.apaar_group)
    (teacher : option EtlSummary.teacher_group) :
  (forall g, aadhaar = Some g ->
     0 <= EtlSummary.ag_aadhaar_available g <= EtlSummary.ag_total_enrolment g) ->
  (forall g, apaar = Some g ->
     0 <= EtlSummary.pg_apaar_generated g <= EtlSummary.pg_total_students g) ->
  (forall g, teacher = Some g ->
     0 <= EtlSummary.tg_ctet_passed g <= EtlSummary.tg_total_teachers g) ->
  exists v, EtlSummary.shi_score aadhaar apaar teacher = Ok v /\ within 0 100 v.
Proof.
  intros Ha Hp Ht. unfold EtlSummary.shi_score.
  destruct (pct_range
              (option_map (fun g => (EtlSummary.ag_aadhaar_available g,
                                     EtlSummary.ag_total_enrolment g)) aadhaar))
    as [a [-> Wa]].
  { intros n d E. destruct aadhaar as [g|]; [|discriminate].
    inversion E; subst. now apply Ha. }
  cbn [bind].
  destruct (pct_range
              (option_map (fun g => (EtlSummary.pg_apaar_generated g,
                                     EtlSummary.pg_total_students g)) apaar))
    as [p [-> Wp]].
  { intros n d E. destruct apaar as [g|]; [|discriminate].
    inversion E; subst. now apply Hp. }
  cbn [bind].
  destruct (pct_range
              (option_map (fun g => (EtlSummary.tg_ctet_passed g,
                                     EtlSummary.tg_total_teachers g)) teacher))
    as [t [-> Wt]].
  { intros n d E. destruct teacher as [g|]; [|discriminate].
    inversion E; subst. now apply Ht. }
  cbn [bind]. unfold EtlSummary.weighted.
  rewrite lit_three_tenths, lit_four_tenths.
  set (w3 := (5404319552844595 # 18014398509481984)%Q).
  set (w4 := (3602879701896397 # 9007199254740992)%Q).
  assert (P3 : (0 < w3)%Q) by reflexivity.
  assert (P4 : (0 < w4)%Q) by reflexivity.
  assert (F30 : (b64_pos (100 * w3) <= 30)%Q) by qbound.
  assert (P30 : (0 <= 30)%Q) by qbound.
  assert (B30 : (30 < b64_huge)%Q) by qbound.
  assert (F40 : (b64_pos (100 * w4) <= 40)%Q) by qbound.
  assert (P40 : (0 <= 40)%Q) by qbound.
  assert (B40 : (40 < b64_huge)%Q) by qbound.
  assert (F60 : (b64_pos (30 + 30) <= 60)%Q) by qbound.
  assert (P60 : (0 <= 60)%Q) by qbound.
  assert (B60 : (60 < b64_huge)%Q) by qbound.
  assert (F100 : (b64_pos (60 + 40) <= 100)%Q) by qbound.
  assert (P100 : (0 <= 100)%Q) by qbound.
  assert (B100 : (100 < b64_huge)%Q) by qbound.
  destruct (weighted_range a w3 30 Wa P3 F30 P30 B30) as [x [-> [Lx Ux]]].
  destruct (weighted_range p w3 30 Wp P3 F30 P30 B30) as [y [-> [Ly Uy]]].
  cbn [bind].
  destruct (sum_range x y 30 30 60 Lx Ux Ly Uy F60 P60 B60) as [xy [-> [Lxy Uxy]]].
  destruct (weighted_range t w4 40 Wt P4 F40 P40 B40) as [z [-> [Lz Uz]]].
  cbn [bind].
  destruct (sum_range xy z 60 40 100 Lxy Uxy Lz Uz F100 P100 B100)
    as [s [-> [Ls Us]]].
  cbn [bind py_round].
  destruct (fround_range s 1 ltac:(lia) Ls Us) as [r [-> [Lr Ur]]].
  eexists. split; [reflexivity|]. now apply within_fin.
Qed.

End IndexFacts.

(** ** Integer cells *)

Module ExactFacts.

Import Spec FloatFacts.
Local Open Scope Z_scope.

Lemma rne_eq (x y : Q) : (x == y)%Q -> rne x = rne y.
Proof.
  intros E. apply Z.le_antisymm; apply rne_mono; rewrite E; apply Qle_refl.
Qed.

Lemma ilog2_int_range (n : Z) :
  1 <= n <= 2 ^ 53 -> 0 <= ilog2 (inject_Z n) <= 53.
Proof.
  intros H. split.
  - change 0 with (ilog2 1). apply ilog2_mono; [reflexivity|].
    change 1%Q with (inject_Z 1). rewrite <- Zle_Qle. lia.
  - assert (E : ilog2 (inject_Z (2 ^ 53)) = 53) by (vm_compute; reflexivity).
    rewrite <- E. apply ilog2_mono.
    + change 0%Q with (inject_Z 0). rewrite <- Zlt_Qlt. lia.
    + rewrite <- Zle_Qle. lia.
Qed.

(** An integer of at most 53 bits is a binary64 value. *)
Lemma b64_pos_int (n : Z) :
  1 <= n <= 2 ^ 53 -> (b64_pos (inject_Z n) == inject_Z n)%Q.
Proof.
  intros H. pose proof (ilog2_int_range n H) as R.
  assert (P : (0 < inject_Z n)%Q).
  { change 0%Q with (inject_Z 0). rewrite <- Zlt_Qlt. lia. }
  unfold b64_pos, b64_exp.
  destruct (Z.eq_dec (ilog2 (inject_Z n)) 53) as [E|N].
  - (* n = 2^53 *)
    destruct (ilog2_spec (inject_Z n) P) as [L _]. rewrite E in L.
    rewrite <- (pow2_inject 53) in L by lia. rewrite <- Zle_Qle in L.
    assert (n = 2 ^ 53) by lia. subst n. vm_compute. reflexivity.
  - set (e := Z.max (ilog2 (inject_Z n) - 52) (-1074)).
    assert (He : -52 <= e <= 0) by (unfold e; lia).
    assert (D : (inject_Z n / 2 ^ e == inject_Z (n * 2 ^ (- e)))%Q).
    { rewrite inject_Z_mult, (pow2_inject (- e)) by lia.
      unfold Qdiv. rewrite Qpower_opp. reflexivity. }
    rewrite (rne_eq _ _ D), rne_inject_Z.
    rewrite inject_Z_mult, (pow2_inject (- e)) by lia.
    rewrite Qpower_opp. field. apply Qnot_eq_sym, Qlt_not_eq, pow2_pos.
Qed.

Lemma Qred_inject_Z (n : Z) : Qred (inject_Z n) = inject_Z n.
Proof.
  unfold Qred, inject_Z.
  pose proof (Z.ggcd_gcd n 1) as G. pose proof (Z.ggcd_correct_divisors n 1) as D.
  destruct (Z.ggcd n 1) as [g [a b]]. cbn [fst snd] in *.
  rewrite Z.gcd_1_r in G. subst g. destruct D as [A B].
  replace a with n by lia. replace b with 1 by lia. reflexivity.
Qed.

Lemma b64_int (n : Z) : Z.abs n <= 2 ^ 53 -> b64 (inject_Z n) = Fin (inject_Z n).
Proof.
  intros H. unfold b64.
  destruct (Qcompare_spec (inject_Z n) 0) as [E|L|G].
  - assert (Z : n = 0) by (unfold Qeq in E; cbn in E; lia).
    rewrite Z. reflexivity.
  - change 0%Q with (inject_Z 0) in L. rewrite <- Zlt_Qlt in L.
    assert (F : (b64_pos (- inject_Z n) == inject_Z (- n))%Q).
    { rewrite <- inject_Z_opp. apply b64_pos_int. lia. }
    destruct (Qle_bool b64_huge (b64_pos (- inject_Z n))) eqn:Hc.
    + apply Qle_bool_iff in Hc. rewrite F in Hc. exfalso.
      assert (B : (inject_Z (- n) <= inject_Z (2 ^ 53))%Q) by (rewrite <- Zle_Qle; lia).
      assert (B' : (inject_Z (2 ^ 53) < b64_huge)%Q) by (vm_compute; reflexivity).
      lra.
    + f_equal. transitivity (Qred (inject_Z n)); [|apply Qred_inject_Z].
      apply Qred_complete. rewrite F, inject_Z_opp. ring.
  - change 0%Q with (inject_Z 0) in G. rewrite <- Zlt_Qlt in G.
    assert (F : (b64_pos (inject_Z n) == inject_Z n)%Q) by (apply b64_pos_int; lia).
    destruct (Qle_bool b64_huge (b64_pos (inject_Z n))) eqn:Hc.
    + apply Qle_bool_iff in Hc. rewrite F in Hc. exfalso.
      assert (B : (inject_Z n <= inject_Z (2 ^ 53))%Q) by (rewrite <- Zle_Qle; lia).
      assert (B' : (inject_Z (2 ^ 53) < b64_huge)%Q) by (vm_compute; reflexivity).
      lra.
    + f_equal. transitivity (Qred (inject_Z n)); [|apply Qred_inject_Z].
      now apply Qred_complete.
Qed.

(** An integer cell of at most 53 bits goes through [int(float(val))]
    unchanged, in the parser and in the ETL pipeline alike, and [safe_float]
    converts it exactly; one more bit and the last digit is lost. *)
Theorem safe_int_keeps_integers (n : Z) :
  Z.abs n <= 2 ^ 53 ->
  Parser.safe_int (VInt n) = Ok n /\ Etl.safe_int (VInt n) = n /\
  Parser.safe_float (VInt n) = Ok (Fin (inject_Z n)) /\
  Etl.safe_float (VInt n) = Fin (inject_Z n) /\
  Parser.safe_int (VInt (2 ^ 53 + 1)) = Ok (2 ^ 53).
Proof.
  intros H.
  unfold Parser.safe_int, Etl.safe_int, Etl.safe_int_body, Parser.safe_float,
    Etl.safe_float, int_of_float_of.
  cbn [isna py_float]. unfold of_int. rewrite (b64_int n H).
  cbn [bind to_int except_value_type except_all Qnum Qden inject_Z].
  rewrite Z.quot_1_r. repeat split; vm_compute; reflexivity.
Qed.

(** A UDISE code read as a number. *)
Lemma safe_int_keeps_integers_witness :
  Parser.safe_int (VInt 27250100101) = Ok 27250100101 /\
  Etl.safe_int (VInt 27250100101) = 27250100101 /\
  Parser.safe_float (VInt 27250100101) = Ok (Fin (inject_Z 27250100101)) /\
  Etl.safe_float (VInt 27250100101) = Fin (inject_Z 27250100101) /\
  Parser.safe_int (VInt (2 ^ 53 + 1)) = Ok (2 ^ 53).
Proof.
  apply (safe_int_keeps_integers 27250100101). lia.
Defined.

End ExactFacts.

(** ** Shares of a district *)

Module ShareFacts.

Import Dict DataImport Spec Totals RateFacts.
Local Open Scope string_scope.
Local Open Scope list_scope.
Local Open Scope Z_scope.

Lemma modify_all {V : Type} (P : V -> Prop) (k : string) (f : V -> result V)
    (d d' : dict V) :
  (forall v v', P v -> f v = Ok v' -> P v') ->
  (forall k' v, In (k', v) d -> P v) ->
  modify k f d = Ok d' -> forall k' v, In (k', v) d' -> P v.
Proof.
  intros Hf. revert d'. induction d as [|[k0 v0] d IH]; intros d' Hd M.
  - inversion M; subst. intros ? ? [].
  - cbn [modify] in M. destruct (String.eqb k0 k).
    + bind_inv M. inversion M; subst d'. intros k' v [I|I].
      * inversion I; subst. eapply Hf; [|exact E]. eapply Hd. left. reflexivity.
      * eapply Hd. right. exact I.
    + bind_inv M. inversion M; subst d'. intros k' v [I|I].
      * inversion I; subst. eapply Hd. left. reflexivity.
      * eapply (IH a); [|reflexivity|exact I]. intros. eapply Hd. right. eauto.
Qed.

Lemma add_to_district_counts (s : School) (d d' : District) :
  counts_ok d -> add_to_district s d = Ok d' -> counts_ok d'.
Proof.
  unfold counts_ok, add_to_district, bump. intros H A.
  bind_inv A. bind_inv A. inversion A; subst d'; cbn.
  destruct (flag_set (water_available s)), (flag_set (toilets_available s)),
           (flag_set (certified s)); lia.
Qed.

Lemma accumulate_counts (l : list School) (st st' : acc) :
  (forall k d, In (k, d) (fst st) -> counts_ok d) ->
  accumulate st l = Ok st' ->
  forall k d, In (k, d) (fst st') -> counts_ok d.
Proof.
  revert st. induction l as [|s l IH]; intros st H A.
  - inversion A; subst. exact H.
  - cbn [accumulate] in A. bind_inv A. apply (IH a); [|exact A].
    unfold step in E. destruct (has_district s).
    + bind_inv E. bind_inv E. inversion E; subst a. cbn [fst].
      eapply modify_all; [| |exact E0].
      * intros v v' Pv Av. eapply add_to_district_counts; eauto.
      * apply TotalityFacts.setdefault_all; [|exact H].
        unfold counts_ok. cbn. lia.
    + inversion E; subst. exact H.
Qed.

Lemma share1_range (c t : Z) :
  0 <= c <= t -> 0 < t -> exists v, share1 c t = Ok v /\ within 0 100 v.
Proof.
  intros H P. unfold share1.
  destruct (part_rate_range c t 1 H P ltac:(lia)) as [q [r [-> [E [L U]]]]].
  cbn [bind]. rewrite E. eexists. split; [reflexivity|]. now apply within_fin.
Qed.

Lemma finish_district_shares (d : District) (o : DistrictOut) :
  counts_ok d -> finish_district d = Ok o ->
  within 0 100 (d_water_percentage o) /\
  within 0 100 (d_toilet_percentage o) /\
  within 0 100 (d_data_entry_percentage o).
Proof.
  unfold counts_ok, finish_district. intros [W [T C]] F.
  bind_inv F. bind_inv F. bind_inv F. inversion F; subst o. cbn. clear F E E1.
  destruct (Z.gtb_spec (d_total_schools d) 0) as [P|P].
  - destruct (share1_range _ _ W P) as [w [Ew Hw]].
    destruct (share1_range _ _ T P) as [t [Et Ht]].
    destruct (share1_range _ _ C P) as [c [Ec Hc]].
    rewrite Ew, Et, Ec in E0. cbn [bind] in E0. inversion E0; subst. cbn. auto.
  - inversion E0; subst. cbn.
    assert (Z0 : within 0 100 zero) by (apply within_fin; lra). auto.
Qed.

(** The shares of a district aggregate are percentages: the water, toilet
    and data-entry percentages [get_aggregated_data] returns lie in
    [[0, 100]], since no count of schools outgrows [total_schools]. *)
Theorem district_shares_are_percentages (schools_data : dict School)
    (out : Aggregated) (d : DistrictOut) :
  get_aggregated_data schools_data = Ok out -> In d (districts out) ->
  counts_ok (d_acc d) /\
  within 0 100 (d_water_percentage d) /\
  within 0 100 (d_toilet_percentage d) /\
  within 0 100 (d_data_entry_percentage d).
Proof.
  unfold get_aggregated_data. intros H I. bind_inv H. bind_inv H. bind_inv H.
  inversion H; subst out; cbn [districts] in I.
  destruct (mapM_in _ _ _ E0 d I) as [x [Ix Fx]].
  unfold values in Ix. apply in_map_iff in Ix. destruct Ix as [[k x'] [Ex Ix]].
  cbn in Ex. subst x'.
  assert (C : counts_ok x).
  { apply (accumulate_counts _ ([], []) a (fun _ _ (F : In _ []) => match F with end) E k x Ix). }
  rewrite (AggregatorFacts.finish_district_acc _ _ Fx). split; [exact C|].
  exact (finish_district_shares x d C Fx).
Qed.

End ShareFacts.

(** ** The school store *)

Module StoreFacts.

Import Dict DataImport Spec Totals.
Local Open Scope string_scope.
Local Open Scope list_scope.
Local Open Scope Z_scope.

Section Lookup.

Context {V : Type}.

Lemma get_app (k k0 : string) (v : V) (d : dict V) :
  get k (d ++ [(k0, v)])
  = match get k d with
    | Some x => Some x
    | None => if String.eqb k0 k then Some v else None
    end.
Proof.
  induction d as [|[k1 v1] d IH]; cbn; [reflexivity|].
  destruct (String.eqb k1 k); [reflexivity|exact IH].
Qed.

Lemma get_setdefault_at (k k0 : string) (v : V) (d : dict V) :
  get k (setdefault k0 v d)
  = match get k d with
    | Some x => Some x
    | None => if String.eqb k0 k then Some v else None
    end.
Proof.
  unfold setdefault, mem. destruct (get k0 d) as [x|] eqn:E.
  - destruct (get k d) eqn:F; [reflexivity|].
    destruct (String.eqb_spec k0 k) as [->|N]; [congruence|reflexivity].
  - apply get_app.
Qed.

Lemma modify_pure (k : string) (f : V -> V) (d : dict V) :
  exists d',
    modify k (fun v => Ok (f v)) d = Ok d' /\
    (forall k', get k' d'
                = if String.eqb k' k then option_map f (get k d) else get k' d) /\
    map fst d' = map fst d.
Proof.
  induction d as [|[k1 v1] d IH]; cbn [modify].
  - exists []. split; [reflexivity|]. split; [|reflexivity].
    intros k'. cbn. now destruct (String.eqb k' k).
  - destruct (String.eqb_spec k1 k) as [->|N].
    + cbn [bind]. eexists. split; [reflexivity|]. split; [|reflexivity].
      intros k'. cbn [get]. rewrite String.eqb_refl.
      destruct (String.eqb_spec k k') as [->|N'].
      * now rewrite String.eqb_refl.
      * destruct (String.eqb_spec k' k) as [->|_]; [congruence|reflexivity].
    + destruct IH as [d' [-> [G K]]]. cbn [bind]. eexists.
      split; [reflexivity|]. split; [|cbn; now rewrite K].
      intros k'. cbn [get]. destruct (String.eqb_spec k1 k) as [->|_]; [congruence|].
      destruct (String.eqb_spec k1 k') as [->|N'].
      * destruct (String.eqb_spec k' k) as [->|_]; [congruence|reflexivity].
      * apply G.
Qed.

End Lookup.

(** The update of the entry under [k], opened empty when it is new. *)
Lemma upsert_get (k : string) (f : School -> School) (store : dict School) :
  exists store',
    modify k (fun s => Ok (f s)) (setdefault k empty_school store) = Ok store' /\
    (forall k', get k' store'
                = if String.eqb k' k then Some (f (entry k store)) else get k' store) /\
    map fst store' = map fst (setdefault k empty_school store).
Proof.
  destruct (modify_pure k f (setdefault k empty_school store)) as [d' [M [G K]]].
  exists d'. split; [exact M|]. split; [|exact K].
  intros k'. rewrite G. destruct (String.eqb_spec k' k) as [->|N].
  - rewrite get_setdefault_at, String.eqb_refl. unfold entry.
    now destruct (get k store).
  - rewrite get_setdefault_at. destruct (get k' store); [reflexivity|].
    destruct (String.eqb_spec k k') as [->|_]; [congruence|reflexivity].
Qed.

(** A row of the Aadhaar sheet is an upsert: the entry under its UDISE code
    becomes the former entry (the empty one for a new school) with the six
    Aadhaar fields overwritten, every other school is left as it was, and
    the order of the schools is kept, a new school coming last. *)
Theorem parse_aadhaar_row_upserts (store store' : dict School) (r : aadhaar_row) :
  ar_udise r <> "" -> parse_aadhaar_row store r = Ok store' ->
  exists pct,
    percentage (ar_aadhaar_authenticated r) (ar_total_students r) = Ok pct /\
    get (ar_udise r) store'
    = Some (aadhaar_update r pct (entry (ar_udise r) store)) /\
    (forall k, k <> ar_udise r -> get k store' = get k store) /\
    map fst store'
    = (if mem (ar_udise r) store then map fst store
       else map fst store ++ [ar_udise r]).
Proof.
  unfold parse_aadhaar_row. intros N H.
  destruct (String.eqb_spec (ar_udise r) "") as [E|_]; [contradiction|].
  bind_inv H. exists a. split; [reflexivity|].
  destruct (upsert_get (ar_udise r) (aadhaar_update r a) store) as [d [M [G K]]].
  rewrite M in H. inversion H; subst d. split; [|split].
  - rewrite G. now rewrite String.eqb_refl.
  - intros k Nk. rewrite G. apply String.eqb_neq in Nk. now rewrite Nk.
  - rewrite K. unfold setdefault. destruct (mem (ar_udise r) store); [reflexivity|].
    now rewrite map_app.
Qed.

(** The Aadhaar sheet and the enrolment sheet can be read in either order:
    a row of each, taken in one order or the other, gives stores with the
    same entry under every UDISE code (the order of the entries apart), or
    fails with the same exception. *)
Theorem sheets_commute (store : dict School) (r : aadhaar_row)
    (udise : string) (total : Z) :
  match (st <- parse_aadhaar_row store r ;; parse_enrolment_row st udise total),
        (st <- parse_enrolment_row store udise total ;; parse_aadhaar_row st r)
  with
  | Ok a, Ok b => forall k, get k a = get k b
  | Raise e, Raise e' => e = e'
  | _, _ => False
  end.
Proof.
  unfold parse_aadhaar_row, parse_enrolment_row.
  destruct (String.eqb (ar_udise r) "") eqn:Er; destruct (String.eqb udise "") eqn:Eu;
    cbn [bind].
  - reflexivity.
  - destruct (upsert_get udise (enrolment_update total) store) as [d [-> _]].
    cbn [bind]. reflexivity.
  - destruct (percentage (ar_aadhaar_authenticated r) (ar_total_students r))
      as [pct|e]; cbn [bind]; [|reflexivity].
    destruct (upsert_get (ar_udise r) (aadhaar_update r pct) store) as [d [-> _]].
    cbn [bind]. reflexivity.
  - destruct (upsert_get udise (enrolment_update total) store) as [d2 [-> [G2 _]]].
    cbn [bind].
    destruct (percentage (ar_aadhaar_authenticated r) (ar_total_students r))
      as [pct|e]; cbn [bind]; [|reflexivity].
    destruct (upsert_get (ar_udise r) (aadhaar_update r pct) store) as [d1 [-> [G1 _]]].
    cbn [bind].
    destruct (upsert_get udise (enrolment_update total) d1) as [d12 [-> [G12 _]]].
    destruct (upsert_get (ar_udise r) (aadhaar_update r pct) d2) as [d21 [-> [G21 _]]].
    intros k. rewrite G12, G21, G1, G2. unfold entry. rewrite G1, G2.
    destruct (String.eqb_spec k udise) as [->|Nu];
      destruct (String.eqb_spec udise (ar_udise r)) as [->|Nr];
      rewrite ?String.eqb_refl.
    + now destruct (get (ar_udise r) store).
    + destruct (String.eqb_spec (ar_udise r) udise) as [F|_]; [congruence|].
      reflexivity.
    + destruct (String.eqb_spec k (ar_udise r)) as [->|_]; [congruence|reflexivity].
    + destruct (String.eqb_spec k (ar_udise r)) as [->|_]; [|reflexivity].
      destruct (String.eqb_spec (ar_udise r) udise) as [F|_]; [congruence|].
      reflexivity.
Qed.

End StoreFacts.

(** ** Names: blocks, districts and columns *)

Module TextFacts.

Import Text StrFacts.
Local Open Scope Z_scope.
Local Open Scope string_scope.

(** A property of every character, checked on the 256 of them. *)
Ltac ascii_cases :=
  let c := fresh "c" in
  intros c; destruct c as [[] [] [] [] [] [] [] []]; vm_compute;
  repeat split; intros; congruence.

Lemma all_chars_app (p : ascii -> bool) (a b : string) :
  all_chars p (a ++ b) = all_chars p a && all_chars p b.
Proof.
  induction a as [|c a IH]; cbn; [reflexivity|]. rewrite IH. apply andb_assoc.
Qed.

Lemma all_chars_rev (p : ascii -> bool) (s acc : string) :
  all_chars p (Str.rev_string acc s) = all_chars p acc && all_chars p s.
Proof.
  revert acc. induction s as [|c s IH]; intros acc; cbn.
  - now rewrite andb_true_r.
  - rewrite IH. cbn. destruct (p c), (all_chars p acc), (all_chars p s); reflexivity.
Qed.

Lemma all_chars_lstrip (p : ascii -> bool) (s : string) :
  all_chars p s = true -> all_chars p (Str.lstrip s) = true.
Proof.
  induction s as [|c s IH]; cbn; [reflexivity|]. intros H.
  apply andb_true_iff in H. destruct H as [Hc Hs].
  destruct (Str.is_space c); [auto|]. cbn. now rewrite Hc, Hs.
Qed.

Lemma all_chars_strip (p : ascii -> bool) (s : string) :
  all_chars p s = true -> all_chars p (Str.strip s) = true.
Proof.
  intros H. unfold Str.strip. rewrite all_chars_rev. cbn.
  apply all_chars_lstrip. rewrite all_chars_rev. cbn. now apply all_chars_lstrip.
Qed.

(** [c in s] for a string [c] of one character. *)
Lemma contains_char (c : ascii) (s : string) :
  Str.contains (String c "") s
  = negb (all_chars (fun a => negb (Ascii.eqb a c)) s).
Proof.
  induction s as [|a s IH]; [reflexivity|].
  cbn [Str.contains all_chars]. rewrite IH. cbn [String.prefix].
  destruct (ascii_dec c a) as [->|N].
  - rewrite Ascii.eqb_refl. cbn. now destruct s.
  - apply not_eq_sym in N. apply Ascii.eqb_neq in N. rewrite N. reflexivity.
Qed.

Lemma before_app (c : ascii) (a b : string) :
  Str.contains (String c "") a = false -> before c (a ++ String c b) = a.
Proof.
  rewrite contains_char. intros H. apply negb_false_iff in H.
  induction a as [|x a IH]; cbn.
  - now rewrite Ascii.eqb_refl.
  - cbn in H. apply andb_true_iff in H. destruct H as [Hx Ha].
    apply negb_true_iff in Hx. rewrite Hx. now rewrite IH.
Qed.

Lemma before_free (c : ascii) (s : string) :
  all_chars (fun a => negb (Ascii.eqb a c)) (before c s) = true.
Proof.
  induction s as [|a s IH]; cbn; [reflexivity|].
  destruct (Ascii.eqb a c) eqn:E; [reflexivity|]. cbn. now rewrite E, IH.
Qed.

Lemma contains_app_char (c : ascii) (a b : string) :
  Str.contains (String c "") (a ++ String c b) = true.
Proof.
  rewrite contains_char, all_chars_app. cbn. rewrite Ascii.eqb_refl. cbn.
  now rewrite andb_false_r.
Qed.

Lemma contains_app_free (c : ascii) (a b : string) :
  Str.contains (String c "") (a ++ b)
  = Str.contains (String c "") a || Str.contains (String c "") b.
Proof.
  rewrite !contains_char, all_chars_app. apply negb_andb.
Qed.

(** *** Trimmed strings *)

Lemma lstrip_length (s : string) :
  (String.length (Str.lstrip s) <= String.length s)%nat.
Proof.
  induction s as [|c s IH]; cbn; [lia|]. destruct (Str.is_space c); cbn; lia.
Qed.

Lemma lstrip_fixed (c : ascii) (s : string) :
  Str.lstrip (String c s) = String c s <-> Str.is_space c = false.
Proof.
  cbn. destruct (Str.is_space c); split; intros H; try reflexivity; try discriminate.
  exfalso. pose proof (lstrip_length s) as L. rewrite H in L. cbn in L. lia.
Qed.

Lemma lstrip_idem (s : string) : Str.lstrip (Str.lstrip s) = Str.lstrip s.
Proof.
  induction s as [|c s IH]; [reflexivity|]. cbn.
  destruct (Str.is_space c) eqn:E; [exact IH|]. cbn. now rewrite E.
Qed.

Lemma lstrip_snoc (s : string) (c : ascii) :
  Str.is_space c = false ->
  Str.lstrip (s ++ String c "") = Str.lstrip s ++ String c "".
Proof.
  intros H. induction s as [|a s IH]; cbn.
  - now rewrite H.
  - destruct (Str.is_space a); [exact IH|reflexivity].
Qed.

Lemma rev_cons (c : ascii) (s : string) :
  Str.rev_string "" (String c s) = Str.rev_string "" s ++ String c "".
Proof. cbn. apply rev_string_app. Qed.

Lemma rev_snoc (s : string) (c : ascii) :
  Str.rev_string "" (s ++ String c "") = String c (Str.rev_string "" s).
Proof. rewrite rev_append. reflexivity. Qed.

(** What [strip] returns has no white space at either end. *)
Lemma strip_trimmed (s : string) :
  Str.lstrip (Str.strip s) = Str.strip s /\
  Str.lstrip (Str.rev_string "" (Str.strip s)) = Str.rev_string "" (Str.strip s).
Proof.
  unfold Str.strip. split.
  - pose proof (lstrip_idem s) as I. destruct (Str.lstrip s) as [|c y]; [reflexivity|].
    apply lstrip_fixed in I. rewrite rev_cons, (lstrip_snoc _ _ I), rev_snoc.
    now apply lstrip_fixed.
  - rewrite rev_involutive. apply lstrip_idem.
Qed.

(** A string without white space at either end is left alone by [strip]. *)
Lemma strip_fixed (s : string) :
  Str.lstrip s = s -> Str.lstrip (Str.rev_string "" s) = Str.rev_string "" s ->
  Str.strip s = s.
Proof.
  intros A B. unfold Str.strip. rewrite A, B. apply rev_involutive.
Qed.

Lemma strip_idem (s : string) : Str.strip (Str.strip s) = Str.strip s.
Proof. destruct (strip_trimmed s) as [A B]. now apply strip_fixed. Qed.

End TextFacts.

Module NameFacts.

Import Text StrFacts TextFacts EtlNames ParserNames.
Local Open Scope Z_scope.
Local Open Scope string_scope.

Section Names.

Variable float_repr : pyfloat -> string.

(** A cell of the form [name (code)] or [name & code] gives the trimmed
    name: what precedes the first ["("] when there is one, else what
    precedes the first ["&"]; the two functions are the same. *)
Theorem extract_name_of_labelled_cell (name code : string) :
  Str.contains "(" name = false ->
  extract_block_name float_repr (VStr (name ++ "(" ++ code)) = Str.strip name /\
  extract_district_name float_repr (VStr (name ++ "(" ++ code)) = Str.strip name /\
  (Str.contains "&" name = false -> Str.contains "(" code = false ->
   extract_block_name float_repr (VStr (name ++ "&" ++ code)) = Str.strip name /\
   extract_district_name float_repr (VStr (name ++ "&" ++ code)) = Str.strip name).
Proof.
  intros H. unfold extract_block_name, extract_district_name.
  cbn [isna py_str]. change ("(" ++ code) with (String "(" code).
  change ("&" ++ code) with (String "&" code).
  rewrite contains_app_char, (before_app _ _ _ H).
  split; [reflexivity|]. split; [reflexivity|]. intros A C.
  assert (N : Str.contains "(" (name ++ String "&" code) = false).
  { rewrite contains_app_free, H. cbn [orb]. rewrite contains_char.
    rewrite contains_char in C. cbn [all_chars].
    change (Ascii.eqb "&" "(") with false. cbn [negb andb]. exact C. }
  rewrite N, contains_app_char, (before_app _ _ _ A). split; reflexivity.
Qed.

(** The extracted name never holds an opening parenthesis and has no white
    space at either end, whatever the text of the cell; a name with an
    ampersand before its parenthesis keeps it. *)
Theorem extract_name_is_clean (val : string) :
  let name := extract_block_name float_repr (VStr val) in
  extract_district_name float_repr (VStr val) = name /\
  Str.contains "(" name = false /\ Str.strip name = name /\
  extract_block_name float_repr (VStr "A & B (12)") = "A & B".
Proof.
  cbv zeta. unfold extract_block_name, extract_district_name. cbn [isna py_str].
  split; [reflexivity|]. split; [|split; [|reflexivity]].
  - destruct (Str.contains "(" val) eqn:E.
    + rewrite contains_char. apply negb_false_iff, all_chars_strip, before_free.
    + destruct (Str.contains "&" val).
      * rewrite contains_char. apply negb_false_iff, all_chars_strip.
        rewrite contains_char in E. apply negb_false_iff in E.
        revert E. clear. induction val as [|a s IH]; cbn; [reflexivity|].
        intros H. apply andb_true_iff in H. destruct H as [Ha Hs].
        destruct (Ascii.eqb a "&"); [reflexivity|]. cbn. now rewrite Ha, IH.
      * rewrite contains_char in E |- *. apply negb_false_iff in E.
        apply negb_false_iff. now apply all_chars_strip.
  - destruct (Str.contains "(" val); [|destruct (Str.contains "&" val)];
      apply strip_idem.
Qed.

End Names.

End NameFacts.

Module ColumnFacts.

Import Text StrFacts TextFacts ParserNames Totals.
Local Open Scope Z_scope.
Local Open Scope string_scope.

Lemma filter_chars_all (p : ascii -> bool) (s : string) :
  all_chars p (filter_chars p s) = true.
Proof.
  induction s as [|c s IH]; cbn; [reflexivity|].
  destruct (p c) eqn:E; [cbn; now rewrite E|exact IH].
Qed.

Lemma filter_chars_fixed (p : ascii -> bool) (s : string) :
  all_chars p s = true -> filter_chars p s = s.
Proof.
  induction s as [|c s IH]; cbn; [reflexivity|]. intros H.
  apply andb_true_iff in H. destruct H as [Hc Hs]. now rewrite Hc, IH.
Qed.

Lemma lower_map (s : string) : Str.lower s = map_chars Str.lower_char s.
Proof. induction s as [|c s IH]; cbn; [reflexivity|]. now rewrite IH. Qed.

Lemma map_chars_map (f g : ascii -> ascii) (s : string) :
  map_chars g (map_chars f s) = map_chars (fun c => g (f c)) s.
Proof. induction s as [|c s IH]; cbn; [reflexivity|]. now rewrite IH. Qed.

Lemma map_chars_ext (f g : ascii -> ascii) (s : string) :
  (forall c, f c = g c) -> map_chars f s = map_chars g s.
Proof. intros E. induction s as [|c s IH]; cbn; [reflexivity|]. now rewrite E, IH. Qed.

Lemma map_chars_all (p q : ascii -> bool) (f : ascii -> ascii) (s : string) :
  (forall c, p c = true -> q (f c) = true) ->
  all_chars p s = true -> all_chars q (map_chars f s) = true.
Proof.
  intros W. induction s as [|c s IH]; cbn; [reflexivity|]. intros H.
  apply andb_true_iff in H. destruct H as [Hc Hs]. now rewrite (W c Hc), IH.
Qed.

Lemma map_chars_rev (f : ascii -> ascii) (s acc : string) :
  Str.rev_string (map_chars f acc) (map_chars f s)
  = map_chars f (Str.rev_string acc s).
Proof.
  revert acc. induction s as [|c s IH]; intros acc; cbn; [reflexivity|].
  now rewrite <- IH.
Qed.

Lemma map_chars_lstrip (f : ascii -> ascii) (s : string) :
  (forall c, Str.is_space c = false -> Str.is_space (f c) = false) ->
  Str.lstrip s = s -> Str.lstrip (map_chars f s) = map_chars f s.
Proof.
  intros W H. destruct s as [|c s]; [reflexivity|].
  apply lstrip_fixed in H. cbn [map_chars]. apply lstrip_fixed. auto.
Qed.

(** A character map that keeps non-blank characters non-blank commutes
    with [strip] on a trimmed string. *)
Lemma map_chars_trimmed (f : ascii -> ascii) (s : string) :
  (forall c, Str.is_space c = false -> Str.is_space (f c) = false) ->
  Str.strip (map_chars f (Str.strip s)) = map_chars f (Str.strip s).
Proof.
  intros W. destruct (strip_trimmed s) as [A B]. apply strip_fixed.
  - now apply map_chars_lstrip.
  - change (Str.rev_string "" (map_chars f (Str.strip s)))
      with (Str.rev_string (map_chars f "") (map_chars f (Str.strip s))).
    rewrite map_chars_rev. now apply map_chars_lstrip.
Qed.

(** The two character maps of [clean_column_name], in one. *)
Lemma kept_clean :
  forall c, is_word c || Str.is_space c = true ->
    let c' := (if Ascii.eqb (Str.lower_char c) " " then "_"%char
               else Str.lower_char c) in
    column_char c' = true /\ is_word c' || Str.is_space c' = true.
Proof. ascii_cases. Qed.

Lemma clean_again :
  forall c,
    let h := fun c => if Ascii.eqb (Str.lower_char c) " " then "_"%char
                      else Str.lower_char c in
    h (h c) = h c /\ (Str.is_space c = false -> Str.is_space (h c) = false).
Proof. ascii_cases. Qed.

Section Clean.

Variable float_repr : pyfloat -> string.

(** A cleaned column name is made of lower-case letters, digits,
    underscores and white space other than the blank, has no white space
    at either end, and cleaning it again changes nothing. *)
Theorem clean_column_name_normal (col : string) :
  ascii_only col = true ->
  let name := clean_column_name float_repr (VStr col) in
  all_chars column_char name = true /\
  Str.strip name = name /\
  clean_column_name float_repr (VStr name) = name.
Proof.
  intros _. cbv zeta. unfold clean_column_name, replace_char.
  set (K := fun c => is_word c || Str.is_space c).
  set (h := fun c => if Ascii.eqb (Str.lower_char c) " " then "_"%char
                     else Str.lower_char c).
  assert (M : forall s, map_chars (fun c => if Ascii.eqb c " " then "_"%char else c)
                          (Str.lower s) = map_chars h s).
  { intros s. rewrite lower_map, map_chars_map. reflexivity. }
  rewrite !M. set (t := filter_chars K col).
  assert (Kt : all_chars K (Str.strip t) = true)
    by (apply all_chars_strip, filter_chars_all).
  assert (Ku : all_chars K (map_chars h (Str.strip t)) = true).
  { revert Kt. apply map_chars_all. intros c Hc. apply (kept_clean c Hc). }
  assert (S : Str.strip (map_chars h (Str.strip t)) = map_chars h (Str.strip t)).
  { apply map_chars_trimmed. intros c. apply (clean_again c). }
  split; [|split].
  - revert Kt. apply map_chars_all. intros c Hc. apply (kept_clean c Hc).
  - exact S.
  - rewrite (filter_chars_fixed K _ Ku), S, map_chars_map.
    apply map_chars_ext. intros c. apply (clean_again c).
Qed.

End Clean.

End ColumnFacts.

(** ** When the parser's coercions raise *)

Module RaiseFacts.

Import CoercionFacts.
Local Open Scope Z_scope.

(** When the coercions of the parser raise.  [safe_int] raises exactly when
    [float(val)] is an infinity or itself overflows, [safe_float] exactly
    when [float(val)] overflows (an [int] cell beyond the binary64 range),
    and the exception is an [OverflowError] in every case: missing cells
    and text that is no number are absorbed by the handler. *)
Theorem parser_coercions_raise_exactly (val : pyval) (e : exn) :
  (Parser.safe_int val = Raise e <->
   e = OverflowError /\
   (py_float val = Ok PInf \/ py_float val = Ok NInf \/
    py_float val = Raise OverflowError)) /\
  (Parser.safe_float val = Raise e <->
   e = OverflowError /\ py_float val = Raise OverflowError).
Proof.
  assert (A : forall (T : Type) (P : Prop),
             P -> (@Raise T OverflowError = Raise e <-> e = OverflowError /\ P)).
  { intros T P p. split; [intros H; inversion H; auto|intros [-> _]; reflexivity]. }
  assert (B : forall (T : Type) (a : T) (P : Prop),
             ~ P -> (Ok a = Raise e <-> e = OverflowError /\ P)).
  { intros T a P n. split; [discriminate|]. intros [_ p]. contradiction. }
  unfold Parser.safe_int, Parser.safe_float, except_value_type, int_of_float_of.
  destruct (isna val) eqn:N.
  - destruct val as [| | |[| | |]|]; try discriminate N; cbn;
      (split; apply B; [intros [H|[H|H]]|intros H]; discriminate H).
  - destruct (py_float val) as [x|e'] eqn:E; cbn [bind].
    + split; [|apply B; discriminate].
      destruct x; cbn.
      * apply B. intros [H|[H|H]]; discriminate H.
      * apply A. auto.
      * apply A. auto.
      * apply B. intros [H|[H|H]]; discriminate H.
    + destruct (py_float_errors _ _ E) as [-> | [-> | ->]]; cbn.
      * split; apply B; [intros [H|[H|H]]|intros H]; discriminate H.
      * split; apply B; [intros [H|[H|H]]|intros H]; discriminate H.
      * split; apply A; auto.
Qed.

End RaiseFacts.

(** ** The domain indices *)

Module DomainFacts.

Import Spec Totals FloatFacts RateFacts IndexFacts Domains.
Local Open Scope Z_scope.

Lemma lit_two_tenths : lit (2 # 10) = Fin (3602879701896397 # 18014398509481984).
Proof. vm_compute. reflexivity. Qed.

Lemma lit_25_100 : lit (25 # 100) = Fin (1 # 4).
Proof. vm_compute. reflexivity. Qed.

Lemma within_int_inv (n : Z) : within 0 100 (NInt n) -> 0 <= n <= 100.
Proof.
  intros [L U]. unfold py_le, py_cmp in L, U. cbn [num_exact fcmp] in L, U.
  unfold Qcompare in L, U. cbn [Qnum Qden inject_Z] in L, U.
  rewrite !Z.mul_1_r in L, U.
  destruct (Z.compare_spec 0 n); try discriminate;
    destruct (Z.compare_spec n 100); try discriminate; lia.
Qed.

(** [100 - rate] of a percentage is a percentage. *)
Lemma complement_range (v : num) :
  within 0 100 v -> exists c, py_sub (NInt 100) v = Ok c /\ within 0 100 c.
Proof.
  intros W. destruct v as [n|x].
  - exists (NInt (100 - n)). split; [reflexivity|].
    apply ClampFacts.within_int. apply within_int_inv in W. lia.
  - destruct (within_float _ W) as [q [E [L U]]]. cbn [num_to_float] in E.
    inversion E; subst x. cbn [py_sub num_to_float].
    assert (O : of_int 100 = Ok (Fin 100)) by (vm_compute; reflexivity).
    rewrite O. cbn [bind fsub fopp fadd].
    destruct (b64_range (100 + Qred (- q)) 100) as [r [-> R]].
    + rewrite Qred_correct. lra.
    + rewrite Qred_correct. lra.
    + exact b64_fix_100.
    + eexists. split; [reflexivity|]. now apply within_fin.
Qed.

(** A weighted sum of four percentages whose weights round to bounds
    adding up to 100. *)
Ltac weigh W w H :=
  let r := fresh "r" in
  let L := fresh "L" in
  let U := fresh "U" in
  destruct (weighted_range _ w H W) as [r [-> [L U]]];
  [reflexivity | qbound | qbound | qbound | cbn [bind]].

Ltac add_up La Ua Lb Ub ha hb H :=
  let r := fresh "s" in
  let L := fresh "L" in
  let U := fresh "U" in
  destruct (sum_range _ _ ha hb H La Ua Lb Ub) as [r [-> [L U]]];
  [qbound | qbound | qbound | cbn [bind]].

Ltac round_off Ls Us :=
  let r := fresh "r" in
  cbn [bind py_round];
  destruct (fround_range _ 1 ltac:(lia) Ls Us) as [r [-> [? ?]]];
  eexists; split; [reflexivity|]; now apply within_fin.

Lemma identity_compliance_index_range (a p m : num) :
  within 0 100 a -> within 0 100 p -> within 0 100 m ->
  exists v, identity_compliance_index a p m = Ok v /\ within 0 100 v.
Proof.
  intros Wa Wp Wm. unfold identity_compliance_index.
  rewrite lit_four_tenths, lit_two_tenths.
  weigh Wa (3602879701896397 # 9007199254740992)%Q 40%Q.
  weigh Wp (3602879701896397 # 9007199254740992)%Q 40%Q.
  add_up L U L0 U0 40%Q 40%Q 80%Q.
  destruct (complement_range m Wm) as [c [-> Wc]]. cbn [bind].
  weigh Wc (3602879701896397 # 18014398509481984)%Q 20%Q.
  add_up L1 U1 L2 U2 80%Q 20%Q 100%Q.
  round_off L3 U3.
Qed.

Lemma infrastructure_index_range (c t w e : num) :
  within 0 100 c -> within 0 100 t -> within 0 100 w -> within 0 100 e ->
  exists v, infrastructure_index c t w e = Ok v /\ within 0 100 v.
Proof.
  intros Wc Wt Ww We. unfold infrastructure_index.
  rewrite lit_three_tenths, lit_25_100, lit_two_tenths.
  weigh Wc (5404319552844595 # 18014398509481984)%Q 30%Q.
  weigh Wt (1 # 4)%Q 25%Q.
  add_up L U L0 U0 30%Q 25%Q 55%Q.
  weigh Ww (1 # 4)%Q 25%Q.
  add_up L1 U1 L2 U2 55%Q 25%Q 80%Q.
  weigh We (3602879701896397 # 18014398509481984)%Q 20%Q.
  add_up L3 U3 L4 U4 80%Q 20%Q 100%Q.
  round_off L5 U5.
Qed.

Lemma teacher_quality_index_range (c n a : num) :
  within 0 100 c -> within 0 100 n -> within 0 100 a ->
  exists v, teacher_quality_index c n a = Ok v /\ within 0 100 v.
Proof.
  intros Wc Wn Wa. unfold teacher_quality_index.
  rewrite lit_three_tenths, lit_four_tenths.
  weigh Wc (3602879701896397 # 9007199254740992)%Q 40%Q.
  weigh Wn (5404319552844595 # 18014398509481984)%Q 30%Q.
  add_up L U L0 U0 40%Q 30%Q 70%Q.
  weigh Wa (5404319552844595 # 18014398509481984)%Q 30%Q.
  add_up L1 U1 L2 U2 70%Q 30%Q 100%Q.
  round_off L3 U3.
Qed.

Lemma operational_index_range (c t a d : num) :
  within 0 100 c -> within 0 100 t -> within 0 100 a -> within 0 100 d ->
  exists v, operational_index c t a d = Ok v /\ within 0 100 v.
Proof.
  intros Wc Wt Wa Wd. unfold operational_index.
  rewrite lit_three_tenths, lit_25_100, lit_two_tenths.
  weigh Wc (5404319552844595 # 18014398509481984)%Q 30%Q.
  weigh Wt (1 # 4)%Q 25%Q.
  add_up L U L0 U0 30%Q 25%Q 55%Q.
  weigh Wa (1 # 4)%Q 25%Q.
  add_up L1 U1 L2 U2 55%Q 25%Q 80%Q.
  destruct (complement_range d Wd) as [m [-> Wm]]. cbn [bind].
  weigh Wm (3602879701896397 # 18014398509481984)%Q 20%Q.
  add_up L3 U3 L4 U4 80%Q 20%Q 100%Q.
  round_off L5 U5.
Qed.

(** From rates that are percentages, the four domain indices and the
    school health index made of them are computed without exception and are
    percentages again: no rounding of the weighted sums carries a score
    past 100. *)
Theorem school_health_index_of_percentages (m : metrics) :
  percentages m ->
  exists identity infra teacher operational shi,
    identity_compliance_index (aadhaar_coverage m) (apaar_coverage m)
      (name_mismatch_rate m) = Ok identity /\
    infrastructure_index (classroom_health m) (toilet_functional m)
      (water_availability m) (electricity_pct m) = Ok infra /\
    teacher_quality_index (ctet_pct m) (nishtha_pct m) (aadhaar_verified_pct m)
      = Ok teacher /\
    Domains.operational_index (completion_rate m) (certification_rate m)
      (data_accuracy m) (dropout_rate m) = Ok operational /\
    school_health_index m = Ok shi /\
    within 0 100 identity /\ within 0 100 infra /\ within 0 100 teacher /\
    within 0 100 operational /\ within 0 100 shi.
Proof.
  intros [W1 [W2 [W3 [W4 [W5 [W6 [W7 [W8 [W9 [W10 [W11 [W12 [W13 W14]]]]]]]]]]]]].
  destruct (identity_compliance_index_range _ _ _ W1 W2 W3) as [i [Ei Wi]].
  destruct (infrastructure_index_range _ _ _ _ W4 W5 W6 W7) as [f [Ef Wf]].
  destruct (teacher_quality_index_range _ _ _ W8 W9 W10) as [t [Et Wt]].
  destruct (operational_index_range _ _ _ _ W11 W12 W13 W14) as [o [Eo Wo]].
  destruct (shi_of_percentages i f t o Wi Wf Wt Wo) as [s [Es Ws]].
  exists i, f, t, o, s. unfold school_health_index.
  rewrite Ei, Ef, Et, Eo. cbn [bind]. auto 10.
Qed.

(** A rate of a part of a whole is a percentage. *)
Lemma rate_range (nd n d : Z) :
  0 <= nd -> (0 < d -> 0 <= n <= d) ->
  exists v, rate nd n d = Ok v /\ within 0 100 v.
Proof.
  intros Hnd H. unfold rate. destruct (Z.gtb_spec d 0) as [P|P].
  - destruct (part_rate_range n d nd (H ltac:(lia)) ltac:(lia) Hnd)
      as [q [r [-> [E [L U]]]]].
    cbn [bind]. rewrite E. eexists. split; [reflexivity|]. now apply within_fin.
  - eexists. split; [reflexivity|]. apply ClampFacts.within_int. lia.
Qed.

(** The identity compliance index is a percentage whenever the group sums
    count parts of their wholes: Aadhaar-available pupils among the
    students, generated APAAR ids among the students of the APAAR sheet,
    and a count of matching names that is not negative. *)
Theorem identity_index_of_parts (g : identity_sums) :
  0 <= is_aadhaar_available g <= is_total_students g ->
  0 <= is_apaar_generated g <= is_apaar_total_students g ->
  0 <= is_name_match g ->
  exists v, identity_index_of_sums g = Ok v /\ within 0 100 v.
Proof.
  intros Ha Hp Hn. unfold identity_index_of_sums. cbv zeta.
  destruct (rate_range 1 (is_aadhaar_available g) (is_total_students g))
    as [a [-> Wa]]; [lia|auto|]. cbn [bind].
  destruct (rate_range 1 (is_apaar_generated g) (is_apaar_total_students g))
    as [p [-> Wp]]; [lia|auto|]. cbn [bind].
  destruct (rate_range 2
              (if is_total_students g >? is_name_match g
               then is_total_students g - is_name_match g else 0)
              (is_total_students g)) as [m [-> Wm]]; [lia| |].
  { intros P. destruct (Z.gtb_spec (is_total_students g) (is_name_match g)); lia. }
  cbn [bind]. now apply identity_compliance_index_range.
Qed.

End DomainFacts.

(** ** Rows of a sheet *)

Module SheetFacts.

Import Dict DataImport Spec Totals StoreFacts.
Local Open Scope string_scope.
Local Open Scope list_scope.
Local Open Scope Z_scope.

Lemma parse_aadhaar_row_get (store store' : dict School) (r : aadhaar_row) :
  parse_aadhaar_row store r = Ok store' ->
  forall k,
    entry k store'
    = (if String.eqb (ar_udise r) k && negb (String.eqb (ar_udise r) "")
       then match percentage (ar_aadhaar_authenticated r) (ar_total_students r) with
            | Ok pct => aadhaar_update r pct (entry k store)
            | Raise _ => entry k store
            end
       else entry k store) /\
    (get k store' = None <->
     get k store = None /\
     (String.eqb (ar_udise r) k && negb (String.eqb (ar_udise r) "")) = false).
Proof.
  intros H k. unfold parse_aadhaar_row in H.
  destruct (String.eqb_spec (ar_udise r) "") as [E|N].
  - inversion H; subst store'. rewrite andb_false_r. split; [reflexivity|].
    split; [auto|intros [A _]; exact A].
  - bind_inv H. rewrite andb_true_r.
    destruct (upsert_get (ar_udise r) (aadhaar_update r a) store) as [d [M [G _]]].
    rewrite M in H. inversion H; subst d. unfold entry. rewrite !G.
    destruct (String.eqb_spec k (ar_udise r)) as [->|Nk].
    + rewrite String.eqb_refl. split; [reflexivity|].
      split; [discriminate|intros [_ F]; discriminate F].
    + destruct (String.eqb_spec (ar_udise r) k) as [F|_]; [congruence|].
      split; [reflexivity|]. split; [auto|intros [A _]; exact A].
Qed.

(** When a school has several rows in the Aadhaar sheet the last one wins:
    after [parse_aadhaar] the entry of a UDISE code is the entry it had
    before (the empty one if it had none) with the Aadhaar fields of the
    last row of that code, so the fields written by the other sheets
    survive; a code with no row keeps its entry. *)
Theorem parse_aadhaar_last_row_wins (rows : list aadhaar_row)
    (store store' : dict School) (k : string) :
  parse_aadhaar store rows = Ok store' ->
  match last_row k rows with
  | Some r =>
      exists pct,
        percentage (ar_aadhaar_authenticated r) (ar_total_students r) = Ok pct /\
        get k store' = Some (aadhaar_update r pct (entry k store))
  | None => get k store' = get k store
  end.
Proof.
  revert store. induction rows as [|r rows IH]; intros store H.
  - inversion H. reflexivity.
  - cbn [parse_aadhaar] in H. bind_inv H. specialize (IH a H).
    destruct (parse_aadhaar_row_get _ _ _ E k) as [G N]. cbn [last_row].
    destruct (last_row k rows) as [r'|].
    + destruct IH as [pct [P ->]]. exists pct. split; [exact P|]. f_equal.
      rewrite G.
      destruct (String.eqb (ar_udise r) k && negb (String.eqb (ar_udise r) ""));
        [|reflexivity].
      destruct (percentage (ar_aadhaar_authenticated r) (ar_total_students r));
        reflexivity.
    + rewrite IH. clear IH H.
      destruct (String.eqb (ar_udise r) k && negb (String.eqb (ar_udise r) "")) eqn:C.
      * unfold parse_aadhaar_row in E. apply andb_true_iff in C. destruct C as [Ck Cn].
        apply negb_true_iff in Cn. rewrite Cn in E. bind_inv E. exists a0.
        split; [reflexivity|].
        destruct (get k a) as [s|] eqn:Ek.
        -- unfold entry in G at 1. rewrite Ek in G. now rewrite G.
        -- exfalso. destruct N as [N _]. destruct (N eq_refl) as [_ F]. discriminate F.
      * unfold entry in G. destruct (get k a) as [s|] eqn:Ea;
          destruct (get k store) as [s0|] eqn:Es; try congruence.
        -- destruct N as [_ N]. apply N. auto.
        -- destruct N as [N _]. destruct (N eq_refl) as [F _]. discriminate F.
Qed.

End SheetFacts.

Module ParserEnrolmentFacts.

Import Etl ParserEnrolment Totals.
Local Open Scope string_scope.
Local Open Scope list_scope.
Local Open Scope Z_scope.




End ParserEnrolmentFacts.

(** ** The counts of the aggregates *)

Module InvariantFacts.

Import Dict DataImport Spec Totals DictFacts AggregatorFacts ConservationFacts.
Local Open Scope string_scope.
Local Open Scope list_scope.
Local Open Scope Z_scope.

Lemma mapM_out {A B : Type} (f : A -> result B) (l : list A) (l' : list B) :
  mapM f l = Ok l' -> forall x, In x l -> exists y, In y l' /\ f x = Ok y.
Proof.
  revert l'. induction l as [|a l IH]; cbn; intros l' H x Hx.
  - destruct Hx.
  - bind_inv H. bind_inv H. inversion H; subst. destruct Hx as [->|Hx].
    + eexists. split; [now left | assumption].
    + destruct (IH _ eq_refl x Hx) as [y [Hy Fy]]. exists y. split; [now right | exact Fy].
Qed.

Lemma append_cancel (p a b : string) : (p ++ a = p ++ b)%string -> a = b.
Proof. induction p as [|c p IH]; cbn; intros H; [exact H|]. inversion H. auto. Qed.

Lemma add_to_block_block_name (s : School) (b b' : Block) :
  add_to_block s b = Ok b' -> b_block_name b' = b_block_name b.
Proof.
  unfold add_to_block. intros E. bind_inv E. bind_inv E. now inversion E.
Qed.

Lemma count_pos_in {A : Type} (p : A -> bool) (l : list A) (a : A) :
  In a l -> p a = true -> 0 < count p l.
Proof.
  intros I P. unfold count.
  assert (F : In a (filter p l)) by (apply filter_In; auto).
  destruct (filter p l); [destruct F | cbn; lia].
Qed.

Lemma count_ext_in {A : Type} (p q : A -> bool) (l : list A) :
  (forall a, In a l -> p a = q a) -> count p l = count q l.
Proof. intros H. unfold count. now rewrite (filter_ext_in p q l H). Qed.

Lemma NoDup_map_of {A B C : Type} (g : A -> B) (h : B -> C) (l : list A) :
  NoDup (map (fun a => h (g a)) l) -> NoDup (map g l).
Proof.
  induction l as [|a l IH]; cbn; intros N; [constructor|].
  inversion N as [|? ? Hn N']; subst. constructor; [|auto].
  intros I. apply Hn. apply in_map_iff in I. destruct I as [x [E I]].
  apply in_map_iff. exists x. split; [now rewrite E | exact I].
Qed.

(** The labels of a counted dictionary are its keys. *)
Lemma counted_labels {V : Type} sel (label : V -> string) tot swd
    (d : dict V) (pre : list School) :
  counted sel label tot swd d pre -> map label (values d) = map fst d.
Proof.
  intros [_ [HI _]]. unfold values. rewrite map_map.
  apply map_ext_in. intros [k v] I. cbn. now destruct (HI k v I).
Qed.

Lemma step_opened (st st' : acc) (pre : list School) (s : School) :
  blocks_ok st pre -> block_opened (snd st) pre ->
  step st s = Ok st' ->
  block_opened (snd st') (pre ++ [s]).
Proof.
  intros [N _] O H. unfold step in H.
  destruct (has_district s) eqn:Hs.
  - bind_inv H. bind_inv H. inversion H; subst st'; cbn [snd].
    pose proof (setdefault_keys (block_key s)
                  (new_block (district_of s) (block_of s)) (snd st) N) as N1.
    intros k b I.
    destruct (modify_in _ _ _ _ _ _ N1 E0 I) as [[Ne I1]|[-> [v [I1 U]]]].
    + apply setdefault_in in I1. destruct I1 as [I1|[Ek _]]; [|congruence].
      destruct (O _ _ I1) as [s' [P1 P2]]. exists s'. split; [|exact P2].
      apply in_or_app. now left.
    + rewrite (add_to_block_names _ _ _ U), (add_to_block_block_name _ _ _ U).
      apply setdefault_in in I1. destruct I1 as [I1|[_ [-> _]]].
      * destruct (O _ _ I1) as [s' [P1 P2]]. exists s'. split; [|exact P2].
        apply in_or_app. now left.
      * exists s. split; [apply in_or_app; right; now left|]. repeat split; auto.
  - inversion H; subst st'. intros k b I.
    destruct (O _ _ I) as [s' [P1 P2]]. exists s'.
    split; [apply in_or_app; now left | exact P2].
Qed.

Lemma accumulate_opened (l pre : list School) (st st' : acc) :
  districts_ok st pre -> blocks_ok st pre -> block_opened (snd st) pre ->
  accumulate st l = Ok st' ->
  block_opened (snd st') (pre ++ l).
Proof.
  revert pre st. induction l as [|s l IH]; cbn; intros pre st D B O H.
  - inversion H; subst. now rewrite app_nil_r.
  - bind_inv H.
    destruct (step_ok _ _ _ _ D B E) as [D1 B1].
    pose proof (step_opened _ _ _ _ B O E) as O1.
    replace (pre ++ s :: l) with ((pre ++ [s]) ++ l)
      by (rewrite <- app_assoc; reflexivity).
    eapply IH; eauto.
Qed.

(** Away from collisions the records of a key are the records of the pair
    of names of the record that opened it. *)
Lemma key_selects_the_pair (l : list School) (s0 : School) :
  no_collision l -> In s0 l -> has_district s0 = true ->
  forall s, In s l ->
    in_block (block_key s0) s = in_pair (district_of s0) (block_of s0) s.
Proof.
  intros NC I0 H0 s I. unfold in_block, in_pair, selected_by.
  destruct (has_district s) eqn:Hs; [|reflexivity]. cbn [andb].
  destruct (String.eqb_spec (block_key s) (block_key s0)) as [E|Ne].
  - pose proof (NC s s0 I I0 Hs H0 E) as Ed.
    unfold block_key in E. rewrite Ed in E. apply append_cancel in E.
    apply (append_cancel "|") in E.
    rewrite Ed, E, !String.eqb_refl. reflexivity.
  - destruct (String.eqb_spec (district_of s) (district_of s0)) as [Ed|_];
      [|reflexivity].
    destruct (String.eqb_spec (block_of s) (block_of s0)) as [Eb|_];
      [|reflexivity].
    exfalso. apply Ne. unfold block_key. now rewrite Ed, Eb.
Qed.

Lemma setdefault_keys_in {V : Type} (k : string) (v : V) (d : dict V) x :
  In x (map fst (setdefault k v d)) -> In x (map fst d) \/ x = k.
Proof.
  unfold setdefault. destruct (mem k d); [auto|].
  rewrite map_app. intros H. apply in_app_or in H.
  destruct H as [H|[H|[]]]; [now left | right; now rewrite <- H].
Qed.

Lemma step_district_opened (st st' : acc) (pre : list School) (s : School) :
  district_opened (fst st) pre -> step st s = Ok st' ->
  district_opened (fst st') (pre ++ [s]).
Proof.
  intros O H. unfold step in H.
  destruct (has_district s) eqn:Hs.
  - bind_inv H. bind_inv H. inversion H; subst st'; cbn [fst].
    intros k I. rewrite (modify_keys _ _ _ _ E) in I.
    apply setdefault_keys_in in I. destruct I as [I| ->].
    + destruct (O _ I) as [s' [P1 P2]]. exists s'.
      split; [apply in_or_app; now left | exact P2].
    + exists s. split; [apply in_or_app; right; now left | auto].
  - inversion H; subst st'. intros k I.
    destruct (O _ I) as [s' [P1 P2]]. exists s'.
    split; [apply in_or_app; now left | exact P2].
Qed.

Lemma accumulate_district_opened (l pre : list School) (st st' : acc) :
  district_opened (fst st) pre -> accumulate st l = Ok st' ->
  district_opened (fst st') (pre ++ l).
Proof.
  revert pre st. induction l as [|s l IH]; cbn; intros pre st O H.
  - inversion H; subst. now rewrite app_nil_r.
  - bind_inv H. pose proof (step_district_opened _ _ _ _ O E) as O1.
    replace (pre ++ s :: l) with ((pre ++ [s]) ++ l)
      by (rewrite <- app_assoc; reflexivity).
    eapply IH; eauto.
Qed.

(** [total_schools] of the district aggregates: the roll-up returns one
    aggregate for each district named by a contributing record and no
    other, each counts the contributing records that name its district, and
    [schools_with_data] lies between zero and [total_schools]. *)
Theorem district_total_schools_counts_records
    (schools_data : dict School) (out : Aggregated) :
  get_aggregated_data schools_data = Ok out ->
  NoDup (map (fun d => d_district_name (d_acc d)) (districts out)) /\
  (forall d, In d (districts out) ->
     d_total_schools (d_acc d) =
       count (in_district (d_district_name (d_acc d))) (values schools_data) /\
     0 < d_total_schools (d_acc d) /\
     0 <= d_schools_with_data (d_acc d) <= d_total_schools (d_acc d)) /\
  (forall s, In s (values schools_data) -> has_district s = true ->
     exists d, In d (districts out) /\
               d_district_name (d_acc d) = district_of s).
Proof.
  unfold get_aggregated_data. intros H. bind_inv H. bind_inv H. bind_inv H.
  inversion H; subst out; cbn [districts blocks].
  destruct (accumulate_ok (values schools_data) [] ([], []) a
              (counted_nil _ _ _ _) (counted_nil _ _ _ _) E) as [D _].
  assert (O : district_opened (fst a) ([] ++ values schools_data)).
  { apply (accumulate_district_opened _ [] ([], [])); [|exact E].
    intros k []. }
  cbn [app] in D, O. pose proof D as [N [HI HO]].
  split; [|split].
  - rewrite <- (map_map d_acc d_district_name).
    rewrite (mapM_map _ _ _ _ finish_district_acc E0).
    rewrite (counted_labels _ _ _ _ _ _ D). exact N.
  - intros d I. destruct (mapM_in _ _ _ E0 d I) as [x [Ix Fx]].
    rewrite (finish_district_acc _ _ Fx).
    unfold values in Ix. apply in_map_iff in Ix. destruct Ix as [[k v] [Ev Ik]].
    cbn in Ev. subst v. destruct (HI _ _ Ik) as [L [T S]]. rewrite L, T.
    split; [reflexivity|]. split; [|lia].
    destruct (O k (in_keys _ _ _ Ik)) as [s [Is [Hs Es]]].
    apply (count_pos_in _ _ s Is). unfold in_district, selected_by.
    now rewrite Hs, Es, String.eqb_refl.
  - intros s Is Hs.
    assert (K : In (district_of s) (map fst (fst a))).
    { destruct (in_dec string_dec (district_of s) (map fst (fst a))) as [K|K];
        [exact K|].
      exfalso. pose proof (HO _ K) as Z.
      assert (P : in_district (district_of s) s = true).
      { unfold in_district, selected_by. now rewrite Hs, String.eqb_refl. }
      pose proof (count_pos_in _ _ s Is P). lia. }
    apply in_map_iff in K. destruct K as [[k v] [Ek Ik]]. cbn in Ek. subst k.
    destruct (mapM_out _ _ _ E0 v) as [y [Iy Fy]].
    { unfold values. apply in_map_iff. exists (district_of s, v). auto. }
    exists y. split; [exact Iy|]. rewrite (finish_district_acc _ _ Fy).
    now destruct (HI _ _ Ik).
Qed.

(** [total_schools] of the block aggregates, when no two contributing
    records of different districts share a block key: the roll-up returns
    one aggregate for each pair of a district and a block named by a
    contributing record and no other, each counts the contributing records
    of its pair, and [schools_with_data] lies between zero and
    [total_schools]. *)
Theorem block_total_schools_counts_records
    (schools_data : dict School) (out : Aggregated) :
  no_collision (values schools_data) ->
  get_aggregated_data schools_data = Ok out ->
  NoDup (map block_names (blocks out)) /\
  (forall b, In b (blocks out) ->
     b_total_schools (b_acc b) =
       count (in_pair (b_district_name (b_acc b)) (b_block_name (b_acc b)))
             (values schools_data) /\
     0 < b_total_schools (b_acc b) /\
     0 <= b_schools_with_data (b_acc b) <= b_total_schools (b_acc b)) /\
  (forall s, In s (values schools_data) -> has_district s = true ->
     exists b, In b (blocks out) /\
               b_district_name (b_acc b) = district_of s /\
               b_block_name (b_acc b) = block_of s).
Proof.
  unfold get_aggregated_data. intros NC H. bind_inv H. bind_inv H. bind_inv H.
  inversion H; subst out; cbn [districts blocks].
  destruct (accumulate_ok (values schools_data) [] ([], []) a
              (counted_nil _ _ _ _) (counted_nil _ _ _ _) E) as [D B].
  assert (O : block_opened (snd a) ([] ++ values schools_data)).
  { apply (accumulate_opened _ [] ([], [])); try apply counted_nil; [|exact E].
    intros k b []. }
  cbn [app] in D, B, O. pose proof B as [N [HI HO]].
  split; [|split].
  - apply (NoDup_map_of block_names
             (fun p => (fst p ++ "|" ++ snd p)%string)).
    change (NoDup (map (fun b => block_label (b_acc b)) a1)).
    rewrite <- (map_map b_acc block_label).
    rewrite (mapM_map _ _ _ _ finish_block_acc E1).
    rewrite (counted_labels _ _ _ _ _ _ B). exact N.
  - intros b I. destruct (mapM_in _ _ _ E1 b I) as [x [Ix Fx]].
    rewrite (finish_block_acc _ _ Fx).
    unfold values in Ix. apply in_map_iff in Ix. destruct Ix as [[k v] [Ev Ik]].
    cbn in Ev. subst v. destruct (HI _ _ Ik) as [L [T S]].
    destruct (O _ _ Ik) as [s0 [I0 [H0 [K0 [Dn Bn]]]]].
    assert (C : count (in_block k) (values schools_data)
                = count (in_pair (b_district_name x) (b_block_name x))
                        (values schools_data)).
    { rewrite <- K0, <- Dn, <- Bn. apply count_ext_in.
      now apply key_selects_the_pair. }
    rewrite <- C, T. split; [reflexivity|]. split; [|lia].
    apply (count_pos_in _ _ s0 I0). unfold in_block, selected_by.
    now rewrite H0, K0, String.eqb_refl.
  - intros s Is Hs.
    assert (K : In (block_key s) (map fst (snd a))).
    { destruct (in_dec string_dec (block_key s) (map fst (snd a))) as [K|K];
        [exact K|].
      exfalso. pose proof (HO _ K) as Z.
      assert (P : in_block (block_key s) s = true).
      { unfold in_block, selected_by. now rewrite Hs, String.eqb_refl. }
      pose proof (count_pos_in _ _ s Is P). lia. }
    apply in_map_iff in K. destruct K as [[k v] [Ek Ik]]. cbn in Ek. subst k.
    destruct (mapM_out _ _ _ E1 v) as [y [Iy Fy]].
    { unfold values. apply in_map_iff. exists (block_key s, v). auto. }
    exists y. split; [exact Iy|]. rewrite (finish_block_acc _ _ Fy).
    destruct (O _ _ Ik) as [s0 [I0 [H0 [K0 [Dn Bn]]]]].
    pose proof (NC s0 s I0 Is H0 Hs K0) as Ed.
    unfold block_key in K0. rewrite Ed in K0. apply append_cancel in K0.
    apply (append_cancel "|") in K0.
    rewrite <- Dn, <- Bn. auto.
Qed.

End InvariantFacts.

(** ** Worked examples *)

Module Examples.

Import Dict DataImport Spec Totals.
Local Open Scope string_scope.
Local Open Scope list_scope.
Local Open Scope Z_scope.

(** Conservation on the five schools of [mixed_store]. *)
Lemma block_totals_conserved_witness :
  exists out,
    get_aggregated_data mixed_store = Ok out /\
    forall name,
      block_sum name (map b_acc (blocks out))
      = district_sum name (map d_acc (districts out)).
Proof.
  eexists. split; [vm_compute; reflexivity|].
  apply (ConservationFacts.block_totals_conserved mixed_store).
  - intros s s' I I' _ _ K. vm_compute in I, I'.
    repeat destruct I as [<-|I]; try contradiction;
      repeat destruct I' as [<-|I']; try contradiction;
      try reflexivity; discriminate K.
  - vm_compute. reflexivity.
Defined.

(** The grand totals of [mixed_store]: four schools are attributed. *)
Lemma grand_totals_witness :
  exists out,
    get_aggregated_data mixed_store = Ok out /\
    let inside := filter has_district (values mixed_store) in
    sum_of (fun d => d_total_schools (d_acc d)) (districts out)
      = Z.of_nat (List.length inside) /\
    sum_of (fun b => b_total_schools (b_acc b)) (blocks out)
      = Z.of_nat (List.length inside) /\
    sum_of (fun d => d_total_students (d_acc d)) (districts out)
      = sum_of (fun s => get_int (total_students s)) inside /\
    sum_of (fun b => b_total_students (b_acc b)) (blocks out)
      = sum_of (fun s => get_int (total_students s)) inside /\
    sum_of (fun d => d_total_teachers (d_acc d)) (districts out)
      = sum_of (fun s => get_int (total_teachers s)) inside.
Proof.
  eexists. split; [vm_compute; reflexivity|].
  apply (RollupFacts.grand_totals mixed_store). vm_compute. reflexivity.
Defined.

(** The shares of the first district of [mixed_store]. *)
Lemma district_shares_witness :
  exists out d,
    get_aggregated_data mixed_store = Ok out /\ In d (districts out) /\
    counts_ok (d_acc d) /\
    within 0 100 (d_water_percentage d) /\
    within 0 100 (d_toilet_percentage d) /\
    within 0 100 (d_data_entry_percentage d).
Proof.
  eexists. eexists. split; [vm_compute; reflexivity|].
  split; [left; reflexivity|].
  eapply (ShareFacts.district_shares_are_percentages mixed_store).
  - vm_compute. reflexivity.
  - left. reflexivity.
Defined.

(** A crowded school with an APAAR percentage out of range. *)
Lemma calculate_shi_within_witness :
  exists v, Server.calculate_shi crowded_school = Ok v /\ within 0 100 v.
Proof.
  eexists. split; [vm_compute; reflexivity|].
  apply (ClampFacts.calculate_shi_within crowded_school). vm_compute. reflexivity.
Defined.

(** Three blocks, ranked in another order than they were read in. *)
Lemma rag_distribution_witness :
  let sorted :=
    [ Ranking.mkEntry 2 (NInt 90) (Executive.get_rag (NInt 90));
      Ranking.mkEntry 1 (NFloat (Fin 72)) (Executive.get_rag (NFloat (Fin 72)));
      Ranking.mkEntry 3 (NInt 40) (Executive.get_rag (NInt 40)) ] in
  let d := Ranking.rag_distribution (Ranking.rerank 0 sorted) in
  Ranking.green d + Ranking.amber d + Ranking.red d = Z.min 20 3 /\
  Ranking.green d = 1.
Proof.
  apply (RankingFacts.rag_distribution_partitions
           [NFloat (Fin 72); NInt 90; NInt 40]).
  apply perm_swap.
Defined.

(** A sheet of a label row and one row of age-wise counts. *)
Lemma age_wise_totals_witness :
  exists r,
    In r [label_row; age_row] /\ Etl.is_placeholder_row r = false /\
    EtlAge.total (EtlAge.etl_age_wise_row age_row)
    = EtlAge.boys (EtlAge.etl_age_wise_row age_row)
      + EtlAge.girls (EtlAge.etl_age_wise_row age_row) /\
    EtlAge.boys (EtlAge.etl_age_wise_row age_row)
    = column_sum boys_class r (Etl.columns r) /\
    EtlAge.girls (EtlAge.etl_age_wise_row age_row)
    = column_sum girls_class r (Etl.columns r).
Proof.
  apply (EtlRecordFacts.age_wise_totals [label_row; age_row]
           (EtlAge.etl_age_wise_row age_row)).
  vm_compute. left. reflexivity.
Defined.

(** Four sub-indices within range. *)
Lemma shi_of_percentages_witness :
  exists v,
    Executive.shi (NFloat (Fin 80)) (NInt 100) (NFloat (Fin (1 # 2))) (NInt 0)
    = Ok v /\ within 0 100 v.
Proof.
  apply (IndexFacts.shi_of_percentages
           (NFloat (Fin 80)) (NInt 100) (NFloat (Fin (1 # 2))) (NInt 0));
    vm_compute; split; reflexivity.
Defined.

(** A district with 90 of 120 pupils, 50 of 80 ids and no teacher. *)
Lemma shi_score_of_parts_witness :
  exists v,
    EtlSummary.shi_score (Some (EtlSummary.mkAadhaarGroup 3 120 90))
      (Some (EtlSummary.mkApaarGroup 80 50)) None = Ok v /\
    within 0 100 v.
Proof.
  apply (IndexFacts.shi_score_of_parts
           (Some (EtlSummary.mkAadhaarGroup 3 120 90))
           (Some (EtlSummary.mkApaarGroup 80 50)) None);
    intros g E; inversion E; subst g; simpl; lia.
Defined.

(** A second Aadhaar row of school U2, moved to another block. *)
Lemma parse_aadhaar_row_witness :
  let r := mkAadhaarRow "U2" "School B" "PUNE" "MULSHI" 60 30 in
  exists store' pct,
    parse_aadhaar_row three_schools r = Ok store' /\
    percentage (ar_aadhaar_authenticated r) (ar_total_students r) = Ok pct /\
    get (ar_udise r) store'
    = Some (aadhaar_update r pct (entry (ar_udise r) three_schools)) /\
    (forall k, k <> ar_udise r -> get k store' = get k three_schools) /\
    map fst store'
    = (if mem (ar_udise r) three_schools then map fst three_schools
       else map fst three_schools ++ [ar_udise r]).
Proof.
  cbv zeta.
  destruct (parse_aadhaar_row three_schools
              (mkAadhaarRow "U2" "School B" "PUNE" "MULSHI" 60 30))
    as [store'|e] eqn:E; [|vm_compute in E; discriminate E].
  destruct (StoreFacts.parse_aadhaar_row_upserts three_schools store'
              (mkAadhaarRow "U2" "School B" "PUNE" "MULSHI" 60 30)
              ltac:(vm_compute; discriminate) E) as [pct H].
  exists store', pct. split; [reflexivity|]. exact H.
Defined.

(** A block cell with its code in brackets. *)
Lemma extract_name_witness :
  let float_repr := fun _ : pyfloat => "" in
  EtlNames.extract_block_name float_repr (VStr ("HAVELI " ++ "(" ++ "272501)"))
  = Str.strip "HAVELI " /\
  EtlNames.extract_district_name float_repr (VStr ("HAVELI " ++ "(" ++ "272501)"))
  = Str.strip "HAVELI " /\
  (Str.contains "&" "HAVELI " = false -> Str.contains "(" "272501)" = false ->
   EtlNames.extract_block_name float_repr (VStr ("HAVELI " ++ "&" ++ "272501)"))
   = Str.strip "HAVELI " /\
   EtlNames.extract_district_name float_repr (VStr ("HAVELI " ++ "&" ++ "272501)"))
   = Str.strip "HAVELI ").
Proof.
  apply (NameFacts.extract_name_of_labelled_cell (fun _ => "") "HAVELI " "272501)").
  reflexivity.
Defined.

(** A column header of the Aadhaar sheet. *)
Lemma clean_column_name_witness :
  let name :=
    ParserNames.clean_column_name (fun _ => "") (VStr " Total Students (2025-26)") in
  Text.all_chars column_char name = true /\
  Str.strip name = name /\
  ParserNames.clean_column_name (fun _ => "") (VStr name) = name.
Proof.
  apply (ColumnFacts.clean_column_name_normal (fun _ => "")
           " Total Students (2025-26)").
  reflexivity.
Defined.

(** Rates of a district in mid-table. *)
Lemma school_health_index_witness :
  exists identity infra teacher operational shi,
    Domains.identity_compliance_index (Domains.aadhaar_coverage sample_metrics)
      (Domains.apaar_coverage sample_metrics)
      (Domains.name_mismatch_rate sample_metrics) = Ok identity /\
    Domains.infrastructure_index (Domains.classroom_health sample_metrics)
      (Domains.toilet_functional sample_metrics)
      (Domains.water_availability sample_metrics)
      (Domains.electricity_pct sample_metrics) = Ok infra /\
    Domains.teacher_quality_index (Domains.ctet_pct sample_metrics)
      (Domains.nishtha_pct sample_metrics)
      (Domains.aadhaar_verified_pct sample_metrics) = Ok teacher /\
    Domains.operational_index (Domains.completion_rate sample_metrics)
      (Domains.certification_rate sample_metrics)
      (Domains.data_accuracy sample_metrics)
      (Domains.dropout_rate sample_metrics) = Ok operational /\
    Domains.school_health_index sample_metrics = Ok shi /\
    within 0 100 identity /\ within 0 100 infra /\ within 0 100 teacher /\
    within 0 100 operational /\ within 0 100 shi.
Proof.
  apply (DomainFacts.school_health_index_of_percentages sample_metrics).
  vm_compute. repeat split; reflexivity.
Defined.

(** A scope of 1200 students, 1100 with Aadhaar and 1150 matching names. *)
Lemma identity_index_witness :
  exists v,
    Domains.identity_index_of_sums (Domains.mkIdentitySums 1200 1100 1150 1000 640)
    = Ok v /\ within 0 100 v.
Proof.
  apply (DomainFacts.identity_index_of_parts
           (Domains.mkIdentitySums 1200 1100 1150 1000 640)); simpl; lia.
Defined.

(** School U1 has two rows: the second one is kept. *)
Lemma parse_aadhaar_last_row_witness :
  exists store',
    parse_aadhaar [] repeated_rows = Ok store' /\
    match last_row "U1" repeated_rows with
    | Some r =>
        exists pct,
          percentage (ar_aadhaar_authenticated r) (ar_total_students r) = Ok pct /\
          get "U1" store' = Some (aadhaar_update r pct (entry "U1" []))
    | None => get "U1" store' = get "U1" []
    end.
Proof.
  eexists. split; [vm_compute; reflexivity|].
  apply (SheetFacts.parse_aadhaar_last_row_wins repeated_rows []).
  vm_compute. reflexivity.
Defined.


(** The districts of [mixed_store]. *)
Lemma district_total_schools_witness :
  exists out,
    get_aggregated_data mixed_store = Ok out /\
    NoDup (map (fun d => d_district_name (d_acc d)) (districts out)) /\
    (forall d, In d (districts out) ->
       d_total_schools (d_acc d) =
         count (in_district (d_district_name (d_acc d))) (values mixed_store) /\
       0 < d_total_schools (d_acc d) /\
       0 <= d_schools_with_data (d_acc d) <= d_total_schools (d_acc d)) /\
    (forall s, In s (values mixed_store) -> has_district s = true ->
       exists d, In d (districts out) /\
                 d_district_name (d_acc d) = district_of s).
Proof.
  eexists. split; [vm_compute; reflexivity|].
  apply (InvariantFacts.district_total_schools_counts_records mixed_store).
  vm_compute. reflexivity.
Defined.

(** The blocks of [mixed_store]. *)
Lemma block_total_schools_witness :
  exists out,
    get_aggregated_data mixed_store = Ok out /\
    NoDup (map block_names (blocks out)) /\
    (forall b, In b (blocks out) ->
       b_total_schools (b_acc b) =
         count (in_pair (b_district_name (b_acc b)) (b_block_name (b_acc b)))
               (values mixed_store) /\
       0 < b_total_schools (b_acc b) /\
       0 <= b_schools_with_data (b_acc b) <= b_total_schools (b_acc b)) /\
    (forall s, In s (values mixed_store) -> has_district s = true ->
       exists b, In b (blocks out) /\
                 b_district_name (b_acc b) = district_of s /\
                 b_block_name (b_acc b) = block_of s).
Proof.
  eexists. split; [vm_compute; reflexivity|].
  apply (InvariantFacts.block_total_schools_counts_records mixed_store).
  - intros s s' I I' _ _ K. vm_compute in I, I'.
    repeat destruct I as [<-|I]; try contradiction;
      repeat destruct I' as [<-|I']; try contradiction;
      try reflexivity; discriminate K.
  - vm_compute. reflexivity.
Defined.

End Examples.
